(** * Blood Resource Allocation & Audit Ledger: a shallow embedding

    The development embeds the server-side JavaScript of the blood-bank
    administration backend (Express controllers over MongoDB models) and
    checks the statements of the design document against it.

    - JavaScript numbers that carry unit counts are integers or [NaN];
    - MongoDB collections are finite maps keyed by the hexadecimal text of
      the document's ObjectId, or lists where insertion order matters;
    - an [async] function is a state-and-exception computation over the
      database ([Js]); [await] is sequencing, [try]/[catch] is [try_catch];
      a thrown exception keeps every write made before it. *)

From Stdlib Require Import ZArith Lia Ascii String.
From stdpp Require Import base option list gmap strings pretty sorting.

Local Open Scope string_scope.
Local Open Scope Z_scope.

(** ** JavaScript values *)

Module JS.

(** A JavaScript number as far as the unit counts need it: an integer, or
    [NaN] (what [Number] and [parseInt] give for a value that does not
    coerce). *)
Inductive Number := NaN | Int (z : Z).

#[global] Instance Number_eq_dec : EqDecision Number.
Proof. solve_decision. Defined.

(** [a < b]: false as soon as one side is [NaN]. *)
Definition lt (a b : Number) : bool :=
  match a, b with
  | Int x, Int y => bool_decide (x < y)
  | _, _ => false
  end.

(** [a || d] on strings read from an object: [undefined] and the empty
    string are falsy. *)
Definition str_or (a : option string) (d : string) : string :=
  match a with
  | Some s => if bool_decide (s = "") then d else s
  | None => d
  end.

(** The truthy text of a field, [None] for [undefined] and for [""]. *)
Definition truthy (a : option string) : option string :=
  match a with
  | Some s => if bool_decide (s = "") then None else Some s
  | None => None
  end.

(** Exceptions. *)
Inductive Error :=
| TypeError (msg : string)
| BSONError (msg : string)
| MongoServerError (msg : string).

End JS.

(** ** Stock levels: [getStockStatus] *)

Definition getStockStatus (units : JS.Number) : string :=
  if JS.lt units (JS.Int 5) then "CRITICAL"
  else if JS.lt units (JS.Int 10) then "LOW"
  else if JS.lt units (JS.Int 20) then "MEDIUM"
  else "HEALTHY".

(** ** ObjectId and strings *)

Definition is_hex (c : ascii) : bool :=
  let n := nat_of_ascii c in
  (bool_decide (48 ≤ n)%nat && bool_decide (n ≤ 57)%nat)
  || (bool_decide (97 ≤ n)%nat && bool_decide (n ≤ 102)%nat)
  || (bool_decide (65 ≤ n)%nat && bool_decide (n ≤ 70)%nat).

Definition lower_ascii (c : ascii) : ascii :=
  let n := nat_of_ascii c in
  if bool_decide (65 ≤ n)%nat && bool_decide (n ≤ 90)%nat
  then ascii_of_nat (n + 32) else c.

(** [String.prototype.toLowerCase] on texts of ASCII characters; a character
    outside ASCII is left as it is. *)
Fixpoint toLowerCase (s : string) : string :=
  match s with
  | EmptyString => EmptyString
  | String c r => String (lower_ascii c) (toLowerCase r)
  end.

Fixpoint all_hex (s : string) : bool :=
  match s with
  | EmptyString => true
  | String c r => is_hex c && all_hex r
  end.

(** [new ObjectId(s)]: the identifier for a text of 24 hexadecimal digits,
    [None] where the constructor throws. *)
Definition ObjectId (s : string) : option string :=
  if bool_decide (String.length s = 24%nat) && all_hex s
  then Some (toLowerCase s) else None.

(** ** Documents and collections *)

(** One blood group's record inside a [blood_stock] document. *)
Record StockEntry := {
  units : Z;
  lastUpdated : Z;
  updatedBy : string
}.

(** A document of the [blood_stock] collection (one per blood bank). *)
Record BloodStockDoc := {
  bs_organizationCode : string;
  bloodStock : gmap string StockEntry;
  totalUnitsAvailable : Z;
  lastStockUpdateAt : Z
}.

(** The [verificationStatus] sub-document of a blood bank. *)
Record VerificationStatus := {
  isVerified : bool;
  verifiedBy : option string;
  verifiedAt : option Z;
  rejectedBy : option string;
  rejectedAt : option Z;
  rejectionReason : option string;
  suspendedBy : option string;
  suspendedAt : option Z;
  suspensionReason : option string
}.

(** A document of the [organizations] collection, with the fields the
    blood-bank model reads and writes. *)
Record Organization := {
  org_type : string;
  organizationCode : string;
  org_status : string;
  isActive : bool;
  verificationStatus : VerificationStatus;
  statistics : gmap string Z;
  updatedAt : Z;
  lastStockUpdate : option Z
}.

(** A hospital blood request. *)
Record HospitalRequestDoc := {
  hr_hospitalId : string;
  hr_bloodBankId : option string;
  hr_bloodGroup : string;
  hr_unitsRequested : Z;
  hr_urgency : string;
  hr_status : string;
  hr_unitsFulfilled : Z;
  hr_fulfilledAt : option Z
}.

(** A donation drive; [dr_collectedUnits] keeps the order of the keys of the
    JavaScript object, which [Object.entries] walks. *)
Record DriveDoc := {
  dr_bloodBankId : option string;
  dr_ngoId : string;
  dr_status : string;
  dr_collectedUnits : list (string * Z);
  dr_totalUnitsCollected : Z;
  dr_totalDonorsParticipated : Z;
  dr_completedAt : option Z
}.

(** A record of the [BloodBankAdminAction] collection. *)
Record AdminAction := {
  aa_bloodBankId : string;
  aa_adminId : string;
  aa_actionType : string;
  aa_reason : option string;
  aa_previousStatus : string;
  aa_newStatus : string;
  aa_timestamp : Z
}.

(** A record of the [audit_logs] collection. *)
Record AuditLog := {
  al_id : string;
  al_entityType : option string;
  al_action : option string;
  al_performedBy : option string;
  al_performedByRole : option string;
  al_entityId : option string;
  al_entityCode : option string;
  al_entityName : option string;
  al_changes : string * string;
  al_ipAddress : option string;
  al_timestamp : Z;
  al_status : string;
  al_description : option string;
  al_errorMessage : option string;
  al_metadata : string
}.

(** A record of the [alerts] collection. *)
Record AlertDoc := {
  at_id : string;
  at_type : option string;
  at_title : option string;
  at_message : option string;
  at_severity : string;
  at_relatedEntity : string;
  at_relatedEntityType : option string;
  at_isRead : bool;
  at_createdAt : Z;
  at_readAt : option Z;
  at_createdBy : option string;
  at_status : string
}.

(** The database: its collections, the clock [new Date()] reads and the
    counter the driver draws fresh ObjectIds from. *)
Record Store := {
  organizations : gmap string Organization;
  blood_stock : gmap string BloodStockDoc;
  hospital_blood_requests : gmap string HospitalRequestDoc;
  ngo_drives : gmap string DriveDoc;
  admin_actions : list AdminAction;
  audit_logs : list AuditLog;
  alerts : list AlertDoc;
  clock : Z;
  next_oid : N
}.

(** ** Asynchronous code as a state-and-exception computation *)

Inductive Outcome (A : Type) :=
| Returned (a : A)
| Thrown (e : JS.Error).
Arguments Returned {A} a.
Arguments Thrown {A} e.

Definition Js (A : Type) : Type := Store → Outcome A * Store.

#[global] Instance Js_ret : MRet Js := λ A a s, (Returned a, s).

#[global] Instance Js_bind : MBind Js := λ A B f m s,
  match m s with
  | (Returned a, s') => f a s'
  | (Thrown e, s') => (Thrown e, s')
  end.

Definition throw {A} (e : JS.Error) : Js A := λ s, (Thrown e, s).

(** [try { body } catch (error) { handler }]. *)
Definition try_catch {A} (body : Js A) (handler : JS.Error → Js A) : Js A :=
  λ s, match body s with
       | (Returned a, s') => (Returned a, s')
       | (Thrown e, s') => handler e s'
       end.

Definition get_store : Js Store := λ s, (Returned s, s).

(** [new Date()]. *)
Definition new_Date : Js Z := λ s, (Returned (clock s), s).

(** [new ObjectId(id)] inside an [async] body. *)
Definition new_ObjectId (id : string) : Js string :=
  match ObjectId id with
  | Some o => mret o
  | None => throw (JS.BSONError "input must be a 24 character hex string")
  end.

(** Store updates, one per collection. *)
Definition set_organizations (f : gmap string Organization → gmap string Organization)
    (s : Store) : Store :=
  {| organizations := f (organizations s); blood_stock := blood_stock s;
     hospital_blood_requests := hospital_blood_requests s; ngo_drives := ngo_drives s;
     admin_actions := admin_actions s; audit_logs := audit_logs s; alerts := alerts s;
     clock := clock s; next_oid := next_oid s |}.

Definition set_blood_stock (f : gmap string BloodStockDoc → gmap string BloodStockDoc)
    (s : Store) : Store :=
  {| organizations := organizations s; blood_stock := f (blood_stock s);
     hospital_blood_requests := hospital_blood_requests s; ngo_drives := ngo_drives s;
     admin_actions := admin_actions s; audit_logs := audit_logs s; alerts := alerts s;
     clock := clock s; next_oid := next_oid s |}.

Definition set_requests (f : gmap string HospitalRequestDoc → gmap string HospitalRequestDoc)
    (s : Store) : Store :=
  {| organizations := organizations s; blood_stock := blood_stock s;
     hospital_blood_requests := f (hospital_blood_requests s); ngo_drives := ngo_drives s;
     admin_actions := admin_actions s; audit_logs := audit_logs s; alerts := alerts s;
     clock := clock s; next_oid := next_oid s |}.

Definition set_drives (f : gmap string DriveDoc → gmap string DriveDoc)
    (s : Store) : Store :=
  {| organizations := organizations s; blood_stock := blood_stock s;
     hospital_blood_requests := hospital_blood_requests s; ngo_drives := f (ngo_drives s);
     admin_actions := admin_actions s; audit_logs := audit_logs s; alerts := alerts s;
     clock := clock s; next_oid := next_oid s |}.

Definition set_admin_actions (f : list AdminAction → list AdminAction)
    (s : Store) : Store :=
  {| organizations := organizations s; blood_stock := blood_stock s;
     hospital_blood_requests := hospital_blood_requests s; ngo_drives := ngo_drives s;
     admin_actions := f (admin_actions s); audit_logs := audit_logs s; alerts := alerts s;
     clock := clock s; next_oid := next_oid s |}.

Definition set_audit_logs (f : list AuditLog → list AuditLog) (s : Store) : Store :=
  {| organizations := organizations s; blood_stock := blood_stock s;
     hospital_blood_requests := hospital_blood_requests s; ngo_drives := ngo_drives s;
     admin_actions := admin_actions s; audit_logs := f (audit_logs s); alerts := alerts s;
     clock := clock s; next_oid := next_oid s |}.

Definition set_alerts (f : list AlertDoc → list AlertDoc) (s : Store) : Store :=
  {| organizations := organizations s; blood_stock := blood_stock s;
     hospital_blood_requests := hospital_blood_requests s; ngo_drives := ngo_drives s;
     admin_actions := admin_actions s; audit_logs := audit_logs s; alerts := f (alerts s);
     clock := clock s; next_oid := next_oid s |}.

Definition modify (f : Store → Store) : Js unit := λ s, (Returned (), f s).

(** The hexadecimal text of a driver-generated ObjectId. *)
Definition hex_char (d : N) : ascii :=
  if (d <? 10)%N then ascii_of_N (48 + d) else ascii_of_N (87 + d).

Fixpoint hex_digits (k : nat) (n : N) (acc : string) : string :=
  match k with
  | O => acc
  | S k' => hex_digits k' (n / 16)%N (String (hex_char (n mod 16)%N) acc)
  end.

(** [insertOne] lets the driver choose [insertedId]. *)
Definition fresh_ObjectId : Js string := λ s,
  (Returned (hex_digits 24 (next_oid s) ""),
   {| organizations := organizations s; blood_stock := blood_stock s;
      hospital_blood_requests := hospital_blood_requests s; ngo_drives := ngo_drives s;
      admin_actions := admin_actions s; audit_logs := audit_logs s; alerts := alerts s;
      clock := clock s; next_oid := N.succ (next_oid s) |}).

(** The JSON answer of a controller: HTTP status, [success], [message] and
    the payload where one is sent. *)
Inductive Payload :=
| NoData
| StockUpdated (bloodGroup : string) (unitsNow : Z) (status : string) (total : Z)
| StockSnapshot (groups : list (string * (Z * string))) (total : Z).

Record Response := {
  http_status : Z;
  success : bool;
  message : string;
  data : Payload
}.

Definition json (code : Z) (ok : bool) (msg : string) : Response :=
  {| http_status := code; success := ok; message := msg; data := NoData |}.

#[global] Instance StockEntry_eq_dec : EqDecision StockEntry.
Proof. solve_decision. Defined.
#[global] Instance VerificationStatus_eq_dec : EqDecision VerificationStatus.
Proof. solve_decision. Defined.
#[global] Instance Organization_eq_dec : EqDecision Organization.
Proof. solve_decision. Defined.

(** ** The blood-bank model ([class BloodBank]) *)

Module BloodBank.

(** [this.type]. *)
Definition type : string := "bloodbank".

(** The methods the class defines, in source order. *)
Definition methods : list string :=
  [ "getCollection"; "getBloodBankQuery"; "create"; "findById"; "findByCode";
    "findByEmail"; "findAll"; "findByStatus"; "touchStockTimestamp"; "updateById";
    "verifyByAdmin"; "rejectByAdmin"; "suspendByAdmin"; "reactivateByAdmin";
    "incrementStatistics"; "deleteById"; "getStatsByLocation" ].

(** [collection.updateOne({ _id, ...getBloodBankQuery(), <extra> }, update)]:
    the answer is [modifiedCount]. *)
Definition updateOne (o : string) (extra : Organization → bool)
    (update : Organization → Organization) : Js Z :=
  s ← get_store;
  match organizations s !! o with
  | Some d =>
      if bool_decide (org_type d = type) && extra d then
        if bool_decide (update d = d) then mret 0
        else modify (set_organizations (<[o := update d]>)) ;; mret 1
      else mret 0
  | None => mret 0
  end.

Definition findById (id : string) : Js (option Organization) :=
  try_catch
    (o ← new_ObjectId id;
     s ← get_store;
     mret (match organizations s !! o with
           | Some d => if bool_decide (org_type d = type) then Some d else None
           | None => None
           end))
    (λ _, mret None).

(** [$set] of [status], [isActive], [verificationStatus] fields and
    [updatedAt], as the four admin actions write them. *)
Definition set_status (status : string) (active : bool) (v : VerificationStatus)
    (now : Z) (d : Organization) : Organization :=
  {| org_type := org_type d; organizationCode := organizationCode d;
     org_status := status; isActive := active; verificationStatus := v;
     statistics := statistics d; updatedAt := now;
     lastStockUpdate := lastStockUpdate d |}.

Definition touchStockTimestamp (id : string) : Js bool :=
  try_catch
    (o ← new_ObjectId id;
     now ← new_Date;
     n ← updateOne o (λ _, true)
           (λ d, {| org_type := org_type d; organizationCode := organizationCode d;
                    org_status := org_status d; isActive := isActive d;
                    verificationStatus := verificationStatus d;
                    statistics := statistics d;
                    updatedAt := now; lastStockUpdate := Some now |});
     mret (bool_decide (0 < n)))
    (λ _, mret false).

Definition verifyByAdmin (id adminId : string) (remarks : option string) : Js bool :=
  try_catch
    (o ← new_ObjectId id;
     admin ← new_ObjectId adminId;
     now ← new_Date;
     n ← updateOne o (λ d, bool_decide (org_status d = "PENDING"))
           (λ d, let v := verificationStatus d in
                 set_status "VERIFIED" true
                   {| isVerified := true; verifiedBy := Some admin;
                      verifiedAt := Some now;
                      rejectedBy := rejectedBy v; rejectedAt := rejectedAt v;
                      rejectionReason := rejectionReason v;
                      suspendedBy := suspendedBy v; suspendedAt := suspendedAt v;
                      suspensionReason := suspensionReason v |} now d);
     mret (bool_decide (0 < n)))
    (λ _, mret false).

Definition rejectByAdmin (id adminId : string) (reason : string) : Js bool :=
  try_catch
    (o ← new_ObjectId id;
     admin ← new_ObjectId adminId;
     now ← new_Date;
     n ← updateOne o (λ d, bool_decide (org_status d = "PENDING"))
           (λ d, let v := verificationStatus d in
                 set_status "REJECTED" false
                   {| isVerified := isVerified v; verifiedBy := verifiedBy v;
                      verifiedAt := verifiedAt v;
                      rejectedBy := Some admin; rejectedAt := Some now;
                      rejectionReason := Some reason;
                      suspendedBy := suspendedBy v; suspendedAt := suspendedAt v;
                      suspensionReason := suspensionReason v |} now d);
     mret (bool_decide (0 < n)))
    (λ _, mret false).

Definition suspendByAdmin (id adminId : string) (reason : string) : Js bool :=
  try_catch
    (o ← new_ObjectId id;
     admin ← new_ObjectId adminId;
     now ← new_Date;
     n ← updateOne o (λ d, bool_decide (org_status d = "VERIFIED"))
           (λ d, let v := verificationStatus d in
                 set_status "SUSPENDED" false
                   {| isVerified := isVerified v; verifiedBy := verifiedBy v;
                      verifiedAt := verifiedAt v;
                      rejectedBy := rejectedBy v; rejectedAt := rejectedAt v;
                      rejectionReason := rejectionReason v;
                      suspendedBy := Some admin; suspendedAt := Some now;
                      suspensionReason := Some reason |} now d);
     mret (bool_decide (0 < n)))
    (λ _, mret false).

Definition reactivateByAdmin (id adminId : string) (remarks : option string) : Js bool :=
  try_catch
    (o ← new_ObjectId id;
     now ← new_Date;
     n ← updateOne o (λ d, bool_decide (org_status d = "SUSPENDED"))
           (λ d, let v := verificationStatus d in
                 set_status "VERIFIED" true
                   {| isVerified := isVerified v; verifiedBy := verifiedBy v;
                      verifiedAt := verifiedAt v;
                      rejectedBy := rejectedBy v; rejectedAt := rejectedAt v;
                      rejectionReason := rejectionReason v;
                      suspendedBy := None; suspendedAt := None;
                      suspensionReason := None |} now d);
     mret (bool_decide (0 < n)))
    (λ _, mret false).

(** [$inc] on a counter that is absent starts from 0. [statistics] holds
    the numeric counters; its two dates, which [create] leaves [null] and
    on which [$inc] fails, are outside it, and so is an empty field
    name. *)
Definition incrementStatistics (id field : string) (value : Z) : Js bool :=
  try_catch
    (o ← new_ObjectId id;
     now ← new_Date;
     n ← updateOne o (λ _, true)
           (λ d, {| org_type := org_type d; organizationCode := organizationCode d;
                    org_status := org_status d; isActive := isActive d;
                    verificationStatus := verificationStatus d;
                    statistics := <[field := default 0 (statistics d !! field) + value]>
                                    (statistics d);
                    updatedAt := now; lastStockUpdate := lastStockUpdate d |});
     mret (bool_decide (0 < n)))
    (λ _, mret false).

(** A call [BloodBank.<name>(...)] for a name the class does not define:
    the property is [undefined], and calling it throws. *)
Definition call_undefined (name : string) : Js unit :=
  throw (JS.TypeError ("BloodBank." +:+ name +:+ " is not a function")).

(** [BloodBank.updateBloodStock(bloodBankId, bloodGroup, delta)], as the
    request and drive controllers call it. [methods] has no such entry. *)
Definition updateBloodStock (bloodBankId bloodGroup : string) (delta : Z) : Js unit :=
  call_undefined "updateBloodStock".

End BloodBank.

(** The eight blood groups, as both controllers list them. *)
Definition validBloodGroups : list string :=
  [ "O+"; "O-"; "A+"; "A-"; "B+"; "B-"; "AB+"; "AB-" ].

(** [validBloodGroups.includes(g)]. *)
Definition includes (l : list string) (g : string) : bool :=
  bool_decide (g ∈ l).

(** ** The models that the controllers import and the sources do not hold *)

Module BloodStock.

(** [totalUnitsAvailable] is the sum of the group counters. *)
Definition total (m : gmap string StockEntry) : Z :=
  map_fold (λ _ e acc, units e + acc) 0 m.

(** Modelled from the spec: models/admin/BloodStock.js is missing. A bank's
    document embeds one StockRecord per blood group ("all eight group
    counters plus a derived totalUnitsAvailable"); a new document starts
    every counter at 0. *)
Definition empty_doc (organizationCode : string) (now : Z) : BloodStockDoc :=
  {| bs_organizationCode := organizationCode;
     bloodStock := list_to_map
       (map (λ g, (g, {| units := 0; lastUpdated := now; updatedBy := "system" |}))
            validBloodGroups);
     totalUnitsAvailable := 0;
     lastStockUpdateAt := now |}.

(** Modelled from the spec: [BloodStock.findByBloodBankId] is missing; it
    reads the bank's stock document, [null] when there is none. *)
Definition findByBloodBankId (id : string) : Js (option BloodStockDoc) :=
  o ← new_ObjectId id;
  s ← get_store;
  mret (blood_stock s !! o).

(** Modelled from the spec: [BloodStock.create] is missing; it inserts the
    bank's stock document with the eight counters at 0 and answers it. *)
Definition create (id organizationCode : string) : Js BloodStockDoc :=
  o ← new_ObjectId id;
  now ← new_Date;
  let d := empty_doc organizationCode now in
  modify (set_blood_stock (<[o := d]>)) ;;
  mret d.

(** Modelled from the spec: [BloodStock.updateBloodGroupUnits] is missing.
    It writes the StockRecord of one group ("every mutation updates
    lastUpdatedAt") and the derived total in a single document update, and
    answers whether a document was updated. The controller passes the
    validated [units] and reports [updatedGroup.units], with fallback
    [parsedUnits], as [unitsNow], and the stock page sends the edited count
    of the group: [units] is the new counter value. *)
Definition updateBloodGroupUnits (id bloodGroup : string) (n : Z) (by_ : string)
    : Js bool :=
  o ← new_ObjectId id;
  now ← new_Date;
  s ← get_store;
  match blood_stock s !! o with
  | Some d =>
      let groups := <[bloodGroup := {| units := n; lastUpdated := now; updatedBy := by_ |}]>
                      (bloodStock d) in
      modify (set_blood_stock
                (<[o := {| bs_organizationCode := bs_organizationCode d;
                           bloodStock := groups;
                           totalUnitsAvailable := total groups;
                           lastStockUpdateAt := now |}]>)) ;;
      mret true
  | None => mret false
  end.

End BloodStock.

(** The units a bank holds of a group, 0 where nothing is recorded. *)
Definition stock_of (s : Store) (bank group : string) : Z :=
  default 0 (units <$> (blood_stock s !! bank ≫= (λ d, bloodStock d !! group))).

Module HospitalBloodRequest.

(** Modelled from the spec: models/admin/HospitalBloodRequest.js is missing;
    [findById] reads the request, [null] when there is none. *)
Definition findById (id : string) : Js (option HospitalRequestDoc) :=
  try_catch
    (o ← new_ObjectId id;
     s ← get_store;
     mret (hospital_blood_requests s !! o))
    (λ _, mret None).

(** Modelled from the spec: [HospitalBloodRequest.fulfillRequest] is missing.
    "requires status == PROCESSING; requires unitsFulfilled ≤ unitsRequested;
    ... if the ledger call fails with InsufficientStockError, the request
    transition aborts (no status change)", the status being checked "as a
    precondition inside the same atomic update used for the status write":
    a request whose assigned bank holds fewer units of the group than are
    to be fulfilled is refused like one in another status, with nothing
    written. The answer tells whether the request was updated. The debit
    itself and the statistics are not this method's business: the
    controller calls the blood-bank model for them after it. *)
Definition fulfillRequest (id : string) (unitsFulfilled : Z) : Js bool :=
  try_catch
    (o ← new_ObjectId id;
     now ← new_Date;
     s ← get_store;
     match hospital_blood_requests s !! o with
     | Some r =>
         if bool_decide (hr_status r = "PROCESSING")
            && bool_decide (unitsFulfilled ≤ hr_unitsRequested r)
            && match hr_bloodBankId r with
               | Some bank => bool_decide (unitsFulfilled ≤ stock_of s bank (hr_bloodGroup r))
               | None => true
               end
         then
           modify (set_requests
                     (<[o := {| hr_hospitalId := hr_hospitalId r;
                                hr_bloodBankId := hr_bloodBankId r;
                                hr_bloodGroup := hr_bloodGroup r;
                                hr_unitsRequested := hr_unitsRequested r;
                                hr_urgency := hr_urgency r;
                                hr_status := "FULFILLED";
                                hr_unitsFulfilled := unitsFulfilled;
                                hr_fulfilledAt := Some now |}]>)) ;;
           mret true
         else mret false
     | None => mret false
     end)
    (λ _, mret false).

End HospitalBloodRequest.

Module BloodBankNgoDrive.

(** Modelled from the spec: models/admin/BloodBankNgoDrive.js is missing;
    [findById] reads the drive, [null] when there is none. *)
Definition findById (id : string) : Js (option DriveDoc) :=
  try_catch
    (o ← new_ObjectId id;
     s ← get_store;
     mret (ngo_drives s !! o))
    (λ _, mret None).

(** Modelled from the spec: [BloodBankNgoDrive.completeDrive] is missing.
    "complete(driveId, totalDonorsParticipated): valid only in ONGOING":
    the status write ONGOING to COMPLETED, with the status as precondition;
    the answer tells whether the drive was updated. *)
Definition completeDrive (id : string) (totalDonorsParticipated : Z) : Js bool :=
  try_catch
    (o ← new_ObjectId id;
     now ← new_Date;
     s ← get_store;
     match ngo_drives s !! o with
     | Some d =>
         if bool_decide (dr_status d = "ONGOING") then
           modify (set_drives
                     (<[o := {| dr_bloodBankId := dr_bloodBankId d;
                                dr_ngoId := dr_ngoId d;
                                dr_status := "COMPLETED";
                                dr_collectedUnits := dr_collectedUnits d;
                                dr_totalUnitsCollected := dr_totalUnitsCollected d;
                                dr_totalDonorsParticipated := totalDonorsParticipated;
                                dr_completedAt := Some now |}]>)) ;;
           mret true
         else mret false
     | None => mret false
     end)
    (λ _, mret false).

End BloodBankNgoDrive.

Module BloodBankAdminAction.

(** Modelled from the spec: models/admin/BloodBankAdminAction.js is missing;
    [create] appends one record of the admin action to its collection. The
    controllers reach it after a status write that went through; what it
    does with an identifier that is no ObjectId is not known, and nothing
    is stated that leans on it. *)
Definition create (bloodBankId adminId actionType : string) (reason : option string)
    (previousStatus newStatus : string) : Js unit :=
  now ← new_Date;
  modify (set_admin_actions
            (λ l, (l ++ [ {| aa_bloodBankId := bloodBankId; aa_adminId := adminId;
                             aa_actionType := actionType; aa_reason := reason;
                             aa_previousStatus := previousStatus;
                             aa_newStatus := newStatus; aa_timestamp := now |} ])%list)).

End BloodBankAdminAction.

(** ** The controllers *)

(** [for (const x of l) { await body(x) }]. *)
Fixpoint for_of {A} (l : list A) (body : A → Js unit) : Js unit :=
  match l with
  | [] => mret ()
  | x :: r => body x ;; for_of r body
  end.

(** [req.params.id], [req.body] and [req.user] of a stock update. The [units]
    field holds the number that [Number(units)] gives; [None] is
    [undefined]. *)
Record StockRequest := {
  sr_id : string;
  sr_bloodGroup : option string;
  sr_units : option JS.Number;
  sr_userCode : option string
}.

Definition getBloodStock (id : string) : Js Response :=
  try_catch
    (bloodBank ← BloodBank.findById id;
     match bloodBank with
     | None => mret (json 404 false "Blood bank not found")
     | Some bank =>
         found ← BloodStock.findByBloodBankId id;
         doc ← match found with
               | Some d => mret d
               | None => BloodStock.create id (organizationCode bank)
               end;
         let formattedStock :=
           (λ ge : string * StockEntry,
              (ge.1, (units ge.2, getStockStatus (JS.Int (units ge.2)))))
             <$> map_to_list (bloodStock doc) in
         mret {| http_status := 200; success := true;
                 message := "Blood stock retrieved successfully";
                 data := StockSnapshot formattedStock (totalUnitsAvailable doc) |}
     end)
    (λ _, mret (json 500 false "Error retrieving blood stock")).

Definition updateBloodStock (req : StockRequest) : Js Response :=
  try_catch
    (let id := sr_id req in
     let updatedBy := JS.str_or (sr_userCode req) "admin-panel" in
     match sr_bloodGroup req, sr_units req with
     | Some bloodGroup, Some parsedUnits =>
         if bool_decide (bloodGroup = "") then
           mret (json 400 false "Blood group and units are required")
         else if negb (includes validBloodGroups bloodGroup) then
           mret (json 400 false "Invalid blood group. Must be one of: O+, O-, A+, A-, B+, B-, AB+, AB-")
         else
           match parsedUnits with
           | JS.NaN => mret (json 400 false "Units must be a non-negative number")
           | JS.Int n =>
               if bool_decide (n < 0) then
                 mret (json 400 false "Units must be a non-negative number")
               else
                 bloodBank ← BloodBank.findById id;
                 match bloodBank with
                 | None => mret (json 404 false "Blood bank not found")
                 | Some bank =>
                     found ← BloodStock.findByBloodBankId id;
                     match found with
                     | Some _ => mret ()
                     | None => BloodStock.create id (organizationCode bank) ;; mret ()
                     end ;;
                     ok ← BloodStock.updateBloodGroupUnits id bloodGroup n updatedBy;
                     if negb ok then mret (json 500 false "Error updating blood stock")
                     else
                       BloodBank.touchStockTimestamp id ;;
                       updatedStock ← BloodStock.findByBloodBankId id;
                       let updatedGroup := updatedStock ≫= (λ d, bloodStock d !! bloodGroup) in
                       let unitsNow := default n (units <$> updatedGroup) in
                       mret {| http_status := 200; success := true;
                               message := "Blood stock updated successfully";
                               data := StockUpdated bloodGroup unitsNow
                                         (getStockStatus (JS.Int unitsNow))
                                         (default n (totalUnitsAvailable <$> updatedStock)) |}
                 end
           end
     | _, _ => mret (json 400 false "Blood group and units are required")
     end)
    (λ _, mret (json 500 false "Error updating blood stock")).

(** [req.body] and [req.admin] of an admin action on a blood bank;
    [ar_reason] is the field [remarks], [rejectionReason] or
    [suspensionReason] of the body. *)
Record AdminRequest := {
  ar_bloodBankId : option string;
  ar_reason : option string;
  ar_adminId : option string
}.

Definition verifyBloodBank (req : AdminRequest) : Js Response :=
  try_catch
    (match JS.truthy (ar_adminId req) with
     | None => mret (json 401 false "Admin authentication required")
     | Some adminId =>
         match JS.truthy (ar_bloodBankId req) with
         | None => mret (json 400 false "Blood bank ID is required")
         | Some bloodBankId =>
             ok ← BloodBank.verifyByAdmin bloodBankId adminId (ar_reason req);
             if negb ok then
               mret (json 400 false
                       "Verification failed. Blood bank must be in PENDING status.")
             else
               BloodBankAdminAction.create bloodBankId adminId "VERIFY"
                 (ar_reason req) "PENDING" "VERIFIED" ;;
               mret (json 200 true "Blood bank verified successfully")
         end
     end)
    (λ _, mret (json 500 false "Error verifying blood bank")).

Definition rejectBloodBank (req : AdminRequest) : Js Response :=
  try_catch
    (match JS.truthy (ar_adminId req) with
     | None => mret (json 401 false "Admin authentication required")
     | Some adminId =>
         match JS.truthy (ar_bloodBankId req), JS.truthy (ar_reason req) with
         | Some bloodBankId, Some rejectionReason =>
             ok ← BloodBank.rejectByAdmin bloodBankId adminId rejectionReason;
             if negb ok then
               mret (json 400 false
                       "Rejection failed. Blood bank must be in PENDING status.")
             else
               BloodBankAdminAction.create bloodBankId adminId "REJECT"
                 (Some rejectionReason) "PENDING" "REJECTED" ;;
               mret (json 200 true "Blood bank rejected successfully")
         | _, _ =>
             mret (json 400 false "Blood bank ID and rejection reason are required")
         end
     end)
    (λ _, mret (json 500 false "Error rejecting blood bank")).

Definition suspendBloodBank (req : AdminRequest) : Js Response :=
  try_catch
    (match JS.truthy (ar_adminId req) with
     | None => mret (json 401 false "Admin authentication required")
     | Some adminId =>
         match JS.truthy (ar_bloodBankId req), JS.truthy (ar_reason req) with
         | Some bloodBankId, Some suspensionReason =>
             ok ← BloodBank.suspendByAdmin bloodBankId adminId suspensionReason;
             if negb ok then
               mret (json 400 false
                       "Suspension failed. Blood bank must be in VERIFIED status.")
             else
               BloodBankAdminAction.create bloodBankId adminId "SUSPEND"
                 (Some suspensionReason) "VERIFIED" "SUSPENDED" ;;
               mret (json 200 true "Blood bank suspended successfully")
         | _, _ =>
             mret (json 400 false "Blood bank ID and suspension reason are required")
         end
     end)
    (λ _, mret (json 500 false "Error suspending blood bank")).

Definition reactivateBloodBank (req : AdminRequest) : Js Response :=
  try_catch
    (match JS.truthy (ar_adminId req) with
     | None => mret (json 401 false "Admin authentication required")
     | Some adminId =>
         match JS.truthy (ar_bloodBankId req) with
         | None => mret (json 400 false "Blood bank ID is required")
         | Some bloodBankId =>
             ok ← BloodBank.reactivateByAdmin bloodBankId adminId (ar_reason req);
             if negb ok then
               mret (json 400 false
                       "Reactivation failed. Blood bank must be in SUSPENDED status.")
             else
               BloodBankAdminAction.create bloodBankId adminId "REACTIVATE"
                 (ar_reason req) "SUSPENDED" "VERIFIED" ;;
               mret (json 200 true "Blood bank reactivated successfully")
         end
     end)
    (λ _, mret (json 500 false "Error reactivating blood bank")).

(** The four admin actions on a blood bank's status. *)
Inductive AdminActionKind := VERIFY | REJECT | SUSPEND | REACTIVATE.

Definition admin_action (k : AdminActionKind) : AdminRequest → Js Response :=
  match k with
  | VERIFY => verifyBloodBank
  | REJECT => rejectBloodBank
  | SUSPEND => suspendBloodBank
  | REACTIVATE => reactivateBloodBank
  end.

(** The [actionType], [previousStatus] and [newStatus] each one records. *)
Definition recorded_as (k : AdminActionKind) : string * string * string :=
  match k with
  | VERIFY => ("VERIFY", "PENDING", "VERIFIED")
  | REJECT => ("REJECT", "PENDING", "REJECTED")
  | SUSPEND => ("SUSPEND", "VERIFIED", "SUSPENDED")
  | REACTIVATE => ("REACTIVATE", "SUSPENDED", "VERIFIED")
  end.

(** [req.params.id] and the [unitsFulfilled] of [req.body] (a number, or
    [None] for [undefined]); the batch fields go to the request model
    untouched and are left out. *)
Record FulfillRequest := {
  fr_id : string;
  fr_unitsFulfilled : option JS.Number
}.

Definition fulfillRequest (req : FulfillRequest) : Js Response :=
  try_catch
    (let id := fr_id req in
     match fr_unitsFulfilled req with
     | Some (JS.Int unitsFulfilled) =>
         if bool_decide (unitsFulfilled = 0) then
           mret (json 400 false "Units fulfilled is required")
         else
           ok ← HospitalBloodRequest.fulfillRequest id unitsFulfilled;
           if negb ok then
             mret (json 400 false "Cannot fulfill request. Must be in PROCESSING status.")
           else
             request ← HospitalBloodRequest.findById id;
             match request ≫= (λ r, hr_bloodBankId r ≫= (λ b, Some (b, hr_bloodGroup r))) with
             | Some (bloodBankId, bloodGroup) =>
                 BloodBank.updateBloodStock bloodBankId bloodGroup (- unitsFulfilled) ;;
                 BloodBank.incrementStatistics bloodBankId
                   "totalHospitalRequestsFulfilled" 1 ;;
                 BloodBank.incrementStatistics bloodBankId
                   "totalUnitsDistributed" unitsFulfilled ;;
                 mret ()
             | None => mret ()
             end ;;
             mret (json 200 true "Request fulfilled successfully and blood stock updated")
     | _ => mret (json 400 false "Units fulfilled is required")
     end)
    (λ _, mret (json 500 false "Error fulfilling request")).

(** [req.params.id] and [req.body] of a drive completion. *)
Record CompleteRequest := {
  cr_id : string;
  cr_totalDonorsParticipated : option JS.Number;
  cr_notes : option string
}.

(** [parseInt(x) || 0]. *)
Definition parseInt_or_0 (x : option JS.Number) : Z :=
  match x with
  | Some (JS.Int z) => z
  | _ => 0
  end.

Definition completeDrive (req : CompleteRequest) : Js Response :=
  try_catch
    (let id := cr_id req in
     ok ← BloodBankNgoDrive.completeDrive id
            (parseInt_or_0 (cr_totalDonorsParticipated req));
     if negb ok then
       mret (json 400 false "Cannot complete drive. Must be in ONGOING status.")
     else
       drive ← BloodBankNgoDrive.findById id;
       match drive ≫= (λ d, dr_bloodBankId d ≫= (λ b, Some (b, d))) with
       | Some (bloodBankId, d) =>
           for_of (dr_collectedUnits d)
             (λ gu : string * Z,
                if bool_decide (0 < gu.2)
                then BloodBank.updateBloodStock bloodBankId gu.1 gu.2
                else mret ()) ;;
           BloodBank.incrementStatistics bloodBankId "totalNgoDrivesSupported" 1 ;;
           BloodBank.incrementStatistics bloodBankId "totalDonationsReceived"
             (dr_totalUnitsCollected d) ;;
           mret ()
       | None => mret ()
       end ;;
       mret (json 200 true "Drive completed successfully and blood stock updated"))
    (λ _, mret (json 500 false "Error completing drive")).

(** The entry points of the core that the stock, the request and the drive
    go through, and one request served. The registration, the profile
    update and the deletion of a blood bank are not among them. *)
Inductive Op :=
| OpGetBloodStock (id : string)
| OpUpdateBloodStock (req : StockRequest)
| OpAdminAction (k : AdminActionKind) (req : AdminRequest)
| OpFulfillRequest (req : FulfillRequest)
| OpCompleteDrive (req : CompleteRequest).

Definition handle (op : Op) : Js Response :=
  match op with
  | OpGetBloodStock id => getBloodStock id
  | OpUpdateBloodStock req => updateBloodStock req
  | OpAdminAction k req => admin_action k req
  | OpFulfillRequest req => fulfillRequest req
  | OpCompleteDrive req => completeDrive req
  end.

(** The database after a request, and after a sequence of them. *)
Definition after (op : Op) (s : Store) : Store := (handle op s).2.

Definition after_all (ops : list Op) (s : Store) : Store :=
  foldl (λ st op, after op st) s ops.

Definition request_status (s : Store) (id : string) : option string :=
  hr_status <$> hospital_blood_requests s !! id.

Definition drive_status (s : Store) (id : string) : option string :=
  dr_status <$> ngo_drives s !! id.

(** ** The audit model ([class Audit], collection [audit_logs]) *)

Module Audit.

(** The argument of [create]. *)
Record AuditData := {
  ad_entityType : option string;
  ad_action : option string;
  ad_performedBy : option string;
  ad_performedByRole : option string;
  ad_entityId : option string;
  ad_entityCode : option string;
  ad_entityName : option string;
  ad_changes : option (string * string);
  ad_ipAddress : option string;
  ad_status : option string;
  ad_description : option string;
  ad_errorMessage : option string;
  ad_metadata : option string
}.

Definition create (auditData : AuditData) : Js AuditLog :=
  entityId ← match JS.truthy (ad_entityId auditData) with
             | Some e => o ← new_ObjectId e; mret (Some o)
             | None => mret None
             end;
  now ← new_Date;
  let newLog (id : string) :=
    {| al_id := id;
       al_entityType := ad_entityType auditData;
       al_action := ad_action auditData;
       al_performedBy := ad_performedBy auditData;
       al_performedByRole := ad_performedByRole auditData;
       al_entityId := entityId;
       al_entityCode := ad_entityCode auditData;
       al_entityName := ad_entityName auditData;
       al_changes := default ("{}", "{}") (ad_changes auditData);
       al_ipAddress := ad_ipAddress auditData;
       al_timestamp := now;
       al_status := JS.str_or (ad_status auditData) "SUCCESS";
       al_description := ad_description auditData;
       al_errorMessage := JS.truthy (ad_errorMessage auditData);
       al_metadata := default "{}" (ad_metadata auditData) |} in
  insertedId ← fresh_ObjectId;
  modify (set_audit_logs (λ l, (l ++ [newLog insertedId])%list)) ;;
  mret (newLog insertedId).

(** A cursor of the driver: the documents [find] matched and the options
    set on it; nothing runs before [toArray]. *)
Record Cursor := {
  cur_docs : list AuditLog;
  cur_sort_timestamp_desc : bool;
  cur_skip : Z;
  cur_limit : Z
}.

Definition find (query : AuditLog → bool) : Js Cursor := λ s,
  (Returned {| cur_docs := filter (λ l, query l = true) (audit_logs s);
               cur_sort_timestamp_desc := false; cur_skip := 0; cur_limit := 0 |}, s).

Definition countDocuments (query : AuditLog → bool) : Js Z := λ s,
  (Returned (Z.of_nat (length (filter (λ l, query l = true) (audit_logs s)))), s).

(** [.sort({ timestamp: -1 })]. *)
Definition sort (c : Cursor) : Cursor :=
  {| cur_docs := cur_docs c; cur_sort_timestamp_desc := true;
     cur_skip := cur_skip c; cur_limit := cur_limit c |}.

Definition skip (n : Z) (c : Cursor) : Cursor :=
  {| cur_docs := cur_docs c; cur_sort_timestamp_desc := cur_sort_timestamp_desc c;
     cur_skip := n; cur_limit := cur_limit c |}.

Definition limit (n : Z) (c : Cursor) : Cursor :=
  {| cur_docs := cur_docs c; cur_sort_timestamp_desc := cur_sort_timestamp_desc c;
     cur_skip := cur_skip c; cur_limit := n |}.

(** Newest first. Among records of one instant the server promises no
    order; the model takes the one an insertion sort gives, and what is
    stated of the readers does not lean on it. *)
Fixpoint insert_desc (x : AuditLog) (l : list AuditLog) : list AuditLog :=
  match l with
  | [] => [x]
  | y :: r =>
      if bool_decide (al_timestamp y ≤ al_timestamp x) then x :: y :: r
      else y :: insert_desc x r
  end.

Fixpoint sort_desc (l : list AuditLog) : list AuditLog :=
  match l with
  | [] => []
  | x :: r => insert_desc x (sort_desc r)
  end.

(** The server sorts, then skips, then limits. It refuses a negative skip;
    a limit of 0 is no limit and a negative limit counts as its absolute
    value. *)
Definition toArray (c : Cursor) : Js (list AuditLog) :=
  let sorted := if cur_sort_timestamp_desc c then sort_desc (cur_docs c) else cur_docs c in
  if bool_decide (cur_skip c < 0) then
    throw (JS.MongoServerError "Skip value must be non-negative")
  else
    let rest := drop (Z.to_nat (cur_skip c)) sorted in
    mret (if bool_decide (cur_limit c = 0) then rest
          else take (Z.to_nat (Z.abs (cur_limit c))) rest).

(** [{ page = 1, limit = 50 } = pagination]. *)
Record Pagination := {
  pg_page : option Z;
  pg_limit : option Z
}.

Definition page_of (p : Pagination) : Z := default 1 (pg_page p).
Definition limit_of (p : Pagination) : Z := default 50 (pg_limit p).

(** What the paginated readers answer. [totalPages] is
    [Math.ceil(total / limit)], [None] where the division is by 0. *)
Record Page := {
  logs : list AuditLog;
  page : Z;
  page_limit : Z;
  total : Z;
  totalPages : option Z
}.

Definition ceil_div (a b : Z) : option Z :=
  if bool_decide (b = 0) then None else Some (- ((- a) `div` b)).

(** The body the five paginated readers share. *)
Definition paginated (query : AuditLog → bool) (p : Pagination) : Js Page :=
  let page := page_of p in
  let limit_ := limit_of p in
  total ← countDocuments query;
  c ← find query;
  logs ← toArray (limit limit_ (skip ((page - 1) * limit_) (sort c)));
  mret {| logs := logs; page := page; page_limit := limit_; total := total;
          totalPages := ceil_div total limit_ |}.

(** The argument [filters] of [findAll]; the dates are the instants
    [new Date(dateFrom)] and [new Date(dateTo)] denote. *)
Record Filters := {
  f_entityType : option string;
  f_action : option string;
  f_performedBy : option string;
  f_performedByRole : option string;
  f_status : option string;
  f_dateFrom : option Z;
  f_dateTo : option Z
}.

(** [if (v) query.field = v]. *)
Definition when_set (v : option string) (field : option string) : bool :=
  match JS.truthy v with
  | Some s => bool_decide (field = Some s)
  | None => true
  end.

Definition query_of (f : Filters) (l : AuditLog) : bool :=
  when_set (f_entityType f) (al_entityType l)
  && when_set (f_action f) (al_action l)
  && when_set (toLowerCase <$> JS.truthy (f_performedBy f)) (al_performedBy l)
  && when_set (f_performedByRole f) (al_performedByRole l)
  && when_set (f_status f) (Some (al_status l))
  && from_option (λ d, bool_decide (d ≤ al_timestamp l)) true (f_dateFrom f)
  && from_option (λ d, bool_decide (al_timestamp l ≤ d)) true (f_dateTo f).

Definition findAll (filters : Filters) (pagination : Pagination) : Js Page :=
  paginated (query_of filters) pagination.

Definition findById (logId : string) : Js (option AuditLog) :=
  try_catch
    (o ← new_ObjectId logId;
     s ← get_store;
     mret (head (filter (λ l, al_id l = o) (audit_logs s))))
    (λ _, mret None).

Definition findByEntityType (entityType : string) (pagination : Pagination) : Js Page :=
  paginated (λ l, bool_decide (al_entityType l = Some entityType)) pagination.

Definition findByAction (action : string) (pagination : Pagination) : Js Page :=
  paginated (λ l, bool_decide (al_action l = Some action)) pagination.

Definition findByEntityId (entityId : string) (pagination : Pagination) : Js Page :=
  try_catch
    (objectId ← new_ObjectId entityId;
     paginated (λ l, bool_decide (al_entityId l = Some objectId)) pagination)
    (λ _, mret {| logs := []; page := 1; page_limit := 50; total := 0;
                  totalPages := Some 0 |}).

Definition findByEntityCode (entityCode : string) (pagination : Pagination) : Js Page :=
  paginated (λ l, bool_decide (al_entityCode l = Some entityCode)) pagination.

Definition getRecentActivity (limit_ : option Z) : Js (list AuditLog) :=
  c ← find (λ _, true);
  toArray (limit (default 20 limit_) (sort c)).

Definition countByEntityType (entityType : string) : Js Z :=
  countDocuments (λ l, bool_decide (al_entityType l = Some entityType)).

(** [$group] with [count: { $sum: 1 }]. *)
Fixpoint bump {K} `{EqDecision K} (k : K) (acc : list (K * Z)) : list (K * Z) :=
  match acc with
  | [] => [(k, 1)]
  | (k', n) :: r => if decide (k = k') then (k', n + 1) :: r else (k', n) :: bump k r
  end.

Definition group_count {K} `{EqDecision K} (key : AuditLog → K) (l : list AuditLog)
    : list (K * Z) :=
  foldl (λ acc x, bump (key x) acc) [] l.

(** [$sort: { count: -1 }]; groups of one count keep their order. *)
Fixpoint insert_by_count {K} (x : K * Z) (l : list (K * Z)) : list (K * Z) :=
  match l with
  | [] => [x]
  | y :: r => if bool_decide (y.2 ≤ x.2) then x :: y :: r else y :: insert_by_count x r
  end.

Definition sort_by_count {K} (l : list (K * Z)) : list (K * Z) :=
  foldr insert_by_count [] l.

Record Stats := {
  totalLogs : Z;
  byEntityType : list (option string * Z);
  byAction : list (option string * Z);
  byStatus : list (string * Z);
  byPerformedBy : list (option string * Z)
}.

(** [getStats]; [byPerformedBy] is sorted by count and cut at ten. *)
Definition getStats (dateFrom dateTo : option Z) : Js Stats := λ s,
  let matched :=
    filter (λ l, from_option (λ d, bool_decide (d ≤ al_timestamp l)) true dateFrom
                 && from_option (λ d, bool_decide (al_timestamp l ≤ d)) true dateTo = true)
           (audit_logs s) in
  (Returned {| totalLogs := Z.of_nat (length matched);
               byEntityType := group_count al_entityType matched;
               byAction := group_count al_action matched;
               byStatus := group_count al_status matched;
               byPerformedBy :=
                 take 10 (sort_by_count (group_count al_performedBy matched)) |}, s).

(** Every method of the class, as a call; [getCollection], which the
    methods use to reach the collection, is not one. *)
Inductive Call :=
| Create (auditData : AuditData)
| FindAll (filters : Filters) (pagination : Pagination)
| FindById (logId : string)
| FindByEntityType (entityType : string) (pagination : Pagination)
| FindByAction (action : string) (pagination : Pagination)
| FindByEntityId (entityId : string) (pagination : Pagination)
| GetStats (dateFrom dateTo : option Z)
| GetRecentActivity (limit_ : option Z)
| CountByEntityType (entityType : string)
| FindByEntityCode (entityCode : string) (pagination : Pagination).

(** The database after a call (its answer dropped). *)
Definition exec (c : Call) (s : Store) : Store :=
  match c with
  | Create d => (create d s).2
  | FindAll f p => (findAll f p s).2
  | FindById i => (findById i s).2
  | FindByEntityType t p => (findByEntityType t p s).2
  | FindByAction a p => (findByAction a p s).2
  | FindByEntityId i p => (findByEntityId i p s).2
  | GetStats a b => (getStats a b s).2
  | GetRecentActivity n => (getRecentActivity n s).2
  | CountByEntityType t => (countByEntityType t s).2
  | FindByEntityCode c p => (findByEntityCode c p s).2
  end.

Definition exec_all (cs : list Call) (s : Store) : Store :=
  foldl (λ st c, exec c st) s cs.

(** The paginated readers, and the query each one sends. *)
Inductive Reader :=
| ReadAll (filters : Filters)
| ReadByEntityType (entityType : string)
| ReadByAction (action : string)
| ReadByEntityId (entityId : string)
| ReadByEntityCode (entityCode : string).

Definition read (r : Reader) (p : Pagination) : Js Page :=
  match r with
  | ReadAll f => findAll f p
  | ReadByEntityType t => findByEntityType t p
  | ReadByAction a => findByAction a p
  | ReadByEntityId i => findByEntityId i p
  | ReadByEntityCode c => findByEntityCode c p
  end.

Definition selects (r : Reader) (l : AuditLog) : bool :=
  match r with
  | ReadAll f => query_of f l
  | ReadByEntityType t => bool_decide (al_entityType l = Some t)
  | ReadByAction a => bool_decide (al_action l = Some a)
  | ReadByEntityId i =>
      match ObjectId i with
      | Some o => bool_decide (al_entityId l = Some o)
      | None => false
      end
  | ReadByEntityCode c => bool_decide (al_entityCode l = Some c)
  end.

End Audit.

(** ** The alert model ([class Alert], collection [alerts]) *)

Module Alert.

(** The argument of [create]. *)
Record AlertData := {
  d_type : option string;
  d_title : option string;
  d_message : option string;
  d_severity : option string;
  d_relatedEntity : option string;
  d_relatedEntityType : option string;
  d_createdBy : option string
}.

Definition create (alertData : AlertData) : Js AlertDoc :=
  now ← new_Date;
  let newAlert (id : string) :=
    {| at_id := id;
       at_type := d_type alertData;
       at_title := d_title alertData;
       at_message := d_message alertData;
       at_severity := JS.str_or (d_severity alertData) "MEDIUM";
       at_relatedEntity := default "{}" (d_relatedEntity alertData);
       at_relatedEntityType := d_relatedEntityType alertData;
       at_isRead := false;
       at_createdAt := now;
       at_readAt := None;
       at_createdBy := d_createdBy alertData;
       at_status := "ACTIVE" |} in
  insertedId ← fresh_ObjectId;
  modify (set_alerts (λ l, (l ++ [newAlert insertedId])%list)) ;;
  mret (newAlert insertedId).

End Alert.

(** ** Notions the properties are stated with *)

(** [keeps proj m]: running [m] does not change the part [proj] of the
    database, whether [m] returns or throws. *)
Definition keeps {A B} (proj : Store → B) (m : Js A) : Prop :=
  ∀ s, proj (m s).2 = proj s.

(** A part of the database that a write to [organizations] does not reach. *)
Definition off_organizations {B} (proj : Store → B) : Prop :=
  ∀ f s, proj (set_organizations f s) = proj s.

(** Newest first. *)
Definition newer_first (a b : AuditLog) : Prop := al_timestamp b ≤ al_timestamp a.

(** The page a well-formed pagination selects from the matching records. *)
Definition page_slice (p : Audit.Pagination) (matching : list AuditLog) : list AuditLog :=
  take (Z.to_nat (Audit.limit_of p))
       (drop (Z.to_nat ((Audit.page_of p - 1) * Audit.limit_of p))
             (Audit.sort_desc matching)).

(** No group counter of any bank is negative. *)
Definition stock_nonneg (s : Store) : Prop :=
  map_Forall (λ _ d, map_Forall (λ _ e, 0 ≤ units e) (bloodStock d)) (blood_stock s).

(** [preserves P m]: [P] survives [m], whether [m] returns or throws. *)
Definition preserves {A} (P : Store → Prop) (m : Js A) : Prop :=
  ∀ s, P s → P (m s).2.

(** The records of both audit collections, counted. *)
Definition audit_entries (s : Store) : nat :=
  (length (audit_logs s) + length (admin_actions s))%nat.

(** The statements of the design document that the code is measured
    against. *)

(** A complete on an ONGOING drive that fails leaves every stock counter at
    its value and the drive ONGOING. *)
Definition complete_rolls_back (s : Store) (req : CompleteRequest) : Prop :=
  ∀ o d,
    ObjectId (cr_id req) = Some o →
    ngo_drives s !! o = Some d →
    dr_status d = "ONGOING" →
    ∃ resp s',
      completeDrive req s = (Returned resp, s')
      ∧ (success resp = false →
         blood_stock s' = blood_stock s ∧ drive_status s' o = Some "ONGOING").

(** Fulfilling twice debits the bank's stock once by [n]: the first call
    succeeds, the second is refused. *)
Definition fulfilled_exactly_once (s : Store) (id bank group : string) (n : Z) : Prop :=
  let req := {| fr_id := id; fr_unitsFulfilled := Some (JS.Int n) |} in
  let first := fulfillRequest req s in
  let second := fulfillRequest req first.2 in
  (∃ resp, first.1 = Returned resp ∧ success resp = true)
  ∧ (∃ resp, second.1 = Returned resp ∧ success resp = false)
  ∧ stock_of second.2 bank group = stock_of s bank group - n.

(** A read answers a page of logs, newest first, of at most [limit]
    entries, whatever the page and the limit asked for. *)
Definition read_is_paginated (r : Audit.Reader) (p : Audit.Pagination) (s : Store) : Prop :=
  ∃ pg s',
    Audit.read r p s = (Returned pg, s')
    ∧ StronglySorted newer_first (Audit.logs pg)
    ∧ Z.of_nat (length (Audit.logs pg)) ≤ Audit.limit_of p.

(** One attempt, one audit record. *)
Definition attempt_audited (op : Op) (s : Store) : Prop :=
  audit_entries (after op s) = S (audit_entries s).


(** ** The scenario of the design document

    Blood bank BB-001, a CRITICAL request for 5 units of O+ assigned to it
    and in PROCESSING, and an ONGOING drive that collected 10 units of O+. *)

Module Scenario.

Definition bb001 : string := "64b000000000000000000001".
Definition bb002 : string := "64b000000000000000000002".
Definition request : string := "64b0000000000000000000a1".
Definition drive : string := "64b0000000000000000000d1".
Definition admin : string := "64b0000000000000000000ad".

Definition bank (code status : string) : Organization :=
  {| org_type := "bloodbank"; organizationCode := code; org_status := status;
     isActive := bool_decide (status = "VERIFIED");
     verificationStatus :=
       {| isVerified := bool_decide (status = "VERIFIED");
          verifiedBy := None; verifiedAt := None;
          rejectedBy := None; rejectedAt := None; rejectionReason := None;
          suspendedBy := None; suspendedAt := None; suspensionReason := None |};
     statistics := ∅; updatedAt := 0; lastStockUpdate := None |}.

(** The stock document of BB-001 with [n] units of O+. *)
Definition stock (n : Z) : BloodStockDoc :=
  let groups := <["O+" := {| units := n; lastUpdated := 0; updatedBy := "system" |}]>
                  (bloodStock (BloodStock.empty_doc "BB-001" 0)) in
  {| bs_organizationCode := "BB-001"; bloodStock := groups;
     totalUnitsAvailable := BloodStock.total groups; lastStockUpdateAt := 0 |}.

(** The database with [n] units of O+ at BB-001; BB-002 awaits
    verification. *)
Definition db (n : Z) : Store :=
  {| organizations := {[ bb001 := bank "BB-001" "VERIFIED"; bb002 := bank "BB-002" "PENDING" ]};
     blood_stock := {[ bb001 := stock n ]};
     hospital_blood_requests :=
       {[ request := {| hr_hospitalId := "64b0000000000000000000f1";
                        hr_bloodBankId := Some bb001; hr_bloodGroup := "O+";
                        hr_unitsRequested := 5; hr_urgency := "CRITICAL";
                        hr_status := "PROCESSING"; hr_unitsFulfilled := 0;
                        hr_fulfilledAt := None |} ]};
     ngo_drives :=
       {[ drive := {| dr_bloodBankId := Some bb001;
                      dr_ngoId := "64b0000000000000000000e1";
                      dr_status := "ONGOING"; dr_collectedUnits := [("O+", 10)];
                      dr_totalUnitsCollected := 10; dr_totalDonorsParticipated := 0;
                      dr_completedAt := None |} ]};
     admin_actions := []; audit_logs := []; alerts := [];
     clock := 1700000000000; next_oid := 1 |}.

Definition fulfill5 : FulfillRequest :=
  {| fr_id := request; fr_unitsFulfilled := Some (JS.Int 5) |}.

Definition complete : CompleteRequest :=
  {| cr_id := drive; cr_totalDonorsParticipated := Some (JS.Int 4); cr_notes := None |}.

Definition set_units (n : Z) : StockRequest :=
  {| sr_id := bb001; sr_bloodGroup := Some "O+"; sr_units := Some (JS.Int n);
     sr_userCode := Some "BB-001-ADM" |}.

Definition act_on (bank : string) : AdminRequest :=
  {| ar_bloodBankId := Some bank; ar_reason := Some "licence checked";
     ar_adminId := Some admin |}.

(** Three audit records, written at instants 30, 10 and 20. *)
Definition log (id : string) (t : Z) : AuditLog :=
  {| al_id := id; al_entityType := Some "BLOOD_STOCK"; al_action := Some "UPDATED";
     al_performedBy := Some "admin@sebn.org"; al_performedByRole := Some "ADMIN";
     al_entityId := Some bb001; al_entityCode := Some "BB-001";
     al_entityName := None; al_changes := ("{}", "{}"); al_ipAddress := None;
     al_timestamp := t; al_status := "SUCCESS"; al_description := None;
     al_errorMessage := None; al_metadata := "{}" |}.

Definition audited : Store :=
  {| organizations := ∅; blood_stock := ∅; hospital_blood_requests := ∅;
     ngo_drives := ∅; admin_actions := [];
     audit_logs := [ log "000000000000000000000001" 30;
                     log "000000000000000000000002" 10;
                     log "000000000000000000000003" 20 ];
     alerts := []; clock := 40; next_oid := 4 |}.

End Scenario.
(** ** The rest of the alert model, and its controllers *)

#[global] Instance AlertDoc_eq_dec : EqDecision AlertDoc.
Proof. solve_decision. Defined.

Module Alerts.

(** The documents of a collection a query matches, counted. *)
Definition count (query : AlertDoc → bool) (l : list AlertDoc) : Z :=
  Z.of_nat (length (filter (λ a, query a = true) l)).

Definition countDocuments (query : AlertDoc → bool) : Js Z := λ s,
  (Returned (count query (alerts s)), s).

(** Newest first by [createdAt]; alerts of one instant keep their insertion
    order. *)
Fixpoint insert_desc (x : AlertDoc) (l : list AlertDoc) : list AlertDoc :=
  match l with
  | [] => [x]
  | y :: r =>
      if bool_decide (at_createdAt y ≤ at_createdAt x) then x :: y :: r
      else y :: insert_desc x r
  end.

Fixpoint sort_desc (l : list AlertDoc) : list AlertDoc :=
  match l with
  | [] => []
  | x :: r => insert_desc x (sort_desc r)
  end.

(** [find(query).sort({ createdAt: -1 }).skip(k).limit(n).toArray()], with
    the server's reading of [k] and [n]: a negative skip is refused, a limit
    of 0 is no limit and a negative limit counts as its absolute value. *)
Definition find_sorted (query : AlertDoc → bool) (k n : Z) : Js (list AlertDoc) := λ s,
  let sorted := sort_desc (filter (λ a, query a = true) (alerts s)) in
  if bool_decide (k < 0) then
    (Thrown (JS.MongoServerError "Skip value must be non-negative"), s)
  else
    let rest := drop (Z.to_nat k) sorted in
    (Returned (if bool_decide (n = 0) then rest else take (Z.to_nat (Z.abs n)) rest), s).

(** [{ page = 1, limit = 20 } = pagination]. *)
Definition page_of (p : Audit.Pagination) : Z := default 1 (Audit.pg_page p).
Definition limit_of (p : Audit.Pagination) : Z := default 20 (Audit.pg_limit p).

Record Page := {
  pa_alerts : list AlertDoc;
  pa_page : Z;
  pa_limit : Z;
  pa_total : Z;
  pa_totalPages : option Z
}.

Definition paginated (query : AlertDoc → bool) (p : Audit.Pagination) : Js Page :=
  let page := page_of p in
  let limit_ := limit_of p in
  total ← countDocuments query;
  found ← find_sorted query ((page - 1) * limit_) limit_;
  mret {| pa_alerts := found; pa_page := page; pa_limit := limit_; pa_total := total;
          pa_totalPages := Audit.ceil_div total limit_ |}.

(** The argument [filters] of [findAll]; [fa_status] is [None] where the
    caller leaves [status] out, which the destructuring turns into ACTIVE. *)
Record Filters := {
  fa_unreadOnly : bool;
  fa_severity : option string;
  fa_type : option string;
  fa_relatedEntityType : option string;
  fa_status : option string
}.

Definition query_of (f : Filters) (a : AlertDoc) : bool :=
  bool_decide (at_status a = default "ACTIVE" (fa_status f))
  && (if fa_unreadOnly f then negb (at_isRead a) else true)
  && Audit.when_set (fa_severity f) (Some (at_severity a))
  && Audit.when_set (fa_type f) (at_type a)
  && Audit.when_set (fa_relatedEntityType f) (at_relatedEntityType a).

Definition findAll (filters : Filters) (pagination : Audit.Pagination) : Js Page :=
  paginated (query_of filters) pagination.

Definition findById (alertId : string) : Js (option AlertDoc) :=
  try_catch
    (o ← new_ObjectId alertId;
     s ← get_store;
     mret (head (filter (λ a, at_id a = o) (alerts s))))
    (λ _, mret None).

(** [$set: { isRead: true, readAt: new Date() }]. *)
Definition mark (now : Z) (a : AlertDoc) : AlertDoc :=
  {| at_id := at_id a; at_type := at_type a; at_title := at_title a;
     at_message := at_message a; at_severity := at_severity a;
     at_relatedEntity := at_relatedEntity a;
     at_relatedEntityType := at_relatedEntityType a;
     at_isRead := true; at_createdAt := at_createdAt a; at_readAt := Some now;
     at_createdBy := at_createdBy a; at_status := at_status a |}.

(** [updateOne({ _id: o }, update)] on a collection: the first document
    with the id is written; the count is [modifiedCount], 0 where the
    document is what it was. *)
Fixpoint update_first (o : string) (update : AlertDoc → AlertDoc) (l : list AlertDoc)
    : list AlertDoc * Z :=
  match l with
  | [] => ([], 0)
  | a :: r =>
      if bool_decide (at_id a = o) then
        (update a :: r, if bool_decide (update a = a) then 0 else 1)
      else (a :: (update_first o update r).1, (update_first o update r).2)
  end.

Definition updateOne (o : string) (update : AlertDoc → AlertDoc) : Js Z := λ s,
  (Returned (update_first o update (alerts s)).2,
   set_alerts (λ l, (update_first o update l).1) s).

(** [updateMany({ _id: { $in: ids } }, update)]. *)
Definition updateMany (ids : list string) (update : AlertDoc → AlertDoc) : Js Z := λ s,
  (Returned (count (λ a, bool_decide (at_id a ∈ ids) && negb (bool_decide (update a = a)))
                   (alerts s)),
   set_alerts (fmap (λ a, if bool_decide (at_id a ∈ ids) then update a else a)) s).

Definition markAsRead (alertId : string) : Js bool :=
  try_catch
    (o ← new_ObjectId alertId;
     now ← new_Date;
     n ← updateOne o (mark now);
     mret (bool_decide (0 < n)))
    (λ _, mret false).

(** [alertIds.map(id => new ObjectId(id))]. *)
Fixpoint new_ObjectIds (ids : list string) : Js (list string) :=
  match ids with
  | [] => mret []
  | id :: r => o ← new_ObjectId id; os ← new_ObjectIds r; mret (o :: os)
  end.

Definition markMultipleAsRead (alertIds : list string) : Js Z :=
  try_catch
    (objectIds ← new_ObjectIds alertIds;
     now ← new_Date;
     updateMany objectIds (mark now))
    (λ _, mret 0).

Definition getUnreadCount : Js Z :=
  countDocuments (λ a, negb (at_isRead a) && bool_decide (at_status a = "ACTIVE")).

Definition findByType (type : string) (pagination : Audit.Pagination) : Js Page :=
  paginated (λ a, bool_decide (at_type a = Some type)
                  && bool_decide (at_status a = "ACTIVE")) pagination.

Record Summary := {
  sm_total : Z;
  sm_unread : Z;
  sm_critical : Z;
  sm_high : Z;
  sm_medium : Z;
  sm_low : Z
}.

(** [$match] on ACTIVE, then one [$group] over all of them; no group comes
    out of an empty match. *)
Definition getSummary : Js Summary := λ s,
  let active := filter (λ a, at_status a = "ACTIVE") (alerts s) in
  let severity (v : string) := count (λ a, bool_decide (at_severity a = v)) active in
  (Returned (match active with
             | [] => {| sm_total := 0; sm_unread := 0; sm_critical := 0;
                        sm_high := 0; sm_medium := 0; sm_low := 0 |}
             | _ :: _ =>
                 {| sm_total := Z.of_nat (length active);
                    sm_unread := count (λ a, negb (at_isRead a)) active;
                    sm_critical := severity "CRITICAL";
                    sm_high := severity "HIGH";
                    sm_medium := severity "MEDIUM";
                    sm_low := severity "LOW" |}
             end), s).

End Alerts.

(** ** The dashboard's alert figures ([class Dashboard]) *)

Module Dashboard.

Record AlertStats := {
  as_total : Z;
  as_unread : Z;
  as_critical : Z;
  as_high : Z;
  as_byType : list (option string * Z)
}.

(** [$group] by type with [count: { $sum: 1 }]. *)
Definition by_type (l : list AlertDoc) : list (option string * Z) :=
  foldl (λ acc a, Audit.bump (at_type a) acc) [] l.

Definition getAlertStats : Js AlertStats := λ s,
  let active := filter (λ a, at_status a = "ACTIVE") (alerts s) in
  (Returned {| as_total := Z.of_nat (length active);
               as_unread := Alerts.count (λ a, bool_decide (at_isRead a = false)) active;
               as_critical := Alerts.count (λ a, bool_decide (at_severity a = "CRITICAL")) active;
               as_high := Alerts.count (λ a, bool_decide (at_severity a = "HIGH")) active;
               as_byType := take 5 (Audit.sort_by_count (by_type active)) |}, s).

End Dashboard.

(** The answer of an alert controller: HTTP status, [success], [message]
    and [data] where it is sent. *)
Record Reply (D : Type) := {
  rp_status : Z;
  rp_success : bool;
  rp_message : string;
  rp_data : option D
}.
Arguments rp_status {D} _.
Arguments rp_success {D} _.
Arguments rp_message {D} _.
Arguments rp_data {D} _.

Definition reply {D} (code : Z) (ok : bool) (msg : string) : Reply D :=
  {| rp_status := code; rp_success := ok; rp_message := msg; rp_data := None |}.

Definition validTypes : list string :=
  [ "DELAYED_EMERGENCY"; "NO_BLOOD_BANK_RESPONSE"; "NGO_FALLBACK_TRIGGERED";
    "CRITICAL_SHORTAGE"; "LOW_STOCK_WARNING"; "ORGANIZATION_SUSPENDED";
    "EMERGENCY_ESCALATION"; "SYSTEM_ERROR" ].

Definition validSeverities : list string := [ "LOW"; "MEDIUM"; "HIGH"; "CRITICAL" ].

(** [req.body] of [createAlert]. *)
Record CreateAlertRequest := {
  ca_type : option string;
  ca_title : option string;
  ca_message : option string;
  ca_severity : option string;
  ca_relatedEntity : option string;
  ca_relatedEntityType : option string;
  ca_createdBy : option string
}.

Definition createAlert (req : CreateAlertRequest) : Js (Reply AlertDoc) :=
  try_catch
    (match JS.truthy (ca_type req), JS.truthy (ca_title req), JS.truthy (ca_message req) with
     | Some type, Some title, Some message_ =>
         if negb (includes validTypes type) then
           mret (reply 400 false
                   ("Invalid alert type. Must be one of: " +:+ String.concat ", " validTypes))
         else if match JS.truthy (ca_severity req) with
                 | Some severity => negb (includes validSeverities severity)
                 | None => false
                 end then
           mret (reply 400 false
                   ("Invalid severity. Must be one of: " +:+ String.concat ", " validSeverities))
         else
           alert ← Alert.create
                     {| Alert.d_type := Some type;
                        Alert.d_title := Some title;
                        Alert.d_message := Some message_;
                        Alert.d_severity := Some (JS.str_or (ca_severity req) "MEDIUM");
                        Alert.d_relatedEntity := Some (default "{}" (ca_relatedEntity req));
                        Alert.d_relatedEntityType := ca_relatedEntityType req;
                        Alert.d_createdBy := Some (JS.str_or (ca_createdBy req) "system") |};
           mret {| rp_status := 201; rp_success := true;
                   rp_message := "Alert created successfully"; rp_data := Some alert |}
     | _, _, _ => mret (reply 400 false "Type, title, and message are required")
     end)
    (λ _, mret (reply 500 false "Error creating alert")).

(** [req.params.alertId]. *)
Definition markAlertAsRead (alertId : string) : Js (Reply unit) :=
  try_catch
    (if bool_decide (alertId = "") then mret (reply 400 false "Alert ID is required")
     else
       alert ← Alerts.findById alertId;
       match alert with
       | None => mret (reply 404 false "Alert not found")
       | Some _ =>
           ok ← Alerts.markAsRead alertId;
           if negb ok then mret (reply 500 false "Error marking alert as read")
           else mret (reply 200 true "Alert marked as read successfully")
       end)
    (λ _, mret (reply 500 false "Error marking alert as read")).

(** [req.body.alertIds], [None] where it is absent or no array. *)
Definition markMultipleAlertsAsRead (alertIds : option (list string)) : Js (Reply Z) :=
  try_catch
    (match alertIds with
     | Some (id :: ids) =>
         n ← Alerts.markMultipleAsRead (id :: ids);
         mret {| rp_status := 200; rp_success := true;
                 rp_message := pretty n +:+ " alert(s) marked as read successfully";
                 rp_data := Some n |}
     | _ => mret (reply 400 false "Alert IDs array is required")
     end)
    (λ _, mret (reply 500 false "Error marking alerts as read")).

(** ** Deleting a blood bank *)

Module BloodBankRemoval.

(** [BloodBank.deleteById]: [deleteOne({ _id, type: "bloodbank" })]. *)
Definition deleteById (id : string) : Js bool :=
  try_catch
    (o ← new_ObjectId id;
     s ← get_store;
     match organizations s !! o with
     | Some d =>
         if bool_decide (org_type d = BloodBank.type) then
           modify (set_organizations (delete o)) ;; mret true
         else mret false
     | None => mret false
     end)
    (λ _, mret false).

End BloodBankRemoval.

(** [req.params.id] and [req.admin?._id]. *)
Definition deleteBloodBank (id : string) (adminId : option string) : Js Response :=
  try_catch
    (match JS.truthy adminId with
     | None => mret (json 401 false "Admin authentication required")
     | Some _ =>
         ok ← BloodBankRemoval.deleteById id;
         if negb ok then mret (json 404 false "Blood bank not found")
         else mret (json 200 true "Blood bank deleted successfully")
     end)
    (λ _, mret (json 500 false "Error deleting blood bank")).

(** ** Notions for the blood-bank documents *)

(** The four status changes the admin actions make. *)
Inductive lifecycle : string → string → Prop :=
| lifecycle_verify : lifecycle "PENDING" "VERIFIED"
| lifecycle_reject : lifecycle "PENDING" "REJECTED"
| lifecycle_suspend : lifecycle "VERIFIED" "SUSPENDED"
| lifecycle_reactivate : lifecycle "SUSPENDED" "VERIFIED".

(** A write that leaves the standing of a bank alone (a time stamp, a
    counter). *)
Definition same_standing (d d' : Organization) : Prop :=
  org_status d' = org_status d
  ∧ isActive d' = isActive d
  ∧ verificationStatus d' = verificationStatus d.

(** A write that moves the status along the lifecycle: the bank is active
    exactly when it arrives at VERIFIED, it becomes verified on its way from
    PENDING to VERIFIED and keeps that flag otherwise, and its counters stay. *)
Definition status_change (d d' : Organization) : Prop :=
  lifecycle (org_status d) (org_status d')
  ∧ isActive d' = bool_decide (org_status d' = "VERIFIED")
  ∧ isVerified (verificationStatus d')
    = (isVerified (verificationStatus d)
       || bool_decide (org_status d = "PENDING" ∧ org_status d' = "VERIFIED"))
  ∧ statistics d' = statistics d.

(** One write to a document of the [organizations] collection. *)
Definition bank_write (d d' : Organization) : Prop :=
  org_type d = BloodBank.type
  ∧ org_type d' = org_type d
  ∧ organizationCode d' = organizationCode d
  ∧ (same_standing d d' ∨ status_change d d').

(** The collection after some writes: the same identifiers, each document
    reached from the one it was by writes. *)
Definition orgs_evolve (s s' : Store) : Prop :=
  ∀ o, match organizations s !! o, organizations s' !! o with
       | Some d, Some d' => rtc bank_write d d'
       | None, None => True
       | _, _ => False
       end.

Definition evolves {A} (m : Js A) : Prop := ∀ s, orgs_evolve s (m s).2.

(** A bank is active exactly when VERIFIED, and one that is VERIFIED or
    SUSPENDED carries the verified flag. *)
Definition standing_consistent (s : Store) : Prop :=
  map_Forall
    (λ _ d, org_type d = BloodBank.type →
       isActive d = bool_decide (org_status d = "VERIFIED")
       ∧ (org_status d = "VERIFIED" ∨ org_status d = "SUSPENDED" →
          isVerified (verificationStatus d) = true))
    (organizations s).

(** The status the bank [o] has, [None] where there is no such document. *)
Definition bank_status (s : Store) (o : string) : option string :=
  org_status <$> organizations s !! o.

(** The value of a counter of a bank, 0 where it is absent. *)
Definition statistic (s : Store) (o field : string) : Z :=
  default 0 (organizations s !! o ≫= (λ d, statistics d !! field)).

(** The counters that [BloodBank.create] starts at 0, the ones the
    controllers increment. The two other fields of [statistics],
    [lastDonationDate] and [lastDistributionDate], start as [null] and are
    no counters. *)
Definition statistic_counters : list string :=
  ["totalDonationsReceived"; "totalUnitsDistributed"; "totalNgoDrivesSupported";
   "totalHospitalRequestsFulfilled"].

(** What an admin action needs in order to go through: both identifiers
    are well formed, and the bank's names a blood bank in the status the
    action starts from. *)
Definition actionable (k : AdminActionKind) (s : Store) (bankId adminId : string) : Prop :=
  ∃ o d, ObjectId bankId = Some o
    ∧ organizations s !! o = Some d
    ∧ org_type d = BloodBank.type
    ∧ org_status d = (recorded_as k).1.2
    ∧ is_Some (ObjectId adminId).

(** A text of ASCII characters only: on these [toLowerCase] is JavaScript's
    [String.prototype.toLowerCase]. *)
Definition ascii_only (s : string) : Prop :=
  Forall (λ c, (nat_of_ascii c < 128)%nat) (list_ascii_of_string s).

(** ** Notions for the audit readers and the groupings *)

(** The logs a reader answers for page [i] of pages of [size] records,
    nothing where the call throws. *)
Definition page_logs (r : Audit.Reader) (size : Z) (s : Store) (i : nat) : list AuditLog :=
  match (Audit.read r {| Audit.pg_page := Some (Z.of_nat i);
                         Audit.pg_limit := Some size |} s).1 with
  | Returned pg => Audit.logs pg
  | Thrown _ => []
  end.

(** The counts of a grouping summed, and the count it holds under a key. *)
Definition sum_counts {K} (g : list (K * Z)) : Z := foldr (λ kc n, kc.2 + n) 0 g.

Definition tally {K} `{EqDecision K} (k : K) (g : list (K * Z)) : Z :=
  foldr (λ kc n, if decide (kc.1 = k) then kc.2 + n else n) 0 g.

(** The records with the key [k], counted. *)
Definition count_key {A K} `{EqDecision K} (key : A → K) (k : K) (l : list A) : Z :=
  Z.of_nat (length (filter (λ x, key x = k) l)).

(** The records [getStats] matches for a date range. *)
Definition in_range (dateFrom dateTo : option Z) (s : Store) : list AuditLog :=
  filter (λ l, from_option (λ d, bool_decide (d ≤ al_timestamp l)) true dateFrom
               && from_option (λ d, bool_decide (al_timestamp l ≤ d)) true dateTo = true)
         (audit_logs s).

(** A grouping read as a tally of the records [l] by [key]: one entry per
    key that occurs, holding the number of records with that key. *)
Definition tallies {A K} `{EqDecision K} (key : A → K) (l : list A) (g : list (K * Z)) : Prop :=
  NoDup g.*1
  ∧ sum_counts g = Z.of_nat (length l)
  ∧ ∀ k, (∀ c, (k, c) ∈ g → 0 < c ∧ c = count_key key k l)
         ∧ (0 < count_key key k l → (k, count_key key k l) ∈ g).

(** ** Notions for the alerts *)

(** An alert that is unread and ACTIVE, as [getUnreadCount] counts them. *)
Definition unread_active (a : AlertDoc) : bool :=
  negb (at_isRead a) && bool_decide (at_status a = "ACTIVE").

(** The unread ACTIVE alerts of a database, counted. *)
Definition unread (s : Store) : Z := Alerts.count unread_active (alerts s).

(** An alert as [createAlert] lets it in: a type and a severity from the
    two lists, a title and a message that are not empty, a creator. *)
Definition alert_well_formed (a : AlertDoc) : Prop :=
  (∃ t, at_type a = Some t ∧ t ∈ validTypes)
  ∧ at_severity a ∈ validSeverities
  ∧ (∃ t, at_title a = Some t ∧ t ≠ "")
  ∧ (∃ m, at_message a = Some m ∧ m ≠ "")
  ∧ (∃ c, at_createdBy a = Some c ∧ c ≠ "").

(** The request passes the checks of [createAlert]. *)
Definition alert_request_valid (req : CreateAlertRequest) : Prop :=
  (∃ t, JS.truthy (ca_type req) = Some t ∧ t ∈ validTypes)
  ∧ is_Some (JS.truthy (ca_title req))
  ∧ is_Some (JS.truthy (ca_message req))
  ∧ (∀ v, JS.truthy (ca_severity req) = Some v → v ∈ validSeverities).

(** Newest first, for alerts. *)
Definition alert_newer_first (a b : AlertDoc) : Prop := at_createdAt b ≤ at_createdAt a.

(** ** An alert board

    Three alerts on the database of the scenario: two unread, one read. *)

Module Board.

Definition shortage : string := "0000000000000000000000a1".
Definition low_stock : string := "0000000000000000000000a2".
Definition suspension : string := "0000000000000000000000a3".

Definition alert (id type severity : string) (read : bool) (t : Z) : AlertDoc :=
  {| at_id := id; at_type := Some type; at_title := Some "Stock alert";
     at_message := Some "BB-001 needs attention"; at_severity := severity;
     at_relatedEntity := "{}"; at_relatedEntityType := Some "BLOOD_BANK";
     at_isRead := read; at_createdAt := t;
     at_readAt := if read then Some (t + 1) else None;
     at_createdBy := Some "system"; at_status := "ACTIVE" |}.

Definition db : Store :=
  set_alerts (λ _, [ alert shortage "CRITICAL_SHORTAGE" "CRITICAL" false 10;
                     alert low_stock "LOW_STOCK_WARNING" "LOW" true 20;
                     alert suspension "ORGANIZATION_SUSPENDED" "HIGH" false 30 ])
             (Scenario.db 3).

End Board.

(** The identifier names no blood bank: it is malformed, or no document
    has it, or the document is of another type. *)
Definition names_no_bank (s : Store) (id : string) : Prop :=
  ∀ o d, ObjectId id = Some o → organizations s !! o = Some d →
         org_type d ≠ BloodBank.type.
(** * Properties *)

(** ** Reasoning about [Js] computations *)

Lemma bind_returned {A B} (m : Js A) (f : A → Js B) s a s' :
  m s = (Returned a, s') → (m ≫= f) s = f a s'.
Proof. intros H. unfold mbind, Js_bind. by rewrite H. Qed.

(** A [try] whose handler answers a value always returns, in the state the
    body reached. *)
Lemma try_catch_returns {A} (m : Js A) (h : JS.Error → A) (s : Store) :
  ∃ a, try_catch m (λ e, mret (h e)) s = (Returned a, (m s).2).
Proof.
  unfold try_catch. destruct (m s) as [[a|e] s']; eexists; reflexivity.
Qed.

Lemma try_catch_never_throws {A} (m : Js A) (h : JS.Error → A) s e s' :
  try_catch m (λ e, mret (h e)) s = (Thrown e, s') → False.
Proof.
  destruct (try_catch_returns m h s) as [a Ha]. rewrite Ha. discriminate.
Qed.

(** What a computation leaves alone, for one part [proj] of the database. *)
Section Keeps.

Context {B : Type} (proj : Store → B).

Lemma keeps_ret {A} (a : A) : keeps proj (mret a).
Proof. by intros s. Qed.

Lemma keeps_throw {A} e : keeps proj (@throw A e).
Proof. by intros s. Qed.

Lemma keeps_bind {A A'} (m : Js A) (f : A → Js A') :
  keeps proj m → (∀ a, keeps proj (f a)) → keeps proj (m ≫= f).
Proof.
  intros Hm Hf s. unfold mbind, Js_bind. specialize (Hm s).
  destruct (m s) as [[a|e] s']; simpl in *; [by rewrite Hf | done].
Qed.

Lemma keeps_try_catch {A} (m : Js A) (h : JS.Error → Js A) :
  keeps proj m → (∀ e, keeps proj (h e)) → keeps proj (try_catch m h).
Proof.
  intros Hm Hh s. unfold try_catch. specialize (Hm s).
  destruct (m s) as [[a|e] s']; simpl in *; [done | by rewrite Hh].
Qed.

Lemma keeps_get_store : keeps proj get_store.
Proof. by intros s. Qed.

Lemma keeps_new_Date : keeps proj new_Date.
Proof. by intros s. Qed.

Lemma keeps_new_ObjectId id : keeps proj (new_ObjectId id).
Proof. unfold new_ObjectId. destruct (ObjectId id) as [o|]; by intros s. Qed.

Lemma keeps_for_of {A} (l : list A) (body : A → Js unit) :
  (∀ x, keeps proj (body x)) → keeps proj (for_of l body).
Proof.
  intros Hb. induction l as [|x r IH]; simpl; [apply keeps_ret |].
  apply keeps_bind; [apply Hb | intros _; apply IH].
Qed.

Lemma keeps_modify (f : Store → Store) :
  (∀ s, proj (f s) = proj s) → keeps proj (modify f).
Proof. intros H s. apply H. Qed.

Lemma keeps_updateBloodStock_call bank group delta :
  keeps proj (BloodBank.updateBloodStock bank group delta).
Proof. apply keeps_throw. Qed.

(** The writers of the blood-bank model reach [organizations] only. *)
Hypothesis Hoff : off_organizations proj.

Lemma keeps_updateOne o extra update :
  keeps proj (BloodBank.updateOne o extra update).
Proof.
  unfold BloodBank.updateOne.
  apply keeps_bind; [apply keeps_get_store |]. intros s.
  destruct (organizations s !! o) as [d|]; [| apply keeps_ret].
  destruct (_ && _); [| apply keeps_ret].
  case_bool_decide; [apply keeps_ret |].
  apply keeps_bind; [| intros; apply keeps_ret].
  apply keeps_modify. intros s'. apply Hoff.
Qed.

End Keeps.

Create HintDb js_keep.
#[export] Hint Resolve keeps_ret keeps_throw keeps_bind keeps_try_catch
  keeps_get_store keeps_new_Date keeps_new_ObjectId keeps_for_of
  keeps_updateBloodStock_call keeps_updateOne : js_keep.
#[export] Hint Extern 2 (keeps _ (modify _)) =>
  (apply keeps_modify; intros; reflexivity) : js_keep.
#[export] Hint Extern 5 (keeps _ (if ?b then _ else _)) => destruct b : js_keep.
#[export] Hint Extern 5 (keeps _ (match ?x with Some _ => _ | None => _ end)) =>
  destruct x : js_keep.

Lemma off_organizations_blood_stock : off_organizations blood_stock.
Proof. by intros f s. Qed.
Lemma off_organizations_requests : off_organizations hospital_blood_requests.
Proof. by intros f s. Qed.
Lemma off_organizations_drives : off_organizations ngo_drives.
Proof. by intros f s. Qed.
Lemma off_organizations_admin_actions : off_organizations admin_actions.
Proof. by intros f s. Qed.
Lemma off_organizations_audit_logs : off_organizations audit_logs.
Proof. by intros f s. Qed.

(** The methods of the blood-bank model write to [organizations] and to
    nothing else. *)
Section BloodBankWrites.

Context {B : Type} (proj : Store → B) (Hoff : off_organizations proj).

Lemma keeps_findById_bank id : keeps proj (BloodBank.findById id).
Proof. unfold BloodBank.findById. auto 10 with js_keep. Qed.

Lemma keeps_incrementStatistics id field value :
  keeps proj (BloodBank.incrementStatistics id field value).
Proof. unfold BloodBank.incrementStatistics. auto 10 with js_keep. Qed.

Lemma keeps_touchStockTimestamp id : keeps proj (BloodBank.touchStockTimestamp id).
Proof. unfold BloodBank.touchStockTimestamp. auto 10 with js_keep. Qed.

Lemma keeps_verifyByAdmin id adminId remarks :
  keeps proj (BloodBank.verifyByAdmin id adminId remarks).
Proof. unfold BloodBank.verifyByAdmin. auto 10 with js_keep. Qed.

Lemma keeps_rejectByAdmin id adminId reason :
  keeps proj (BloodBank.rejectByAdmin id adminId reason).
Proof. unfold BloodBank.rejectByAdmin. auto 10 with js_keep. Qed.

Lemma keeps_suspendByAdmin id adminId reason :
  keeps proj (BloodBank.suspendByAdmin id adminId reason).
Proof. unfold BloodBank.suspendByAdmin. auto 10 with js_keep. Qed.

Lemma keeps_reactivateByAdmin id adminId remarks :
  keeps proj (BloodBank.reactivateByAdmin id adminId remarks).
Proof. unfold BloodBank.reactivateByAdmin. auto 10 with js_keep. Qed.

End BloodBankWrites.

#[export] Hint Resolve keeps_incrementStatistics keeps_touchStockTimestamp
  keeps_verifyByAdmin keeps_rejectByAdmin keeps_suspendByAdmin
  keeps_reactivateByAdmin keeps_findById_bank
  off_organizations_blood_stock off_organizations_requests off_organizations_drives
  off_organizations_admin_actions off_organizations_audit_logs : js_keep.

(** ** Stock status thresholds *)

(** C5. [getStockStatus] is a total function of the unit count alone: below
    5 it answers CRITICAL, from 5 below 10 LOW, from 10 below 20 MEDIUM and
    from 20 on HEALTHY; 5 itself is LOW. *)
Theorem getStockStatus_thresholds (n : Z) :
  (n < 5 → getStockStatus (JS.Int n) = "CRITICAL")
  ∧ (5 ≤ n < 10 → getStockStatus (JS.Int n) = "LOW")
  ∧ (10 ≤ n < 20 → getStockStatus (JS.Int n) = "MEDIUM")
  ∧ (20 ≤ n → getStockStatus (JS.Int n) = "HEALTHY")
  ∧ getStockStatus (JS.Int 5) = "LOW".
Proof.
  unfold getStockStatus, JS.lt.
  repeat split; try intros H; repeat case_bool_decide; try lia; reflexivity.
Qed.

(** ** Alerts *)

(** C10. The alert [create] answers is unread ([isRead = false],
    [readAt = null]) and ACTIVE, it is the record appended to the
    collection, and its severity is the caller's when the caller gives one
    (a truthy text), MEDIUM when the caller gives none. *)
Theorem alert_create_unread_active (d : Alert.AlertData) (s : Store) :
  ∃ a s', Alert.create d s = (Returned a, s')
    ∧ alerts s' = (alerts s ++ [a])%list
    ∧ at_isRead a = false
    ∧ at_readAt a = None
    ∧ at_status a = "ACTIVE"
    ∧ (∀ sev, Alert.d_severity d = Some sev → sev ≠ "" → at_severity a = sev)
    ∧ (Alert.d_severity d = None → at_severity a = "MEDIUM").
Proof.
  eexists _, _. split.
  { unfold Alert.create, mbind, Js_bind, new_Date, fresh_ObjectId, modify. reflexivity. }
  simpl. repeat split.
  - intros sev Hs Hne. rewrite Hs. simpl. by case_bool_decide.
  - intros Hs. by rewrite Hs.
Qed.

Example alert_without_severity :
  let d := {| Alert.d_type := Some "CRITICAL_SHORTAGE";
              Alert.d_title := Some "O+ below 5 units";
              Alert.d_message := Some "BB-001 holds 3 units of O+";
              Alert.d_severity := None; Alert.d_relatedEntity := None;
              Alert.d_relatedEntityType := Some "BLOOD_BANK";
              Alert.d_createdBy := Some "system" |} in
  at_severity <$> alerts (Alert.create d (Scenario.db 3)).2 = ["MEDIUM"]
  ∧ at_isRead <$> alerts (Alert.create d (Scenario.db 3)).2 = [false]
  ∧ at_status <$> alerts (Alert.create d (Scenario.db 3)).2 = ["ACTIVE"].
Proof. repeat split; vm_compute; reflexivity. Qed.

(** ** The audit ledger *)

Lemma Forall_insert_desc (P : AuditLog → Prop) x l :
  P x → Forall P l → Forall P (Audit.insert_desc x l).
Proof.
  intros Hx Hl. induction Hl as [|y r Hy Hr IH]; simpl.
  - by constructor.
  - case_bool_decide; repeat constructor; done.
Qed.

Lemma insert_desc_sorted x l :
  StronglySorted newer_first l → StronglySorted newer_first (Audit.insert_desc x l).
Proof.
  induction 1 as [|y r Hr IH Hy]; simpl.
  - repeat constructor.
  - case_bool_decide as Hle.
    + constructor; [by constructor |].
      constructor; [done |].
      eapply Forall_impl; [exact Hy |]. unfold newer_first. intros; simpl in *; lia.
    + constructor; [done |].
      apply Forall_insert_desc; [unfold newer_first; lia | done].
Qed.

Lemma sort_desc_sorted l : StronglySorted newer_first (Audit.sort_desc l).
Proof.
  induction l as [|x r IH]; simpl; [constructor | by apply insert_desc_sorted].
Qed.

Lemma insert_desc_perm x l : Audit.insert_desc x l ≡ₚ x :: l.
Proof.
  induction l as [|y r IH]; simpl; [done |].
  case_bool_decide; [done |]. rewrite IH. apply Permutation_swap.
Qed.

Lemma sort_desc_perm l : Audit.sort_desc l ≡ₚ l.
Proof.
  induction l as [|x r IH]; simpl; [done |].
  by rewrite insert_desc_perm, IH.
Qed.

Lemma sorted_drop n (l : list AuditLog) :
  StronglySorted newer_first l → StronglySorted newer_first (drop n l).
Proof.
  intros H. rewrite <- (take_drop n l) in H. by apply StronglySorted_app_1_r in H.
Qed.

Lemma sorted_take n (l : list AuditLog) :
  StronglySorted newer_first l → StronglySorted newer_first (take n l).
Proof.
  intros H. rewrite <- (take_drop n l) in H. by apply StronglySorted_app_1_l in H.
Qed.

Lemma paginated_page (query : AuditLog → bool) (p : Audit.Pagination) (s : Store) :
  1 ≤ Audit.page_of p → 1 ≤ Audit.limit_of p →
  ∃ pg, Audit.paginated query p s = (Returned pg, s)
    ∧ Audit.logs pg = page_slice p (filter (λ l, query l = true) (audit_logs s)).
Proof.
  intros Hp Hl. eexists. unfold Audit.paginated, page_slice.
  unfold mbind, Js_bind, Audit.countDocuments, Audit.find, Audit.toArray. simpl.
  rewrite bool_decide_eq_false_2 by nia.
  rewrite bool_decide_eq_false_2 by lia.
  rewrite Z.abs_eq by lia. split; reflexivity.
Qed.

Lemma read_page (r : Audit.Reader) (p : Audit.Pagination) (s : Store) :
  1 ≤ Audit.page_of p → 1 ≤ Audit.limit_of p →
  ∃ pg, Audit.read r p s = (Returned pg, s)
    ∧ Audit.logs pg = page_slice p (filter (λ l, Audit.selects r l = true) (audit_logs s)).
Proof.
  intros Hp Hl. destruct r as [f|t|a|i|c]; simpl;
    try (by apply paginated_page).
  unfold Audit.findByEntityId, try_catch, new_ObjectId.
  destruct (ObjectId i) as [o|] eqn:Ho.
  - destruct (paginated_page (λ l, bool_decide (al_entityId l = Some o)) p s Hp Hl)
      as (pg & Hrun & Hlogs).
    exists pg. erewrite bind_returned by reflexivity. rewrite Hrun. done.
  - eexists. split; [reflexivity |]. simpl.
    unfold page_slice.
    replace (filter _ (audit_logs s)) with (@nil AuditLog).
    + simpl. by rewrite drop_nil, take_nil.
    + symmetry. induction (audit_logs s) as [|x l IH]; [done |].
      rewrite filter_cons. by destruct (decide (false = true)).
Qed.

(** C8, as the code has it. Every paginated reader of the audit model
    ([findAll] under any filter combination, [findByEntityType],
    [findByAction], [findByEntityId], [findByEntityCode]), called with a
    page and a limit of at least 1, answers without touching the database a
    list of logs that is sorted by non-increasing timestamp, holds at most
    [limit] entries, and is a stretch of the matching records arranged
    newest first: the stretch that follows the first [(page - 1) * limit]
    of them (or all of them, where there are fewer), and that ends short of
    [limit] entries only where the records end. *)
Theorem audit_reads_paginated_newest_first
    (r : Audit.Reader) (p : Audit.Pagination) (s : Store) :
  1 ≤ Audit.page_of p → 1 ≤ Audit.limit_of p →
  let matching := filter (λ l, Audit.selects r l = true) (audit_logs s) in
  ∃ pg, Audit.read r p s = (Returned pg, s)
    ∧ StronglySorted newer_first (Audit.logs pg)
    ∧ Z.of_nat (length (Audit.logs pg)) ≤ Audit.limit_of p
    ∧ ∃ arranged skipped rest,
        arranged ≡ₚ matching
        ∧ StronglySorted newer_first arranged
        ∧ arranged = (skipped ++ Audit.logs pg ++ rest)%list
        ∧ length skipped
          = Nat.min (Z.to_nat ((Audit.page_of p - 1) * Audit.limit_of p)) (length matching)
        ∧ (Z.of_nat (length (Audit.logs pg)) < Audit.limit_of p → rest = []).
Proof.
  intros Hp Hl matching.
  destruct (read_page r p s Hp Hl) as (pg & Hrun & Hlogs).
  fold matching in Hlogs. unfold page_slice in Hlogs.
  set (k := Z.to_nat ((Audit.page_of p - 1) * Audit.limit_of p)) in *.
  set (n := Z.to_nat (Audit.limit_of p)) in *.
  set (sorted := Audit.sort_desc matching) in *.
  exists pg. split; [done |]. rewrite Hlogs.
  split; [apply sorted_take, sorted_drop, sort_desc_sorted |].
  split; [rewrite length_take; lia |].
  exists sorted, (take k sorted), (drop n (drop k sorted)).
  split; [apply sort_desc_perm |].
  split; [apply sort_desc_sorted |].
  split; [by rewrite (take_drop n), (take_drop k) |].
  split.
  - rewrite length_take. unfold sorted.
    by rewrite (Permutation_length (sort_desc_perm matching)).
  - rewrite length_take. intros Hlt. apply drop_ge. lia.
Qed.

Lemma audit_reads_paginated_newest_first_witness :
  let r := Audit.ReadByEntityId Scenario.bb001 in
  let p := {| Audit.pg_page := Some 2; Audit.pg_limit := Some 2 |} in
  let s := Scenario.audited in
  let matching := filter (λ l, Audit.selects r l = true) (audit_logs s) in
  1 ≤ Audit.page_of p
  ∧ 1 ≤ Audit.limit_of p
  ∧ (Audit.read r p s).1
    = Returned {| Audit.logs := [Scenario.log "000000000000000000000002" 10];
                  Audit.page := 2; Audit.page_limit := 2; Audit.total := 3;
                  Audit.totalPages := Some 2 |}
  ∧ ∃ pg, Audit.read r p s = (Returned pg, s)
      ∧ StronglySorted newer_first (Audit.logs pg)
      ∧ Z.of_nat (length (Audit.logs pg)) ≤ Audit.limit_of p
      ∧ ∃ arranged skipped rest,
          arranged ≡ₚ matching
          ∧ StronglySorted newer_first arranged
          ∧ arranged = (skipped ++ Audit.logs pg ++ rest)%list
          ∧ length skipped
            = Nat.min (Z.to_nat ((Audit.page_of p - 1) * Audit.limit_of p))
                      (length matching)
          ∧ (Z.of_nat (length (Audit.logs pg)) < Audit.limit_of p → rest = []).
Proof.
  intros r p s matching.
  assert (Hp : 1 ≤ Audit.page_of p) by (unfold p, Audit.page_of; simpl; lia).
  assert (Hl : 1 ≤ Audit.limit_of p) by (unfold p, Audit.limit_of; simpl; lia).
  split; [exact Hp |]. split; [exact Hl |].
  split; [vm_compute; reflexivity |].
  exact (audit_reads_paginated_newest_first r p s Hp Hl).
Defined.

(** C8, as the design document has it, fails where the page or the limit is
    below 1: the readers pass both on as they come. Of the three records of
    BB-001 a read with limit 0 answers all three, which are more than 0; a
    read of page 0 skips a negative number of records, which the server
    refuses, and answers no page at all. *)
Lemma unbounded_read_is_not_paginated :
  let by_bank := Audit.ReadByEntityId Scenario.bb001 in
  let everything :=
    Audit.ReadAll {| Audit.f_entityType := None; Audit.f_action := None;
                     Audit.f_performedBy := None; Audit.f_performedByRole := None;
                     Audit.f_status := None; Audit.f_dateFrom := None;
                     Audit.f_dateTo := None |} in
  let no_limit := {| Audit.pg_page := Some 1; Audit.pg_limit := Some 0 |} in
  let page_0 := {| Audit.pg_page := Some 0; Audit.pg_limit := Some 2 |} in
  (Audit.read by_bank no_limit Scenario.audited).1
  = Returned {| Audit.logs := [Scenario.log "000000000000000000000001" 30;
                               Scenario.log "000000000000000000000003" 20;
                               Scenario.log "000000000000000000000002" 10];
                Audit.page := 1; Audit.page_limit := 0; Audit.total := 3;
                Audit.totalPages := None |}
  ∧ ¬ read_is_paginated by_bank no_limit Scenario.audited
  ∧ (Audit.read everything page_0 Scenario.audited).1
    = Thrown (JS.MongoServerError "Skip value must be non-negative")
  ∧ ¬ read_is_paginated everything page_0 Scenario.audited.
Proof.
  intros by_bank everything no_limit page_0.
  assert (H0 : (Audit.read by_bank no_limit Scenario.audited).1
               = Returned {| Audit.logs := [Scenario.log "000000000000000000000001" 30;
                                            Scenario.log "000000000000000000000003" 20;
                                            Scenario.log "000000000000000000000002" 10];
                             Audit.page := 1; Audit.page_limit := 0; Audit.total := 3;
                             Audit.totalPages := None |})
    by (vm_compute; reflexivity).
  assert (H1 : (Audit.read everything page_0 Scenario.audited).1
               = Thrown (JS.MongoServerError "Skip value must be non-negative"))
    by (vm_compute; reflexivity).
  split; [exact H0 |]. split; [| split; [exact H1 |]].
  - intros (pg & s' & Hrun & _ & Hlen). rewrite Hrun in H0. simpl in H0.
    injection H0 as ->. vm_compute in Hlen. by apply Hlen.
  - intros (pg & s' & Hrun & _). rewrite Hrun in H1. discriminate.
Qed.

(** [getRecentActivity] is the first page of everything. *)
Lemma recent_activity_newest_first (n : option Z) (s : Store) :
  1 ≤ default 20 n →
  ∃ l, Audit.getRecentActivity n s = (Returned l, s)
    ∧ StronglySorted newer_first l
    ∧ Z.of_nat (length l) ≤ default 20 n.
Proof.
  intros Hn. eexists. unfold Audit.getRecentActivity, Audit.find, Audit.toArray.
  unfold mbind, Js_bind. simpl.
  rewrite bool_decide_eq_false_2 by lia.
  rewrite Z.abs_eq by lia. split; [reflexivity |].
  split; [apply sorted_take, sort_desc_sorted | rewrite length_take; lia].
Qed.

Lemma keeps_paginated {B} (proj : Store → B) query p :
  keeps proj (Audit.paginated query p).
Proof.
  unfold Audit.paginated.
  apply keeps_bind; [by intros s |]. intros t.
  apply keeps_bind; [by intros s |]. intros c.
  apply keeps_bind; [| auto with js_keep].
  unfold Audit.toArray. case_bool_decide; auto with js_keep.
Qed.

Lemma exec_read_only (c : Audit.Call) (s : Store) :
  (∀ d, c ≠ Audit.Create d) → Audit.exec c s = s.
Proof.
  intros Hc. destruct c; simpl;
    try (by apply (keeps_paginated (λ s, s)));
    try (by exfalso; eapply Hc); try reflexivity.
  - apply (keeps_try_catch (λ s, s)); auto with js_keep.
  - apply (keeps_try_catch (λ s, s)); [| auto with js_keep].
    apply keeps_bind; [auto with js_keep |]. intros o. apply keeps_paginated.
Qed.

Lemma create_appends (d : Audit.AuditData) (s : Store) :
  audit_logs (Audit.create d s).2 = audit_logs s
  ∨ ∃ l, audit_logs (Audit.create d s).2 = (audit_logs s ++ [l])%list.
Proof.
  unfold Audit.create.
  destruct (JS.truthy (Audit.ad_entityId d)) as [e|].
  - unfold new_ObjectId. destruct (ObjectId e) as [o|].
    + right. eexists. reflexivity.
    + left. reflexivity.
  - right. eexists. reflexivity.
Qed.

Lemma exec_extends (c : Audit.Call) (s : Store) :
  audit_logs s `prefix_of` audit_logs (Audit.exec c s).
Proof.
  destruct c as [d| | | | | | | | |];
    try (rewrite exec_read_only; [done | by intros d]).
  simpl. destruct (create_appends d s) as [-> | [l ->]]; [done |].
  by apply prefix_app_r.
Qed.

(** C9. The audit model offers [create] and readers and nothing else: a
    call other than [create] leaves the database as it is, [create] leaves
    the existing records in place, so through every sequence of calls the
    collection only grows at its end and a record once written stays at its
    place unchanged. *)
Theorem audit_ledger_append_only (cs : list Audit.Call) (s : Store) :
  (∀ c s', (∃ d, c = Audit.Create d) ∨ Audit.exec c s' = s')
  ∧ audit_logs s `prefix_of` audit_logs (Audit.exec_all cs s)
  ∧ (∀ i l, audit_logs s !! i = Some l →
            audit_logs (Audit.exec_all cs s) !! i = Some l).
Proof.
  assert (Hpre : ∀ cs s, audit_logs s `prefix_of` audit_logs (Audit.exec_all cs s)).
  { clear. intros cs. induction cs as [|c cs IH]; intros s; simpl; [done |].
    etrans; [apply exec_extends | apply IH]. }
  split; [| split].
  - intros c s'. destruct c; try (right; apply exec_read_only; by intros d).
    left. by eexists.
  - apply Hpre.
  - intros i l Hi. destruct (Hpre cs s) as [k ->].
    by apply lookup_app_l_Some.
Qed.

(** ** Fulfilling a hospital request *)

Lemma model_fulfill_ok s id o r n :
  ObjectId id = Some o → hospital_blood_requests s !! o = Some r →
  hr_status r = "PROCESSING" → n ≤ hr_unitsRequested r →
  (∀ bank, hr_bloodBankId r = Some bank → n ≤ stock_of s bank (hr_bloodGroup r)) →
  ∃ s' r', HospitalBloodRequest.fulfillRequest id n s = (Returned true, s')
    ∧ hospital_blood_requests s' = <[o := r']> (hospital_blood_requests s)
    ∧ hr_status r' = "FULFILLED" ∧ hr_unitsFulfilled r' = n
    ∧ hr_bloodBankId r' = hr_bloodBankId r ∧ hr_bloodGroup r' = hr_bloodGroup r
    ∧ blood_stock s' = blood_stock s ∧ organizations s' = organizations s.
Proof.
  intros Ho Hr Hst Hn Hstock.
  unfold HospitalBloodRequest.fulfillRequest, try_catch, new_ObjectId.
  rewrite Ho. unfold mbind, Js_bind, new_Date, get_store, modify. simpl.
  rewrite Hr, Hst. simpl. rewrite bool_decide_eq_true_2 by done. simpl.
  assert (Hheld : match hr_bloodBankId r with
                  | Some bank => bool_decide (n ≤ stock_of s bank (hr_bloodGroup r))
                  | None => true
                  end = true).
  { destruct (hr_bloodBankId r) as [bank|]; [| done].
    apply bool_decide_eq_true_2. by apply Hstock. }
  rewrite Hheld.
  eexists _, _. split; [reflexivity |]. simpl. done.
Qed.

(** The request model refuses a request that is not in PROCESSING, and one
    whose bank holds too little, and writes nothing. *)
Lemma model_fulfill_refused s id n :
  (∀ o r, ObjectId id = Some o → hospital_blood_requests s !! o = Some r →
          hr_status r ≠ "PROCESSING"
          ∨ ∃ bank, hr_bloodBankId r = Some bank
                    ∧ stock_of s bank (hr_bloodGroup r) < n) →
  HospitalBloodRequest.fulfillRequest id n s = (Returned false, s).
Proof.
  intros H.
  unfold HospitalBloodRequest.fulfillRequest, try_catch, new_ObjectId.
  destruct (ObjectId id) as [o|] eqn:Ho; [| reflexivity].
  unfold mbind, Js_bind, new_Date, get_store, modify. simpl.
  destruct (hospital_blood_requests s !! o) as [r|] eqn:Hr; [| reflexivity].
  destruct (H o r eq_refl Hr) as [Hst | (bank & Hbank & Hshort)].
  - by rewrite (bool_decide_eq_false_2 (hr_status r = "PROCESSING")).
  - rewrite Hbank.
    rewrite (bool_decide_eq_false_2 (n ≤ stock_of s bank (hr_bloodGroup r))) by lia.
    by rewrite andb_false_r.
Qed.

Lemma fulfill_in_processing s id o r n :
  ObjectId id = Some o → hospital_blood_requests s !! o = Some r →
  hr_status r = "PROCESSING" → n ≠ 0 → n ≤ hr_unitsRequested r →
  (∀ bank, hr_bloodBankId r = Some bank → n ≤ stock_of s bank (hr_bloodGroup r)) →
  ∃ resp s', fulfillRequest {| fr_id := id; fr_unitsFulfilled := Some (JS.Int n) |} s
             = (Returned resp, s')
    ∧ request_status s' o = Some "FULFILLED"
    ∧ blood_stock s' = blood_stock s
    ∧ resp = match hr_bloodBankId r with
             | Some _ => json 500 false "Error fulfilling request"
             | None => json 200 true
                         "Request fulfilled successfully and blood stock updated"
             end.
Proof.
  intros Ho Hr Hst Hn0 Hn Hheld.
  destruct (model_fulfill_ok s id o r n Ho Hr Hst Hn Hheld)
    as (s1 & r' & Hrun & Hreq & Hst' & _ & Hbank & Hgrp & Hstock & _).
  unfold fulfillRequest, try_catch. simpl.
  rewrite bool_decide_eq_false_2 by done.
  erewrite bind_returned by exact Hrun. simpl.
  assert (Hfind : HospitalBloodRequest.findById id s1 = (Returned (Some r'), s1)).
  { unfold HospitalBloodRequest.findById, try_catch, new_ObjectId. rewrite Ho.
    unfold mbind, Js_bind, get_store. simpl. by rewrite Hreq, lookup_insert_eq. }
  erewrite bind_returned by exact Hfind. simpl.
  rewrite Hbank.
  assert (Hstat : request_status s1 o = Some "FULFILLED").
  { unfold request_status. by rewrite Hreq, lookup_insert_eq, <- Hst'. }
  destruct (hr_bloodBankId r) as [bank|]; simpl.
  - eexists _, _. split; [reflexivity |]. done.
  - eexists _, _. split; [reflexivity |]. done.
Qed.

(** What the request model refuses, the controller answers with 400, and
    nothing is changed. *)
Lemma fulfill_refused (s : Store) (id : string) (n : Z) :
  (∀ o r, ObjectId id = Some o → hospital_blood_requests s !! o = Some r →
          hr_status r ≠ "PROCESSING"
          ∨ ∃ bank, hr_bloodBankId r = Some bank
                    ∧ stock_of s bank (hr_bloodGroup r) < n) →
  n ≠ 0 →
  fulfillRequest {| fr_id := id; fr_unitsFulfilled := Some (JS.Int n) |} s
  = (Returned (json 400 false "Cannot fulfill request. Must be in PROCESSING status."), s).
Proof.
  intros H Hn. unfold fulfillRequest, try_catch. simpl.
  rewrite bool_decide_eq_false_2 by done.
  erewrite bind_returned by (by apply model_fulfill_refused).
  reflexivity.
Qed.

(** Once the status is no longer PROCESSING a fulfill is refused and
    changes nothing. *)
Lemma fulfill_refused_outside_processing (s : Store) (id : string) (n : Z) :
  (∀ o r, ObjectId id = Some o → hospital_blood_requests s !! o = Some r →
          hr_status r ≠ "PROCESSING") →
  n ≠ 0 →
  fulfillRequest {| fr_id := id; fr_unitsFulfilled := Some (JS.Int n) |} s
  = (Returned (json 400 false "Cannot fulfill request. Must be in PROCESSING status."), s).
Proof.
  intros H Hn. apply fulfill_refused; [| done].
  intros o r Ho Hr. left. by apply (H o r).
Qed.




(** C3, as the code does it. For a request in PROCESSING with a bank
    assigned that holds the units, the first fulfill marks the request
    FULFILLED and then fails on the call of the blood-bank model's
    [updateBloodStock], which that class does not define; the second fulfill
    is refused for the status and changes nothing. Where the bank holds too
    little the first fulfill is refused already. No stock document is touched
    by either call in either case, so the stock is debited zero times, not
    once, and the two calls never make the one success with the one debit. *)
Theorem fulfill_twice_debits_nothing (s : Store) (id o bank : string)
    (r : HospitalRequestDoc) (n : Z) :
  ObjectId id = Some o →
  hospital_blood_requests s !! o = Some r →
  hr_status r = "PROCESSING" →
  hr_bloodBankId r = Some bank →
  n ≠ 0 → n ≤ hr_unitsRequested r →
  let req := {| fr_id := id; fr_unitsFulfilled := Some (JS.Int n) |} in
  let first := fulfillRequest req s in
  let second := fulfillRequest req first.2 in
  ¬ In "updateBloodStock" BloodBank.methods
  ∧ (n ≤ stock_of s bank (hr_bloodGroup r) →
     first.1 = Returned (json 500 false "Error fulfilling request")
     ∧ request_status first.2 o = Some "FULFILLED"
     ∧ second = (Returned (json 400 false
                             "Cannot fulfill request. Must be in PROCESSING status."),
                 first.2))
  ∧ (stock_of s bank (hr_bloodGroup r) < n →
     first = (Returned (json 400 false
                          "Cannot fulfill request. Must be in PROCESSING status."), s))
  ∧ blood_stock second.2 = blood_stock s
  ∧ ¬ fulfilled_exactly_once s id bank (hr_bloodGroup r) n.
Proof.
  intros Ho Hr Hst Hbank Hn0 Hn req first second.
  assert (Hheld : n ≤ stock_of s bank (hr_bloodGroup r) →
            ∃ s1, first = (Returned (json 500 false "Error fulfilling request"), s1)
                  ∧ request_status s1 o = Some "FULFILLED"
                  ∧ blood_stock s1 = blood_stock s
                  ∧ second
                    = (Returned (json 400 false
                                   "Cannot fulfill request. Must be in PROCESSING status."),
                       s1)).
  { intros Hle.
    destruct (fulfill_in_processing s id o r n Ho Hr Hst Hn0 Hn)
      as (resp & s1 & Hrun & Hstat & Hstock & Hresp).
    { intros bank' Hb. rewrite Hbank in Hb. by injection Hb as <-. }
    rewrite Hbank in Hresp. subst resp.
    exists s1. split; [exact Hrun |]. split; [done |]. split; [done |].
    unfold second, first, req. rewrite Hrun. simpl.
    apply fulfill_refused_outside_processing; [| done].
    intros o' r' Ho' Hr' Hp. rewrite Ho in Ho'. injection Ho' as <-.
    unfold request_status in Hstat. rewrite Hr' in Hstat. simpl in Hstat.
    rewrite Hp in Hstat. discriminate. }
  assert (Hshort : stock_of s bank (hr_bloodGroup r) < n →
            first = (Returned (json 400 false
                                 "Cannot fulfill request. Must be in PROCESSING status."), s)).
  { intros Hlt. apply fulfill_refused; [| done].
    intros o' r' Ho' Hr'. rewrite Ho in Ho'. injection Ho' as <-.
    rewrite Hr in Hr'. injection Hr' as <-. right. by exists bank. }
  split; [simpl; intros H; repeat (destruct H as [H|H]; [discriminate |]); done |].
  split.
  { intros Hle. destruct (Hheld Hle) as (s1 & Hfirst & Hstat & _ & Hsecond).
    rewrite Hsecond, Hfirst. done. }
  split; [exact Hshort |].
  destruct (decide (n ≤ stock_of s bank (hr_bloodGroup r))) as [Hle | Hgt].
  - destruct (Hheld Hle) as (s1 & Hfirst & _ & Hstock & Hsecond).
    split; [by rewrite Hsecond |].
    intros (_ & _ & H). fold req in H. fold first in H. fold second in H.
    rewrite Hsecond in H. simpl in H. unfold stock_of in H. rewrite Hstock in H. lia.
  - assert (Hfirst := Hshort ltac:(lia)).
    assert (Hsecond : second = first).
    { unfold second. rewrite Hfirst. simpl. exact Hfirst. }
    split; [by rewrite Hsecond, Hfirst |].
    intros ((resp & H1 & H2) & _). fold req in H1. fold first in H1.
    rewrite Hfirst in H1. simpl in H1. injection H1 as <-. discriminate.
Qed.

Lemma fulfill_twice_debits_nothing_witness :
  let r := {| hr_hospitalId := "64b0000000000000000000f1";
              hr_bloodBankId := Some Scenario.bb001; hr_bloodGroup := "O+";
              hr_unitsRequested := 5; hr_urgency := "CRITICAL";
              hr_status := "PROCESSING"; hr_unitsFulfilled := 0;
              hr_fulfilledAt := None |} in
  let first := fulfillRequest Scenario.fulfill5 (Scenario.db 13) in
  let second := fulfillRequest Scenario.fulfill5 first.2 in
  ObjectId Scenario.request = Some Scenario.request
  ∧ hospital_blood_requests (Scenario.db 13) !! Scenario.request = Some r
  ∧ hr_status r = "PROCESSING"
  ∧ hr_bloodBankId r = Some Scenario.bb001
  ∧ 5 ≠ 0 ∧ 5 ≤ hr_unitsRequested r
  ∧ stock_of (Scenario.db 13) Scenario.bb001 "O+" = 13
  ∧ stock_of second.2 Scenario.bb001 "O+" = 13
  ∧ ¬ In "updateBloodStock" BloodBank.methods
  ∧ first.1 = Returned (json 500 false "Error fulfilling request")
  ∧ request_status first.2 Scenario.request = Some "FULFILLED"
  ∧ second = (Returned (json 400 false
                          "Cannot fulfill request. Must be in PROCESSING status."),
              first.2)
  ∧ blood_stock second.2 = blood_stock (Scenario.db 13)
  ∧ ¬ fulfilled_exactly_once (Scenario.db 13) Scenario.request Scenario.bb001 "O+" 5.
Proof.
  intros r first second.
  assert (Ho : ObjectId Scenario.request = Some Scenario.request)
    by (vm_compute; reflexivity).
  assert (Hr : hospital_blood_requests (Scenario.db 13) !! Scenario.request = Some r)
    by (vm_compute; reflexivity).
  assert (Hst : hr_status r = "PROCESSING") by reflexivity.
  assert (Hb : hr_bloodBankId r = Some Scenario.bb001) by reflexivity.
  assert (Hn0 : 5 ≠ 0) by lia.
  assert (Hn : 5 ≤ hr_unitsRequested r) by (unfold r; simpl; lia).
  assert (Hheld : 5 ≤ stock_of (Scenario.db 13) Scenario.bb001 (hr_bloodGroup r))
    by (vm_compute; discriminate).
  repeat (split; [assumption |]).
  split; [vm_compute; reflexivity |].
  split; [vm_compute; reflexivity |].
  destruct (fulfill_twice_debits_nothing (Scenario.db 13) Scenario.request
              Scenario.request Scenario.bb001 r 5 Ho Hr Hst Hb Hn0 Hn)
    as (Hmissing & Hfirst & _ & Hstock & Honce).
  destruct (Hfirst Hheld) as (H500 & Hfulfilled & H400).
  repeat split; assumption.
Defined.

(** ** Completing a donation drive *)

Lemma model_complete_ok s id o d donors :
  ObjectId id = Some o → ngo_drives s !! o = Some d → dr_status d = "ONGOING" →
  ∃ s' d', BloodBankNgoDrive.completeDrive id donors s = (Returned true, s')
    ∧ ngo_drives s' = <[o := d']> (ngo_drives s)
    ∧ dr_status d' = "COMPLETED"
    ∧ blood_stock s' = blood_stock s.
Proof.
  intros Ho Hd Hst.
  unfold BloodBankNgoDrive.completeDrive, try_catch, new_ObjectId.
  rewrite Ho. unfold mbind, Js_bind, new_Date, get_store, modify. simpl.
  rewrite Hd, Hst. simpl.
  eexists _, _. split; [reflexivity |]. simpl. done.
Qed.

Lemma keeps_findById_drive {B} (proj : Store → B) id :
  keeps proj (BloodBankNgoDrive.findById id).
Proof. unfold BloodBankNgoDrive.findById. auto 10 with js_keep. Qed.

(** What [completeDrive] does after the drive model has answered: it writes
    neither to the drives nor to the stock. *)
Lemma complete_after_status {B} (proj : Store → B) (req : CompleteRequest) (ok : bool) :
  off_organizations proj →
  keeps proj
    (if negb ok then
       mret (json 400 false "Cannot complete drive. Must be in ONGOING status.")
     else
       drive ← BloodBankNgoDrive.findById (cr_id req);
       match drive ≫= (λ d, dr_bloodBankId d ≫= (λ b, Some (b, d))) with
       | Some (bloodBankId, d) =>
           for_of (dr_collectedUnits d)
             (λ gu : string * Z,
                if bool_decide (0 < gu.2)
                then BloodBank.updateBloodStock bloodBankId gu.1 gu.2
                else mret ()) ;;
           BloodBank.incrementStatistics bloodBankId "totalNgoDrivesSupported" 1 ;;
           BloodBank.incrementStatistics bloodBankId "totalDonationsReceived"
             (dr_totalUnitsCollected d) ;;
           mret ()
       | None => mret ()
       end ;;
       mret (json 200 true "Drive completed successfully and blood stock updated")).
Proof.
  intros Hoff. destruct ok; simpl; [| apply keeps_ret].
  apply keeps_bind; [apply keeps_findById_drive |]. intros drive.
  apply keeps_bind; [| intros; apply keeps_ret].
  destruct (drive ≫= _) as [[bank d]|]; [| apply keeps_ret].
  apply keeps_bind.
  { apply keeps_for_of. intros [g u]. simpl. case_bool_decide; auto with js_keep. }
  intros _. auto 10 with js_keep.
Qed.

(** C2, as the code has it. [completeDrive] on an ONGOING drive writes the
    status COMPLETED first and credits the stock afterwards; whatever the
    credits do and whatever the answer is, the drive is COMPLETED when the
    call is over, and the steps after the status write do not touch the
    drive again. *)
Theorem complete_marks_completed_first (s : Store) (req : CompleteRequest)
    (o : string) (d : DriveDoc) :
  ObjectId (cr_id req) = Some o →
  ngo_drives s !! o = Some d →
  dr_status d = "ONGOING" →
  ∃ resp s' s1,
    completeDrive req s = (Returned resp, s')
    ∧ BloodBankNgoDrive.completeDrive (cr_id req)
        (parseInt_or_0 (cr_totalDonorsParticipated req)) s = (Returned true, s1)
    ∧ drive_status s1 o = Some "COMPLETED"
    ∧ ngo_drives s' = ngo_drives s1
    ∧ drive_status s' o = Some "COMPLETED".
Proof.
  intros Ho Hd Hst.
  destruct (model_complete_ok s (cr_id req) o d
              (parseInt_or_0 (cr_totalDonorsParticipated req)) Ho Hd Hst)
    as (s1 & d' & Hrun & Hdr & Hst' & _).
  unfold completeDrive.
  match goal with
  | |- context [try_catch ?m (λ _, mret ?x)] =>
      destruct (try_catch_returns m (λ _, x) s) as [resp Hresp]
  end.
  eexists resp, _, s1. split; [exact Hresp |]. split; [exact Hrun |].
  assert (Hs1 : drive_status s1 o = Some "COMPLETED").
  { unfold drive_status. by rewrite Hdr, lookup_insert_eq, <- Hst'. }
  assert (Hkeep : ∀ X : Store → gmap string DriveDoc, off_organizations X → _)
    by (intros X HX; exact (complete_after_status X req true HX s1)).
  specialize (Hkeep ngo_drives off_organizations_drives). simpl in Hkeep.
  erewrite bind_returned by exact Hrun. simpl.
  split; [done |]. split; [exact Hkeep |].
  unfold drive_status in *. by rewrite Hkeep.
Qed.

Lemma complete_marks_completed_first_witness :
  let d := {| dr_bloodBankId := Some Scenario.bb001;
              dr_ngoId := "64b0000000000000000000e1";
              dr_status := "ONGOING"; dr_collectedUnits := [("O+", 10)];
              dr_totalUnitsCollected := 10; dr_totalDonorsParticipated := 0;
              dr_completedAt := None |} in
  ObjectId (cr_id Scenario.complete) = Some Scenario.drive
  ∧ ngo_drives (Scenario.db 3) !! Scenario.drive = Some d
  ∧ dr_status d = "ONGOING"
  ∧ ∃ resp s' s1,
      completeDrive Scenario.complete (Scenario.db 3) = (Returned resp, s')
      ∧ BloodBankNgoDrive.completeDrive (cr_id Scenario.complete)
          (parseInt_or_0 (cr_totalDonorsParticipated Scenario.complete)) (Scenario.db 3)
        = (Returned true, s1)
      ∧ drive_status s1 Scenario.drive = Some "COMPLETED"
      ∧ ngo_drives s' = ngo_drives s1
      ∧ drive_status s' Scenario.drive = Some "COMPLETED".
Proof.
  intros d.
  assert (Ho : ObjectId (cr_id Scenario.complete) = Some Scenario.drive)
    by (vm_compute; reflexivity).
  assert (Hd : ngo_drives (Scenario.db 3) !! Scenario.drive = Some d)
    by (vm_compute; reflexivity).
  assert (Hst : dr_status d = "ONGOING") by reflexivity.
  repeat (split; [assumption |]).
  exact (complete_marks_completed_first (Scenario.db 3) Scenario.complete
           Scenario.drive d Ho Hd Hst).
Defined.

(** C2, as the design document has it, fails in the scenario: the credit
    of the 10 collected units fails, the call answers an error, and the
    drive is COMPLETED, not ONGOING. *)
Lemma failed_complete_not_rolled_back :
  ¬ complete_rolls_back (Scenario.db 3) Scenario.complete.
Proof.
  intros H.
  destruct (H Scenario.drive
              {| dr_bloodBankId := Some Scenario.bb001;
                 dr_ngoId := "64b0000000000000000000e1";
                 dr_status := "ONGOING"; dr_collectedUnits := [("O+", 10)];
                 dr_totalUnitsCollected := 10; dr_totalDonorsParticipated := 0;
                 dr_completedAt := None |})
    as (resp & s' & Hrun & Hfail);
    [vm_compute; reflexivity | vm_compute; reflexivity | reflexivity |].
  assert (Heval : success (json 500 false "Error completing drive") = false
                  ∧ completeDrive Scenario.complete (Scenario.db 3)
                    = (Returned (json 500 false "Error completing drive"),
                       (completeDrive Scenario.complete (Scenario.db 3)).2)
                  ∧ drive_status (completeDrive Scenario.complete (Scenario.db 3)).2
                      Scenario.drive = Some "COMPLETED")
    by (repeat split; vm_compute; reflexivity).
  destruct Heval as (Hno & Hresp & Hdone).
  rewrite Hrun in Hresp, Hdone. simpl in Hresp, Hdone.
  injection Hresp as ->.
  destruct (Hfail Hno) as [_ Hstat]. congruence.
Qed.

(** ** Blood-bank admin actions and the audit trail *)

(** A model method whose [catch] answers [false] always returns; through
    it the audit collections and the stock are what they were. *)
Lemma status_write_returns (m : Js bool) (s : Store) :
  (∀ B (proj : Store → B), off_organizations proj → keeps proj m) →
  (∀ s e s', m s = (Thrown e, s') → False) →
  ∃ ok s1, m s = (Returned ok, s1)
    ∧ admin_actions s1 = admin_actions s
    ∧ audit_logs s1 = audit_logs s.
Proof.
  intros Hkeep Hret.
  pose proof (Hkeep _ admin_actions off_organizations_admin_actions s) as Ha.
  pose proof (Hkeep _ audit_logs off_organizations_audit_logs s) as Hl.
  destruct (m s) as [[ok|e] s1] eqn:E.
  - by exists ok, s1.
  - exfalso. by eapply Hret.
Qed.

Lemma verifyByAdmin_returns id adminId remarks s :
  ∃ ok s1, BloodBank.verifyByAdmin id adminId remarks s = (Returned ok, s1)
    ∧ admin_actions s1 = admin_actions s ∧ audit_logs s1 = audit_logs s.
Proof.
  apply status_write_returns.
  - intros B proj Hoff. by apply keeps_verifyByAdmin.
  - intros s0 e s' E. unfold BloodBank.verifyByAdmin in E.
    by eapply (try_catch_never_throws _ (λ _, false)).
Qed.

Lemma rejectByAdmin_returns id adminId reason s :
  ∃ ok s1, BloodBank.rejectByAdmin id adminId reason s = (Returned ok, s1)
    ∧ admin_actions s1 = admin_actions s ∧ audit_logs s1 = audit_logs s.
Proof.
  apply status_write_returns.
  - intros B proj Hoff. by apply keeps_rejectByAdmin.
  - intros s0 e s' E. unfold BloodBank.rejectByAdmin in E.
    by eapply (try_catch_never_throws _ (λ _, false)).
Qed.

Lemma suspendByAdmin_returns id adminId reason s :
  ∃ ok s1, BloodBank.suspendByAdmin id adminId reason s = (Returned ok, s1)
    ∧ admin_actions s1 = admin_actions s ∧ audit_logs s1 = audit_logs s.
Proof.
  apply status_write_returns.
  - intros B proj Hoff. by apply keeps_suspendByAdmin.
  - intros s0 e s' E. unfold BloodBank.suspendByAdmin in E.
    by eapply (try_catch_never_throws _ (λ _, false)).
Qed.

Lemma reactivateByAdmin_returns id adminId remarks s :
  ∃ ok s1, BloodBank.reactivateByAdmin id adminId remarks s = (Returned ok, s1)
    ∧ admin_actions s1 = admin_actions s ∧ audit_logs s1 = audit_logs s.
Proof.
  apply status_write_returns.
  - intros B proj Hoff. by apply keeps_reactivateByAdmin.
  - intros s0 e s' E. unfold BloodBank.reactivateByAdmin in E.
    by eapply (try_catch_never_throws _ (λ _, false)).
Qed.

(** A refusal before the model is called. *)
Ltac refused_early :=
  eexists _, _; split; [reflexivity |]; split; [reflexivity |];
  split; [discriminate | reflexivity].

(** The model has answered [ok] in state [s1]. *)
Ltac after_status_write ok Ha Hl Hid :=
  destruct ok; simpl;
  [ eexists _, _; split; [reflexivity |]; simpl; rewrite Ha, Hl;
    split; [reflexivity |]; split; [| discriminate];
    intros _; eexists; split; [reflexivity |]; simpl; split; [reflexivity |];
    symmetry; exact Hid
  | eexists _, _; split; [reflexivity |]; simpl;
    split; [done |]; split; [discriminate | done] ].

Lemma truthy_Some (a : option string) (x : string) : JS.truthy a = Some x → a = Some x.
Proof.
  destruct a as [y|]; simpl; [| discriminate].
  case_bool_decide; [discriminate | congruence].
Qed.

(** C4, as the code has it. An admin action on a blood bank (verify,
    reject, suspend, reactivate) is recorded only when it succeeds: the
    controller then appends exactly one record to the admin-action
    collection, with the action type and the two statuses of the action; an
    attempt that is refused (no admin, a missing field, a bank in another
    status) appends nothing; in neither case is [audit_logs] written. *)
Theorem admin_action_recorded_only_on_success
    (k : AdminActionKind) (req : AdminRequest) (s : Store) :
  ∃ resp s',
    admin_action k req s = (Returned resp, s')
    ∧ audit_logs s' = audit_logs s
    ∧ (success resp = true →
       ∃ a, admin_actions s' = (admin_actions s ++ [a])%list
            ∧ (aa_actionType a, aa_previousStatus a, aa_newStatus a) = recorded_as k
            ∧ Some (aa_bloodBankId a) = ar_bloodBankId req)
    ∧ (success resp = false → admin_actions s' = admin_actions s).
Proof.
  destruct k; simpl;
    unfold verifyBloodBank, rejectBloodBank, suspendBloodBank, reactivateBloodBank,
      try_catch;
    (destruct (JS.truthy (ar_adminId req)) as [adminId|]; [| refused_early]);
    (destruct (JS.truthy (ar_bloodBankId req)) as [bloodBankId|] eqn:Hid;
       [apply truthy_Some in Hid | refused_early]).
  - destruct (verifyByAdmin_returns bloodBankId adminId (ar_reason req) s)
      as (ok & s1 & Hrun & Ha & Hl).
    erewrite bind_returned by exact Hrun. after_status_write ok Ha Hl Hid.
  - destruct (JS.truthy (ar_reason req)) as [reason|]; [| refused_early].
    destruct (rejectByAdmin_returns bloodBankId adminId reason s)
      as (ok & s1 & Hrun & Ha & Hl).
    erewrite bind_returned by exact Hrun. after_status_write ok Ha Hl Hid.
  - destruct (JS.truthy (ar_reason req)) as [reason|]; [| refused_early].
    destruct (suspendByAdmin_returns bloodBankId adminId reason s)
      as (ok & s1 & Hrun & Ha & Hl).
    erewrite bind_returned by exact Hrun. after_status_write ok Ha Hl Hid.
  - destruct (reactivateByAdmin_returns bloodBankId adminId (ar_reason req) s)
      as (ok & s1 & Hrun & Ha & Hl).
    erewrite bind_returned by exact Hrun. after_status_write ok Ha Hl Hid.
Qed.

(** C4, as the design document has it, fails on a refused attempt: the
    verification of BB-001, which is VERIFIED already, is answered with an
    error and leaves both audit collections as they were. *)
Lemma refused_verification_not_audited :
  ¬ attempt_audited (OpAdminAction VERIFY (Scenario.act_on Scenario.bb001))
      (Scenario.db 3).
Proof. unfold attempt_audited. vm_compute. discriminate. Qed.

(** The verification of BB-002, which is PENDING, succeeds and leaves one
    record. *)
Example pending_bank_verified :
  let out := verifyBloodBank (Scenario.act_on Scenario.bb002) (Scenario.db 3) in
  out.1 = Returned (json 200 true "Blood bank verified successfully")
  ∧ org_status <$> organizations out.2 !! Scenario.bb002 = Some "VERIFIED"
  ∧ admin_actions out.2
    = [ {| aa_bloodBankId := Scenario.bb002; aa_adminId := Scenario.admin;
           aa_actionType := "VERIFY"; aa_reason := Some "licence checked";
           aa_previousStatus := "PENDING"; aa_newStatus := "VERIFIED";
           aa_timestamp := 1700000000000 |} ].
Proof. repeat split; vm_compute; reflexivity. Qed.

(** ** The stock counters *)

(** Validation comes before every read and write: a [units] value that is
    [NaN] or negative ends the stock update with a 400 answer and the
    database as it was. *)
Lemma updateBloodStock_rejects (req : StockRequest) (s : Store) :
  sr_units req = Some JS.NaN ∨ (∃ n, n < 0 ∧ sr_units req = Some (JS.Int n)) →
  ∃ resp, updateBloodStock req s = (Returned resp, s)
    ∧ http_status resp = 400 ∧ success resp = false.
Proof.
  intros Hbad. unfold updateBloodStock, try_catch.
  destruct (sr_bloodGroup req) as [g|]; [| eexists; split; [reflexivity | done]].
  destruct Hbad as [-> | (n & Hn & ->)].
  - case_bool_decide; [eexists; split; [reflexivity | done] |].
    destruct (negb _); eexists; (split; [reflexivity | done]).
  - case_bool_decide; [eexists; split; [reflexivity | done] |].
    destruct (negb _); [eexists; split; [reflexivity | done] |].
    rewrite bool_decide_eq_true_2 by done. eexists; split; [reflexivity | done].
Qed.

Lemma stock_nonneg_same (s s' : Store) :
  blood_stock s' = blood_stock s → stock_nonneg s → stock_nonneg s'.
Proof. unfold stock_nonneg. by intros ->. Qed.

Lemma preserves_of_keeps {A} (m : Js A) :
  keeps blood_stock m → preserves stock_nonneg m.
Proof. intros H s Hs. eapply stock_nonneg_same; [apply H | done]. Qed.

Lemma preserves_ret {A} (P : Store → Prop) (a : A) : preserves P (mret a).
Proof. by intros s. Qed.

Lemma preserves_bind {A A'} (P : Store → Prop) (m : Js A) (f : A → Js A') :
  preserves P m → (∀ a, preserves P (f a)) → preserves P (m ≫= f).
Proof.
  intros Hm Hf s Hs. unfold mbind, Js_bind. specialize (Hm s Hs).
  destruct (m s) as [[a|e] s']; simpl in *; [by apply Hf | done].
Qed.

Lemma preserves_try_catch {A} (P : Store → Prop) (m : Js A) (h : JS.Error → Js A) :
  preserves P m → (∀ e, preserves P (h e)) → preserves P (try_catch m h).
Proof.
  intros Hm Hh s Hs. unfold try_catch. specialize (Hm s Hs).
  destruct (m s) as [[a|e] s']; simpl in *; [done | by apply Hh].
Qed.

Lemma empty_doc_units code now g e :
  bloodStock (BloodStock.empty_doc code now) !! g = Some e → units e = 0.
Proof.
  unfold BloodStock.empty_doc. simpl. intros H.
  repeat (apply lookup_insert_Some in H as [[_ <-] | [_ H]]; [done |]).
  by rewrite lookup_empty in H.
Qed.

Lemma keeps_findByBloodBankId {B} (proj : Store → B) id :
  keeps proj (BloodStock.findByBloodBankId id).
Proof. unfold BloodStock.findByBloodBankId. auto 10 with js_keep. Qed.

Lemma preserves_create id code : preserves stock_nonneg (BloodStock.create id code).
Proof.
  intros s Hs. unfold BloodStock.create, new_ObjectId.
  destruct (ObjectId id) as [o|]; [| done].
  unfold mbind, Js_bind, new_Date, modify, mret, Js_ret. simpl.
  unfold stock_nonneg. simpl. apply map_Forall_insert_2; [| done].
  intros g e Hg. apply empty_doc_units in Hg. lia.
Qed.

Lemma preserves_updateBloodGroupUnits id g n by_ :
  0 ≤ n → preserves stock_nonneg (BloodStock.updateBloodGroupUnits id g n by_).
Proof.
  intros Hn s Hs. unfold BloodStock.updateBloodGroupUnits, new_ObjectId.
  destruct (ObjectId id) as [o|]; [| done].
  unfold mbind, Js_bind, new_Date, get_store, modify, mret, Js_ret. simpl.
  destruct (blood_stock s !! o) as [d|] eqn:Hd; [| done]. simpl.
  unfold stock_nonneg. simpl. apply map_Forall_insert_2; [| done]. simpl.
  apply map_Forall_insert_2; [done |]. by apply (Hs o d).
Qed.

Lemma preserves_getBloodStock id : preserves stock_nonneg (getBloodStock id).
Proof.
  unfold getBloodStock.
  apply preserves_try_catch; [| intros; apply preserves_ret].
  apply preserves_bind; [apply preserves_of_keeps, keeps_findById_bank |].
  intros [bank|]; [| apply preserves_ret].
  apply preserves_bind; [apply preserves_of_keeps, keeps_findByBloodBankId |].
  intros found. apply preserves_bind; [| intros; apply preserves_ret].
  destruct found; [apply preserves_ret | apply preserves_create].
Qed.

Lemma preserves_updateBloodStock req : preserves stock_nonneg (updateBloodStock req).
Proof.
  unfold updateBloodStock.
  apply preserves_try_catch; [| intros; apply preserves_ret].
  destruct (sr_bloodGroup req) as [g|]; [| apply preserves_ret].
  destruct (sr_units req) as [[|n]|]; try apply preserves_ret.
  - case_bool_decide; [apply preserves_ret |].
    destruct (negb _); apply preserves_ret.
  - case_bool_decide; [apply preserves_ret |].
    destruct (negb _); [apply preserves_ret |].
    case_bool_decide as Hn; [apply preserves_ret |].
    apply preserves_bind; [apply preserves_of_keeps, keeps_findById_bank |].
    intros [bank|]; [| apply preserves_ret].
    apply preserves_bind; [apply preserves_of_keeps, keeps_findByBloodBankId |].
    intros found. apply preserves_bind.
    { destruct found; [apply preserves_ret |].
      apply preserves_bind; [apply preserves_create | intros; apply preserves_ret]. }
    intros _. apply preserves_bind; [apply preserves_updateBloodGroupUnits; lia |].
    intros ok. destruct ok; simpl; [| apply preserves_ret].
    apply preserves_bind;
      [apply preserves_of_keeps, keeps_touchStockTimestamp,
         off_organizations_blood_stock |].
    intros _. apply preserves_bind;
      [apply preserves_of_keeps, keeps_findByBloodBankId | intros; apply preserves_ret].
Qed.

Lemma keeps_admin_action k req : keeps blood_stock (admin_action k req).
Proof.
  assert (Hrec : ∀ b a t r p n, keeps blood_stock (BloodBankAdminAction.create b a t r p n))
    by (intros; unfold BloodBankAdminAction.create; auto 10 with js_keep).
  destruct k; simpl;
    unfold verifyBloodBank, rejectBloodBank, suspendBloodBank, reactivateBloodBank;
    (apply keeps_try_catch; [| intros; apply keeps_ret]);
    (destruct (JS.truthy (ar_adminId req)) as [a|]; [| apply keeps_ret]);
    (destruct (JS.truthy (ar_bloodBankId req)) as [b|]; [| apply keeps_ret]);
    try (destruct (JS.truthy (ar_reason req)) as [r|]; [| apply keeps_ret]);
    (apply keeps_bind; [auto with js_keep |]);
    intros ok; destruct ok; simpl; try apply keeps_ret;
    (apply keeps_bind; [apply Hrec | intros; apply keeps_ret]).
Qed.

Lemma keeps_fulfillRequest req : keeps blood_stock (fulfillRequest req).
Proof.
  unfold fulfillRequest.
  apply keeps_try_catch; [| intros; apply keeps_ret].
  destruct (fr_unitsFulfilled req) as [[|n]|]; try apply keeps_ret.
  case_bool_decide; [apply keeps_ret |].
  apply keeps_bind.
  { unfold HospitalBloodRequest.fulfillRequest. auto 12 with js_keep. }
  intros ok. destruct ok; simpl; [| apply keeps_ret].
  apply keeps_bind.
  { unfold HospitalBloodRequest.findById. auto 10 with js_keep. }
  intros request. apply keeps_bind; [| intros; apply keeps_ret].
  destruct (request ≫= _) as [[bank g]|]; [| apply keeps_ret].
  auto 10 with js_keep.
Qed.

Lemma keeps_completeDrive req : keeps blood_stock (completeDrive req).
Proof.
  unfold completeDrive.
  apply keeps_try_catch; [| intros; apply keeps_ret].
  apply keeps_bind.
  { unfold BloodBankNgoDrive.completeDrive. auto 12 with js_keep. }
  intros ok. apply (complete_after_status blood_stock req ok).
  apply off_organizations_blood_stock.
Qed.

Lemma preserves_handle op : preserves stock_nonneg (handle op).
Proof.
  destruct op; simpl.
  - apply preserves_getBloodStock.
  - apply preserves_updateBloodStock.
  - apply preserves_of_keeps, keeps_admin_action.
  - apply preserves_of_keeps, keeps_fulfillRequest.
  - apply preserves_of_keeps, keeps_completeDrive.
Qed.

Lemma after_all_nonneg ops s : stock_nonneg s → stock_nonneg (after_all ops s).
Proof.
  revert s. induction ops as [|op ops IH]; intros s Hs; simpl; [done |].
  apply IH. by apply preserves_handle.
Qed.

(** C6. From a database whose stock counters are non-negative, every
    sequence of requests to the core leaves every counter of every bank and
    group non-negative; and in every state so reached a stock update whose
    [units] is [NaN] or negative is answered 400 with nothing written. *)
Theorem stock_never_negative (ops : list Op) (s : Store) :
  stock_nonneg s →
  stock_nonneg (after_all ops s)
  ∧ ∀ req, sr_units req = Some JS.NaN ∨ (∃ n, n < 0 ∧ sr_units req = Some (JS.Int n)) →
      ∃ resp, updateBloodStock req (after_all ops s) = (Returned resp, after_all ops s)
        ∧ http_status resp = 400 ∧ success resp = false.
Proof.
  intros Hs. split; [by apply after_all_nonneg |].
  intros req Hbad. by apply updateBloodStock_rejects.
Qed.

Lemma stock_never_negative_witness :
  let ops := [ OpUpdateBloodStock (Scenario.set_units 13);
               OpFulfillRequest Scenario.fulfill5;
               OpUpdateBloodStock (Scenario.set_units (-4));
               OpCompleteDrive Scenario.complete ] in
  stock_nonneg (Scenario.db 3)
  ∧ stock_nonneg (after_all ops (Scenario.db 3))
  ∧ ∀ req, sr_units req = Some JS.NaN ∨ (∃ n, n < 0 ∧ sr_units req = Some (JS.Int n)) →
      ∃ resp, updateBloodStock req (after_all ops (Scenario.db 3))
              = (Returned resp, after_all ops (Scenario.db 3))
        ∧ http_status resp = 400 ∧ success resp = false.
Proof.
  intros ops.
  assert (H0 : stock_nonneg (Scenario.db 3))
    by (apply (bool_decide_unpack _); vm_compute; exact I).
  split; [exact H0 |].
  exact (stock_never_negative ops (Scenario.db 3) H0).
Defined.




Lemma valid_group_not_empty g : g ∈ validBloodGroups → g ≠ "".
Proof.
  intros H ->. unfold validBloodGroups in H.
  repeat (apply elem_of_cons in H as [H|H]; [discriminate |]).
  by apply elem_of_nil in H.
Qed.






(** * Further properties of the code *)

(** ** What the requests do to a blood bank's document *)

Lemma orgs_evolve_refl s : orgs_evolve s s.
Proof. intros o. by destruct (organizations s !! o). Qed.

Lemma orgs_evolve_same s s' : organizations s' = organizations s → orgs_evolve s s'.
Proof. intros H o. rewrite H. by destruct (organizations s !! o). Qed.

Lemma orgs_evolve_trans s1 s2 s3 :
  orgs_evolve s1 s2 → orgs_evolve s2 s3 → orgs_evolve s1 s3.
Proof.
  intros H12 H23 o. specialize (H12 o). specialize (H23 o).
  destruct (organizations s1 !! o), (organizations s2 !! o), (organizations s3 !! o);
    try done.
  by etrans.
Qed.

Lemma evolves_keeps {A} (m : Js A) : keeps organizations m → evolves m.
Proof. intros H s. apply orgs_evolve_same, H. Qed.

Lemma evolves_ret {A} (a : A) : evolves (mret a).
Proof. intros s. apply orgs_evolve_refl. Qed.

Lemma evolves_throw {A} e : evolves (@throw A e).
Proof. intros s. apply orgs_evolve_refl. Qed.

Lemma evolves_bind {A A'} (m : Js A) (f : A → Js A') :
  evolves m → (∀ a, evolves (f a)) → evolves (m ≫= f).
Proof.
  intros Hm Hf s. unfold mbind, Js_bind. specialize (Hm s).
  destruct (m s) as [[a|e] s']; simpl in *; [| done].
  eapply orgs_evolve_trans; [exact Hm | apply Hf].
Qed.

Lemma evolves_try_catch {A} (m : Js A) (h : JS.Error → Js A) :
  evolves m → (∀ e, evolves (h e)) → evolves (try_catch m h).
Proof.
  intros Hm Hh s. unfold try_catch. specialize (Hm s).
  destruct (m s) as [[a|e] s']; simpl in *; [done |].
  eapply orgs_evolve_trans; [exact Hm | apply Hh].
Qed.

Lemma evolves_for_of {A} (l : list A) (body : A → Js unit) :
  (∀ x, evolves (body x)) → evolves (for_of l body).
Proof.
  intros Hb. induction l as [|x r IH]; simpl; [apply evolves_ret |].
  apply evolves_bind; [apply Hb | intros _; apply IH].
Qed.

(** [updateOne] writes one document, the one with the identifier, and only
    where the document is a blood bank that meets the filter. *)
Lemma evolves_updateOne o extra update :
  (∀ d, org_type d = BloodBank.type → extra d = true → bank_write d (update d)) →
  evolves (BloodBank.updateOne o extra update).
Proof.
  intros Hw s. unfold BloodBank.updateOne, mbind, Js_bind, get_store. simpl.
  destruct (organizations s !! o) as [d|] eqn:E; [| apply orgs_evolve_refl].
  destruct (decide (org_type d = BloodBank.type)) as [Ht|Ht];
    [rewrite (bool_decide_eq_true_2 _ Ht) | rewrite (bool_decide_eq_false_2 _ Ht)];
    simpl; [| apply orgs_evolve_refl].
  destruct (extra d) eqn:Hx; simpl; [| apply orgs_evolve_refl].
  destruct (bool_decide (update d = d)); simpl; [apply orgs_evolve_refl |].
  intros o'. simpl. destruct (decide (o' = o)) as [->|Hne].
  - rewrite E, lookup_insert_eq. by apply rtc_once, Hw.
  - rewrite lookup_insert_ne by done. by destruct (organizations s !! o').
Qed.

Create HintDb js_evolve.
#[export] Hint Resolve evolves_ret evolves_throw evolves_bind evolves_try_catch
  evolves_for_of : js_evolve.
#[export] Hint Extern 3 (evolves (new_ObjectId _)) =>
  (apply evolves_keeps, keeps_new_ObjectId) : js_evolve.
#[export] Hint Extern 3 (evolves new_Date) =>
  (apply evolves_keeps, keeps_new_Date) : js_evolve.
#[export] Hint Extern 3 (evolves get_store) =>
  (apply evolves_keeps, keeps_get_store) : js_evolve.
#[export] Hint Extern 3 (evolves (modify _)) =>
  (apply evolves_keeps, keeps_modify; intros; reflexivity) : js_evolve.
#[export] Hint Extern 3 (evolves (BloodBank.updateBloodStock _ _ _)) =>
  (apply evolves_throw) : js_evolve.
#[export] Hint Extern 5 (evolves (if ?b then _ else _)) => destruct b : js_evolve.
#[export] Hint Extern 5 (evolves (match ?x with Some _ => _ | None => _ end)) =>
  destruct x : js_evolve.

(** The shape the writers of the model share: identifiers and the clock are
    read, then one [updateOne] runs. *)
Ltac evolve_by_write :=
  apply evolves_try_catch; [| intros; apply evolves_ret];
  repeat (apply evolves_bind; [solve [auto with js_evolve] | intros ?]);
  apply evolves_bind; [| intros; apply evolves_ret];
  apply evolves_updateOne; intros d Ht Hx;
  try apply bool_decide_eq_true in Hx;
  split; [exact Ht |]; split; [reflexivity |]; split; [reflexivity |].

Ltac status_changed Hx :=
  right; unfold status_change; simpl; rewrite Hx;
  split; [constructor |]; split; [reflexivity |]; split; [| reflexivity];
  first [ rewrite bool_decide_eq_true_2 by done; by rewrite orb_true_r
        | rewrite bool_decide_eq_false_2 by (intros [? ?]; discriminate);
          by rewrite orb_false_r ].

Lemma evolves_touchStockTimestamp id : evolves (BloodBank.touchStockTimestamp id).
Proof. unfold BloodBank.touchStockTimestamp. evolve_by_write. by left. Qed.

Lemma evolves_incrementStatistics id field value :
  evolves (BloodBank.incrementStatistics id field value).
Proof. unfold BloodBank.incrementStatistics. evolve_by_write. by left. Qed.

Lemma evolves_verifyByAdmin id adminId remarks :
  evolves (BloodBank.verifyByAdmin id adminId remarks).
Proof. unfold BloodBank.verifyByAdmin. evolve_by_write. status_changed Hx. Qed.

Lemma evolves_rejectByAdmin id adminId reason :
  evolves (BloodBank.rejectByAdmin id adminId reason).
Proof. unfold BloodBank.rejectByAdmin. evolve_by_write. status_changed Hx. Qed.

Lemma evolves_suspendByAdmin id adminId reason :
  evolves (BloodBank.suspendByAdmin id adminId reason).
Proof. unfold BloodBank.suspendByAdmin. evolve_by_write. status_changed Hx. Qed.

Lemma evolves_reactivateByAdmin id adminId remarks :
  evolves (BloodBank.reactivateByAdmin id adminId remarks).
Proof. unfold BloodBank.reactivateByAdmin. evolve_by_write. status_changed Hx. Qed.

Lemma evolves_findById_bank id : evolves (BloodBank.findById id).
Proof. unfold BloodBank.findById. auto 10 with js_evolve. Qed.

#[export] Hint Resolve evolves_touchStockTimestamp evolves_incrementStatistics
  evolves_verifyByAdmin evolves_rejectByAdmin evolves_suspendByAdmin
  evolves_reactivateByAdmin evolves_findById_bank : js_evolve.

Lemma evolves_getBloodStock id : evolves (getBloodStock id).
Proof.
  unfold getBloodStock, BloodStock.findByBloodBankId, BloodStock.create.
  auto 20 with js_evolve.
Qed.

Lemma evolves_updateBloodStock req : evolves (updateBloodStock req).
Proof.
  unfold updateBloodStock.
  apply evolves_try_catch; [| intros; apply evolves_ret].
  destruct (sr_bloodGroup req) as [g|]; [| apply evolves_ret].
  destruct (sr_units req) as [[|n]|]; try apply evolves_ret;
    (case_bool_decide; [apply evolves_ret |]);
    (destruct (negb _); [apply evolves_ret |]); [apply evolves_ret |].
  case_bool_decide; [apply evolves_ret |].
  unfold BloodStock.findByBloodBankId, BloodStock.create,
    BloodStock.updateBloodGroupUnits.
  apply evolves_bind; [auto with js_evolve |].
  intros [bank|]; [| apply evolves_ret].
  apply evolves_bind; [auto 10 with js_evolve |]. intros found.
  apply evolves_bind; [destruct found; auto 12 with js_evolve |]. intros _.
  apply evolves_bind; [auto 12 with js_evolve |].
  intros ok. destruct ok; simpl; auto 12 with js_evolve.
Qed.

Lemma evolves_admin_action k req : evolves (admin_action k req).
Proof.
  assert (Hrec : ∀ b a t r p n, evolves (BloodBankAdminAction.create b a t r p n))
    by (intros; unfold BloodBankAdminAction.create; auto 10 with js_evolve).
  destruct k; simpl;
    unfold verifyBloodBank, rejectBloodBank, suspendBloodBank, reactivateBloodBank;
    (apply evolves_try_catch; [| intros; apply evolves_ret]);
    (destruct (JS.truthy (ar_adminId req)) as [a|]; [| apply evolves_ret]);
    (destruct (JS.truthy (ar_bloodBankId req)) as [b|]; [| apply evolves_ret]);
    try (destruct (JS.truthy (ar_reason req)) as [r|]; [| apply evolves_ret]);
    (apply evolves_bind; [auto with js_evolve |]);
    intros ok; destruct ok; simpl; try apply evolves_ret;
    (apply evolves_bind; [apply Hrec | intros; apply evolves_ret]).
Qed.

Lemma evolves_fulfillRequest req : evolves (fulfillRequest req).
Proof.
  unfold fulfillRequest.
  apply evolves_try_catch; [| intros; apply evolves_ret].
  destruct (fr_unitsFulfilled req) as [[|n]|]; try apply evolves_ret.
  case_bool_decide; [apply evolves_ret |].
  apply evolves_bind.
  { unfold HospitalBloodRequest.fulfillRequest. auto 12 with js_evolve. }
  intros ok. destruct ok; simpl; [| apply evolves_ret].
  apply evolves_bind.
  { unfold HospitalBloodRequest.findById. auto 10 with js_evolve. }
  intros request. apply evolves_bind; [| intros; apply evolves_ret].
  destruct (request ≫= _) as [[bank g]|]; [| apply evolves_ret].
  auto 10 with js_evolve.
Qed.

Lemma evolves_completeDrive req : evolves (completeDrive req).
Proof.
  unfold completeDrive.
  apply evolves_try_catch; [| intros; apply evolves_ret].
  apply evolves_bind.
  { unfold BloodBankNgoDrive.completeDrive. auto 12 with js_evolve. }
  intros ok. destruct ok; simpl; [| apply evolves_ret].
  apply evolves_bind.
  { unfold BloodBankNgoDrive.findById. auto 10 with js_evolve. }
  intros drive. apply evolves_bind; [| intros; apply evolves_ret].
  destruct (drive ≫= _) as [[bank d]|]; [| apply evolves_ret].
  apply evolves_bind; [| auto 10 with js_evolve].
  apply evolves_for_of. intros [g u]. simpl.
  case_bool_decide; auto with js_evolve.
Qed.

Lemma evolves_handle op : evolves (handle op).
Proof.
  destruct op; simpl.
  - apply evolves_getBloodStock.
  - apply evolves_updateBloodStock.
  - apply evolves_admin_action.
  - apply evolves_fulfillRequest.
  - apply evolves_completeDrive.
Qed.

(** Every sequence of requests takes each document of [organizations] to a
    document reached by writes of the model, and neither adds nor removes
    one. *)
Lemma after_all_evolves ops s : orgs_evolve s (after_all ops s).
Proof.
  revert s. induction ops as [|op ops IH]; intros s; simpl; [apply orgs_evolve_refl |].
  eapply orgs_evolve_trans; [apply evolves_handle | apply IH].
Qed.

Lemma evolved_document ops s o d :
  organizations s !! o = Some d →
  ∃ d', organizations (after_all ops s) !! o = Some d' ∧ rtc bank_write d d'.
Proof.
  intros Hd. pose proof (after_all_evolves ops s o) as H. rewrite Hd in H.
  destruct (organizations (after_all ops s) !! o) as [d'|]; [| done]. by exists d'.
Qed.

Lemma writes_follow_lifecycle d d' :
  rtc bank_write d d' →
  org_type d' = org_type d
  ∧ organizationCode d' = organizationCode d
  ∧ rtc lifecycle (org_status d) (org_status d').
Proof.
  induction 1 as [d|d1 d2 d3 (Hb & Ht & Hc & Hw) _ (IHt & IHc & IHs)]; [done |].
  split; [congruence |]. split; [congruence |].
  destruct Hw as [(Hs & _) | (Hl & _)].
  - by rewrite <- Hs.
  - by eapply rtc_l.
Qed.

Lemma rejected_is_final a b : rtc lifecycle a b → a = "REJECTED" → b = "REJECTED".
Proof.
  induction 1 as [|a b c Hab _ IH]; [done |]. intros ->. inversion Hab.
Qed.

(** X1. Whatever sequence of stock reads and updates, admin actions,
    fulfilments and drive completions is served, a document of
    [organizations] stays in the collection with its type and code, and its
    status moves only along PENDING to VERIFIED, PENDING to REJECTED,
    VERIFIED to SUSPENDED and SUSPENDED to VERIFIED; a REJECTED bank stays
    REJECTED for good. *)
Theorem bank_status_follows_lifecycle (ops : list Op) (s : Store) (o : string)
    (d : Organization) :
  organizations s !! o = Some d →
  ∃ d', organizations (after_all ops s) !! o = Some d'
    ∧ org_type d' = org_type d
    ∧ organizationCode d' = organizationCode d
    ∧ rtc lifecycle (org_status d) (org_status d')
    ∧ (org_status d = "REJECTED" → org_status d' = "REJECTED").
Proof.
  intros Hd. destruct (evolved_document ops s o d Hd) as (d' & Hd' & Hw).
  destruct (writes_follow_lifecycle d d' Hw) as (Ht & Hc & Hs).
  exists d'. repeat (split; [done |]). by apply rejected_is_final.
Qed.

Lemma bank_status_follows_lifecycle_witness :
  let ops := [ OpAdminAction SUSPEND (Scenario.act_on Scenario.bb001);
               OpAdminAction REJECT (Scenario.act_on Scenario.bb002);
               OpAdminAction VERIFY (Scenario.act_on Scenario.bb002);
               OpAdminAction REACTIVATE (Scenario.act_on Scenario.bb001) ] in
  let s := Scenario.db 3 in
  let d := Scenario.bank "BB-002" "PENDING" in
  organizations s !! Scenario.bb002 = Some d
  ∧ ∃ d', organizations (after_all ops s) !! Scenario.bb002 = Some d'
    ∧ org_type d' = org_type d
    ∧ organizationCode d' = organizationCode d
    ∧ rtc lifecycle (org_status d) (org_status d')
    ∧ (org_status d = "REJECTED" → org_status d' = "REJECTED").
Proof.
  intros ops s d.
  assert (H : organizations s !! Scenario.bb002 = Some d) by (vm_compute; reflexivity).
  split; [exact H |].
  exact (bank_status_follows_lifecycle ops s Scenario.bb002 d H).
Defined.

Lemma writes_keep_standing d d' :
  rtc bank_write d d' →
  (isActive d = bool_decide (org_status d = "VERIFIED")
   ∧ (org_status d = "VERIFIED" ∨ org_status d = "SUSPENDED" →
      isVerified (verificationStatus d) = true)) →
  isActive d' = bool_decide (org_status d' = "VERIFIED")
  ∧ (org_status d' = "VERIFIED" ∨ org_status d' = "SUSPENDED" →
     isVerified (verificationStatus d') = true).
Proof.
  induction 1 as [d|d1 d2 d3 (Hb & Ht & Hc & Hw) _ IH]; [done |].
  intros [Ha Hv]. apply IH.
  destruct Hw as [(Hs & Hact & Hver) | (Hl & Hact & Hver & _)].
  - rewrite Hs, Hact, Hver. done.
  - split; [done |]. rewrite Hver. intros Hst.
    inversion Hl as [H1 H2|H1 H2|H1 H2|H1 H2]; rewrite <- H1, <- H2 in *; simpl.
    + by rewrite orb_true_r.
    + destruct Hst; discriminate.
    + rewrite Hv by (left; congruence). done.
    + rewrite Hv by (right; congruence). done.
Qed.

(** X2. Stock reads and updates, admin actions, fulfilments and drive
    completions keep the standing of every blood bank consistent: a bank is
    active exactly when its status is VERIFIED, and a bank that is VERIFIED
    or SUSPENDED carries [verificationStatus.isVerified]. If this holds of
    every bank before a sequence of these operations, it holds after. The
    profile update, the registration and the deletion of a blood bank are
    not among them. *)
Theorem standing_stays_consistent (ops : list Op) (s : Store) :
  standing_consistent s → standing_consistent (after_all ops s).
Proof.
  intros Hs o d' Hd' Ht'.
  pose proof (after_all_evolves ops s o) as H. rewrite Hd' in H.
  destruct (organizations s !! o) as [d|] eqn:Hd; [| done].
  destruct (writes_follow_lifecycle d d' H) as (Ht & _).
  apply (writes_keep_standing d d' H). apply (Hs o d Hd). congruence.
Qed.

Lemma standing_stays_consistent_witness :
  let ops := [ OpAdminAction VERIFY (Scenario.act_on Scenario.bb002);
               OpAdminAction SUSPEND (Scenario.act_on Scenario.bb001);
               OpUpdateBloodStock (Scenario.set_units 7) ] in
  standing_consistent (Scenario.db 3)
  ∧ standing_consistent (after_all ops (Scenario.db 3)).
Proof.
  intros ops.
  assert (H : standing_consistent (Scenario.db 3))
    by (apply (bool_decide_unpack _); vm_compute; exact I).
  split; [exact H |].
  exact (standing_stays_consistent ops (Scenario.db 3) H).
Defined.

Lemma writes_need_a_bank d d' :
  rtc bank_write d d' → org_type d ≠ BloodBank.type → d' = d.
Proof. destruct 1 as [|d1 d2 d3 (Hb & _) _]; [done |]. by intros []. Qed.

(** X3. Stock reads and updates, admin actions, fulfilments and drive
    completions reach blood banks only: a document of [organizations] of
    another type (a hospital, an NGO) is the same document after any
    sequence of these operations, and such a sequence neither creates nor
    deletes a document of the collection. The registration and the deletion
    of a blood bank, which do, and the profile update are not among
    them. *)
Theorem other_organizations_untouched (ops : list Op) (s : Store) :
  (∀ o, is_Some (organizations (after_all ops s) !! o) ↔ is_Some (organizations s !! o))
  ∧ (∀ o d, organizations s !! o = Some d → org_type d ≠ BloodBank.type →
       organizations (after_all ops s) !! o = Some d).
Proof.
  split.
  - intros o. pose proof (after_all_evolves ops s o) as H.
    destruct (organizations s !! o), (organizations (after_all ops s) !! o);
      try done; split; intros [x Hx]; discriminate.
  - intros o d Hd Ht. destruct (evolved_document ops s o d Hd) as (d' & Hd' & Hw).
    by rewrite (writes_need_a_bank d d' Hw Ht) in Hd'.
Qed.

(** ** Admin actions as guarded status writes *)

(** [updateOne], evaluated. *)
Lemma updateOne_run o extra update s :
  BloodBank.updateOne o extra update s =
  match organizations s !! o with
  | Some d =>
      if bool_decide (org_type d = BloodBank.type) && extra d then
        if bool_decide (update d = d) then (Returned 0, s)
        else (Returned 1, set_organizations (<[o := update d]>) s)
      else (Returned 0, s)
  | None => (Returned 0, s)
  end.
Proof.
  unfold BloodBank.updateOne, mbind, Js_bind, get_store. simpl.
  destruct (organizations s !! o) as [d|]; [| done].
  destruct (_ && _); [| done]. by destruct (bool_decide _).
Qed.

(** The leaves of the case analysis of an admin action: refused with the
    database as it was, or done with the bank's document written. *)
Ltac action_refused :=
  simpl; eexists _, _; split; [reflexivity |]; simpl;
  split; [split; [discriminate |];
          intros (o' & d' & Ho' & Hd' & Ht' & Hs' & [a' Ha']); simpl in *;
          congruence |];
  split; [discriminate | done].

Ltac action_done o d :=
  simpl; eexists _, _; split; [reflexivity |]; simpl;
  split; [split; [intros _; exists o, d; repeat (split; [done |]); by eauto | done] |];
  split; [| discriminate];
  intros _; split; [done |]; exists o; split; [done |];
  split; [unfold bank_status; simpl; by rewrite lookup_insert_eq |];
  intros o' Hne; simpl; by rewrite lookup_insert_ne.

Ltac decide_bool P H :=
  destruct (decide P) as [H|H];
  [rewrite (bool_decide_eq_true_2 _ H) | rewrite (bool_decide_eq_false_2 _ H)]; simpl.

Ltac status_write_cases o d Ho Hd Ht Hs prev :=
  rewrite updateOne_run;
  destruct (organizations _ !! o) as [d|] eqn:Hd; [| action_refused];
  decide_bool (org_type d = BloodBank.type) Ht; [| action_refused];
  decide_bool (org_status d = prev) Hs; [| action_refused];
  rewrite bool_decide_eq_false_2
    by (intros Heq; apply (f_equal org_status) in Heq; simpl in Heq; congruence);
  action_done o d.

(** X4. An admin action that passes the controller's own checks (an admin,
    a bank identifier, a reason where one is required), the admin's
    identifier of a reactivation being a well-formed ObjectId, succeeds
    exactly when both identifiers are well formed and the bank's names a
    blood bank in the status the action starts from (PENDING for verify and
    reject, VERIFIED for suspend, SUSPENDED for reactivate). On success the
    answer is 200, the bank has the new status and no other document of
    [organizations] changes; otherwise the answer is 400 and the database
    is what it was. Verify, reject and suspend turn the admin's identifier
    into an ObjectId before they write; the reactivation does not, whence
    the condition on it. *)
Theorem admin_action_succeeds_iff (k : AdminActionKind) (req : AdminRequest)
    (s : Store) (bankId adminId : string) :
  JS.truthy (ar_adminId req) = Some adminId →
  JS.truthy (ar_bloodBankId req) = Some bankId →
  (k = REJECT ∨ k = SUSPEND → is_Some (JS.truthy (ar_reason req))) →
  (k = REACTIVATE → is_Some (ObjectId adminId)) →
  ∃ resp s',
    admin_action k req s = (Returned resp, s')
    ∧ (success resp = true ↔ actionable k s bankId adminId)
    ∧ (success resp = true →
       http_status resp = 200
       ∧ ∃ o, ObjectId bankId = Some o
           ∧ bank_status s' o = Some (recorded_as k).2
           ∧ ∀ o', o' ≠ o → organizations s' !! o' = organizations s !! o')
    ∧ (success resp = false → http_status resp = 400 ∧ s' = s).
Proof.
  intros Ha Hb Hr Hk.
  destruct k; simpl;
    try (pose proof (Hk eq_refl) as Hadm'); clear Hk;
    unfold verifyBloodBank, rejectBloodBank, suspendBloodBank, reactivateBloodBank;
    rewrite Ha, Hb;
    try (destruct (JS.truthy (ar_reason req)) as [r|];
         [| by destruct Hr as [? ?]; [by auto |]]);
    unfold BloodBank.verifyByAdmin, BloodBank.rejectByAdmin, BloodBank.suspendByAdmin,
      BloodBank.reactivateByAdmin, try_catch, mbind, Js_bind, new_ObjectId, new_Date;
    (destruct (ObjectId bankId) as [o|] eqn:Ho; simpl; [| action_refused]);
    try (destruct (ObjectId adminId) as [a|] eqn:Hadm; simpl; [| action_refused]).
  - status_write_cases o d Ho Hd Ht Hs "PENDING".
  - status_write_cases o d Ho Hd Ht Hs "PENDING".
  - status_write_cases o d Ho Hd Ht Hs "VERIFIED".
  - status_write_cases o d Ho Hd Ht Hs "SUSPENDED".
Qed.

Lemma admin_action_succeeds_iff_witness :
  let req := Scenario.act_on Scenario.bb001 in
  let s := (suspendBloodBank req (Scenario.db 3)).2 in
  JS.truthy (ar_adminId req) = Some Scenario.admin
  ∧ JS.truthy (ar_bloodBankId req) = Some Scenario.bb001
  ∧ (REACTIVATE = REJECT ∨ REACTIVATE = SUSPEND → is_Some (JS.truthy (ar_reason req)))
  ∧ (REACTIVATE = REACTIVATE → is_Some (ObjectId Scenario.admin))
  ∧ bank_status s Scenario.bb001 = Some "SUSPENDED"
  ∧ ∃ resp s',
      admin_action REACTIVATE req s = (Returned resp, s')
      ∧ (success resp = true ↔ actionable REACTIVATE s Scenario.bb001 Scenario.admin)
      ∧ (success resp = true →
         http_status resp = 200
         ∧ ∃ o, ObjectId Scenario.bb001 = Some o
             ∧ bank_status s' o = Some (recorded_as REACTIVATE).2
             ∧ ∀ o', o' ≠ o → organizations s' !! o' = organizations s !! o')
      ∧ (success resp = false → http_status resp = 400 ∧ s' = s).
Proof.
  intros req s.
  assert (H1 : JS.truthy (ar_adminId req) = Some Scenario.admin) by reflexivity.
  assert (H2 : JS.truthy (ar_bloodBankId req) = Some Scenario.bb001) by reflexivity.
  assert (H3 : REACTIVATE = REJECT ∨ REACTIVATE = SUSPEND
               → is_Some (JS.truthy (ar_reason req)))
    by (intros _; vm_compute; eauto).
  assert (H4 : REACTIVATE = REACTIVATE → is_Some (ObjectId Scenario.admin))
    by (intros _; vm_compute; eauto).
  split; [exact H1 |]. split; [exact H2 |]. split; [exact H3 |]. split; [exact H4 |].
  split; [vm_compute; reflexivity |].
  exact (admin_action_succeeds_iff REACTIVATE req s Scenario.bb001 Scenario.admin
           H1 H2 H3 H4).
Defined.

(** X5. Suspending a VERIFIED blood bank and reactivating it, with
    well-formed identifiers and a reason, succeeds twice. In between the
    bank is SUSPENDED and inactive, with the admin and the reason on
    record; afterwards [organizations] is the collection it was but for
    this bank's document, which is VERIFIED and active, has the three
    suspension fields cleared and everything else (counters and
    verification included) as before the suspension, with [updatedAt] set.
    Two admin-action records are appended, SUSPEND then REACTIVATE. *)
Theorem suspend_then_reactivate (req : AdminRequest) (s : Store)
    (bankId adminId reason o a : string) (d : Organization) :
  JS.truthy (ar_adminId req) = Some adminId →
  JS.truthy (ar_bloodBankId req) = Some bankId →
  JS.truthy (ar_reason req) = Some reason →
  ObjectId bankId = Some o →
  ObjectId adminId = Some a →
  organizations s !! o = Some d →
  org_type d = BloodBank.type →
  org_status d = "VERIFIED" →
  ∃ r1 s1 r2 s2 d1,
    suspendBloodBank req s = (Returned r1, s1)
    ∧ reactivateBloodBank req s1 = (Returned r2, s2)
    ∧ success r1 = true ∧ success r2 = true
    ∧ organizations s1 !! o = Some d1
    ∧ org_status d1 = "SUSPENDED" ∧ isActive d1 = false
    ∧ suspendedBy (verificationStatus d1) = Some a
    ∧ suspensionReason (verificationStatus d1) = Some reason
    ∧ organizations s2
      = <[o := BloodBank.set_status "VERIFIED" true
                 (let v := verificationStatus d in
                  {| isVerified := isVerified v; verifiedBy := verifiedBy v;
                     verifiedAt := verifiedAt v; rejectedBy := rejectedBy v;
                     rejectedAt := rejectedAt v; rejectionReason := rejectionReason v;
                     suspendedBy := None; suspendedAt := None;
                     suspensionReason := None |}) (clock s) d]> (organizations s)
    ∧ (aa_actionType <$> admin_actions s2)
      = ((aa_actionType <$> admin_actions s) ++ ["SUSPEND"; "REACTIVATE"])%list.
Proof.
  intros Ha Hb Hr Ho Hadm Hd Ht Hs.
  unfold suspendBloodBank, reactivateBloodBank. rewrite Ha, Hb, Hr.
  unfold BloodBank.suspendByAdmin, BloodBank.reactivateByAdmin, try_catch, mbind,
    Js_bind, new_ObjectId, new_Date.
  rewrite Ho, Hadm. simpl. rewrite !updateOne_run, Hd.
  rewrite (bool_decide_eq_true_2 _ Ht), (bool_decide_eq_true_2 _ Hs). simpl.
  rewrite bool_decide_eq_false_2
    by (intros Heq; apply (f_equal org_status) in Heq; simpl in Heq; congruence).
  simpl. eexists _, _, _, _, _. split; [reflexivity |].
  rewrite updateOne_run. simpl. rewrite lookup_insert_eq. simpl.
  rewrite (bool_decide_eq_true_2 _ Ht). simpl.
  rewrite bool_decide_eq_false_2 by discriminate.
  simpl. split; [reflexivity |]. simpl. rewrite insert_insert_eq.
  repeat (split; [reflexivity |]).
  rewrite !fmap_app. simpl. by rewrite <- app_assoc.
Qed.

Lemma suspend_then_reactivate_witness :
  let req := Scenario.act_on Scenario.bb001 in
  let s := Scenario.db 3 in
  let d := Scenario.bank "BB-001" "VERIFIED" in
  JS.truthy (ar_adminId req) = Some Scenario.admin
  ∧ JS.truthy (ar_bloodBankId req) = Some Scenario.bb001
  ∧ JS.truthy (ar_reason req) = Some "licence checked"
  ∧ ObjectId Scenario.bb001 = Some Scenario.bb001
  ∧ ObjectId Scenario.admin = Some Scenario.admin
  ∧ organizations s !! Scenario.bb001 = Some d
  ∧ org_type d = BloodBank.type
  ∧ org_status d = "VERIFIED"
  ∧ ∃ r1 s1 r2 s2 d1,
      suspendBloodBank req s = (Returned r1, s1)
      ∧ reactivateBloodBank req s1 = (Returned r2, s2)
      ∧ success r1 = true ∧ success r2 = true
      ∧ organizations s1 !! Scenario.bb001 = Some d1
      ∧ org_status d1 = "SUSPENDED" ∧ isActive d1 = false
      ∧ suspendedBy (verificationStatus d1) = Some Scenario.admin
      ∧ suspensionReason (verificationStatus d1) = Some "licence checked"
      ∧ organizations s2
        = <[Scenario.bb001 := BloodBank.set_status "VERIFIED" true
                   (let v := verificationStatus d in
                    {| isVerified := isVerified v; verifiedBy := verifiedBy v;
                       verifiedAt := verifiedAt v; rejectedBy := rejectedBy v;
                       rejectedAt := rejectedAt v; rejectionReason := rejectionReason v;
                       suspendedBy := None; suspendedAt := None;
                       suspensionReason := None |}) (clock s) d]> (organizations s)
      ∧ (aa_actionType <$> admin_actions s2)
        = ((aa_actionType <$> admin_actions s) ++ ["SUSPEND"; "REACTIVATE"])%list.
Proof.
  intros req s d.
  assert (H1 : JS.truthy (ar_adminId req) = Some Scenario.admin) by reflexivity.
  assert (H2 : JS.truthy (ar_bloodBankId req) = Some Scenario.bb001) by reflexivity.
  assert (H3 : JS.truthy (ar_reason req) = Some "licence checked") by reflexivity.
  assert (H4 : ObjectId Scenario.bb001 = Some Scenario.bb001) by reflexivity.
  assert (H5 : ObjectId Scenario.admin = Some Scenario.admin) by reflexivity.
  assert (H6 : organizations s !! Scenario.bb001 = Some d) by (vm_compute; reflexivity).
  assert (H7 : org_type d = BloodBank.type) by reflexivity.
  assert (H8 : org_status d = "VERIFIED") by reflexivity.
  repeat (split; [assumption |]).
  exact (suspend_then_reactivate req s Scenario.bb001 Scenario.admin "licence checked"
           Scenario.bb001 Scenario.admin d H1 H2 H3 H4 H5 H6 H7 H8).
Defined.

(** ** The counters of a blood bank *)

Lemma incrementStatistics_run s id o d field v :
  ObjectId id = Some o →
  organizations s !! o = Some d →
  org_type d = BloodBank.type →
  ∃ ok s', BloodBank.incrementStatistics id field v s = (Returned ok, s')
    ∧ organizations s'
      = <[o := {| org_type := org_type d; organizationCode := organizationCode d;
                  org_status := org_status d; isActive := isActive d;
                  verificationStatus := verificationStatus d;
                  statistics := <[field := default 0 (statistics d !! field) + v]>
                                  (statistics d);
                  updatedAt := clock s; lastStockUpdate := lastStockUpdate d |}]>
          (organizations s)
    ∧ clock s' = clock s.
Proof.
  intros Ho Hd Ht.
  unfold BloodBank.incrementStatistics, try_catch, mbind, Js_bind, new_ObjectId, new_Date.
  rewrite Ho. simpl. rewrite updateOne_run, Hd, (bool_decide_eq_true_2 _ Ht). simpl.
  case_bool_decide as Heq; simpl; eexists _, _; (split; [reflexivity |]); simpl.
  - split; [| done]. rewrite Heq. symmetry. by apply insert_id.
  - done.
Qed.

(** X6. [incrementStatistics] on a blood bank, for one of the four counters
    of [statistics], adds the value to the counter, an absent counter
    counting as 0; it leaves every other counter of the bank, the bank's
    status and every other document alone, and two increments of one
    counter add up. *)
Theorem incrementStatistics_adds (s : Store) (id o field : string) (d : Organization)
    (a b : Z) :
  ObjectId id = Some o →
  organizations s !! o = Some d →
  org_type d = BloodBank.type →
  field ∈ statistic_counters →
  let s1 := (BloodBank.incrementStatistics id field a s).2 in
  let s2 := (BloodBank.incrementStatistics id field b s1).2 in
  statistic s1 o field = statistic s o field + a
  ∧ statistic s2 o field = statistic s o field + a + b
  ∧ (∀ f, f ≠ field → statistic s1 o f = statistic s o f)
  ∧ bank_status s1 o = bank_status s o
  ∧ (∀ o', o' ≠ o → organizations s1 !! o' = organizations s !! o').
Proof.
  intros Ho Hd Ht _ s1 s2.
  destruct (incrementStatistics_run s id o d field a Ho Hd Ht) as (ok1 & t1 & E1 & H1 & _).
  assert (Hs1 : s1 = t1) by (unfold s1; by rewrite E1). clearbody s1. subst t1.
  assert (Hd1 : organizations s1 !! o = Some
      {| org_type := org_type d; organizationCode := organizationCode d;
         org_status := org_status d; isActive := isActive d;
         verificationStatus := verificationStatus d;
         statistics := <[field := default 0 (statistics d !! field) + a]> (statistics d);
         updatedAt := clock s; lastStockUpdate := lastStockUpdate d |})
    by (by rewrite H1, lookup_insert_eq).
  destruct (incrementStatistics_run s1 id o _ field b Ho Hd1 Ht) as (ok2 & t2 & E2 & H2 & _).
  assert (Hs2 : s2 = t2) by (unfold s2; by rewrite E2). clearbody s2. subst t2.
  unfold statistic, bank_status.
  rewrite H2, Hd1, lookup_insert_eq, Hd. simpl.
  rewrite !lookup_insert_eq. simpl.
  split; [done |]. split; [done |]. split; [| split; [done |]].
  - intros f Hf. by rewrite lookup_insert_ne.
  - intros o' Hne. rewrite H1. by rewrite lookup_insert_ne.
Qed.

(** For an identifier that is malformed or names no blood bank,
    [incrementStatistics] answers [false] and writes nothing. *)
Lemma incrementStatistics_no_bank (s : Store) (id field : string) (v : Z) :
  (∀ o d, ObjectId id = Some o → organizations s !! o = Some d →
          org_type d ≠ BloodBank.type) →
  BloodBank.incrementStatistics id field v s = (Returned false, s).
Proof.
  intros Hno.
  unfold BloodBank.incrementStatistics, try_catch, mbind, Js_bind, new_ObjectId, new_Date.
  destruct (ObjectId id) as [o|] eqn:Ho; simpl; [| done].
  rewrite updateOne_run.
  destruct (organizations s !! o) as [d|] eqn:Hd; [| done].
  by rewrite (bool_decide_eq_false_2 _ (Hno o d eq_refl Hd)).
Qed.

Lemma incrementStatistics_adds_witness :
  let s := Scenario.db 3 in
  let d := Scenario.bank "BB-001" "VERIFIED" in
  let s1 := (BloodBank.incrementStatistics Scenario.bb001 "totalUnitsDistributed" 5 s).2 in
  let s2 := (BloodBank.incrementStatistics Scenario.bb001 "totalUnitsDistributed" 2 s1).2 in
  ObjectId Scenario.bb001 = Some Scenario.bb001
  ∧ organizations s !! Scenario.bb001 = Some d
  ∧ org_type d = BloodBank.type
  ∧ "totalUnitsDistributed" ∈ statistic_counters
  ∧ statistic s1 Scenario.bb001 "totalUnitsDistributed"
    = statistic s Scenario.bb001 "totalUnitsDistributed" + 5
  ∧ statistic s2 Scenario.bb001 "totalUnitsDistributed"
    = statistic s Scenario.bb001 "totalUnitsDistributed" + 5 + 2
  ∧ (∀ f, f ≠ "totalUnitsDistributed" →
       statistic s1 Scenario.bb001 f = statistic s Scenario.bb001 f)
  ∧ bank_status s1 Scenario.bb001 = bank_status s Scenario.bb001
  ∧ (∀ o', o' ≠ Scenario.bb001 → organizations s1 !! o' = organizations s !! o').
Proof.
  intros s d s1 s2.
  assert (H1 : ObjectId Scenario.bb001 = Some Scenario.bb001) by reflexivity.
  assert (H2 : organizations s !! Scenario.bb001 = Some d) by (vm_compute; reflexivity).
  assert (H3 : org_type d = BloodBank.type) by reflexivity.
  assert (H4 : "totalUnitsDistributed" ∈ statistic_counters)
    by (apply (bool_decide_unpack _); vm_compute; exact I).
  split; [exact H1 |]. split; [exact H2 |]. split; [exact H3 |]. split; [exact H4 |].
  exact (incrementStatistics_adds s Scenario.bb001 Scenario.bb001 "totalUnitsDistributed"
           d 5 2 H1 H2 H3 H4).
Defined.

(** ** Deleting a blood bank *)

(** X7. [deleteBloodBank], called by an admin for a well-formed identifier
    of a blood bank, answers 200 and removes the bank's document from
    [organizations]; nothing else is written, so the bank's stock document
    stays in [blood_stock]. Afterwards the bank cannot be found, its stock
    can no longer be read through [getBloodStock] (404), and a second
    deletion is answered 404 with nothing written. *)
Theorem deleteBloodBank_removes_bank_only (s : Store) (id o admin : string)
    (adminId : option string) (d : Organization) :
  JS.truthy adminId = Some admin →
  ObjectId id = Some o →
  organizations s !! o = Some d →
  org_type d = BloodBank.type →
  let s' := set_organizations (delete o) s in
  deleteBloodBank id adminId s
    = (Returned (json 200 true "Blood bank deleted successfully"), s')
  ∧ blood_stock s' !! o = blood_stock s !! o
  ∧ BloodBank.findById id s' = (Returned None, s')
  ∧ getBloodStock id s' = (Returned (json 404 false "Blood bank not found"), s')
  ∧ deleteBloodBank id adminId s'
    = (Returned (json 404 false "Blood bank not found"), s').
Proof.
  intros Ha Ho Hd Ht s'.
  assert (Hgone : organizations s' !! o = None) by (simpl; apply lookup_delete_eq).
  assert (Hfind : BloodBank.findById id s' = (Returned None, s')).
  { unfold BloodBank.findById, try_catch, mbind, Js_bind, new_ObjectId, get_store.
    rewrite Ho. simpl. by rewrite lookup_delete_eq. }
  split.
  { unfold deleteBloodBank, BloodBankRemoval.deleteById, try_catch, mbind, Js_bind,
      new_ObjectId, get_store.
    rewrite Ha, Ho. simpl. rewrite Hd, (bool_decide_eq_true_2 _ Ht). reflexivity. }
  split; [done |]. split; [exact Hfind |]. split.
  - unfold getBloodStock, try_catch. erewrite bind_returned by exact Hfind. reflexivity.
  - unfold deleteBloodBank, BloodBankRemoval.deleteById, try_catch, mbind, Js_bind,
      new_ObjectId, get_store.
    rewrite Ha, Ho. simpl. rewrite lookup_delete_eq. reflexivity.
Qed.

Lemma deleteBloodBank_removes_bank_only_witness :
  let s := Scenario.db 3 in
  let d := Scenario.bank "BB-001" "VERIFIED" in
  let s' := set_organizations (delete Scenario.bb001) s in
  JS.truthy (Some Scenario.admin) = Some Scenario.admin
  ∧ ObjectId Scenario.bb001 = Some Scenario.bb001
  ∧ organizations s !! Scenario.bb001 = Some d
  ∧ org_type d = BloodBank.type
  ∧ deleteBloodBank Scenario.bb001 (Some Scenario.admin) s
    = (Returned (json 200 true "Blood bank deleted successfully"), s')
  ∧ blood_stock s' !! Scenario.bb001 = blood_stock s !! Scenario.bb001
  ∧ BloodBank.findById Scenario.bb001 s' = (Returned None, s')
  ∧ getBloodStock Scenario.bb001 s'
    = (Returned (json 404 false "Blood bank not found"), s')
  ∧ deleteBloodBank Scenario.bb001 (Some Scenario.admin) s'
    = (Returned (json 404 false "Blood bank not found"), s').
Proof.
  intros s d s'.
  assert (H1 : JS.truthy (Some Scenario.admin) = Some Scenario.admin) by reflexivity.
  assert (H2 : ObjectId Scenario.bb001 = Some Scenario.bb001) by reflexivity.
  assert (H3 : organizations s !! Scenario.bb001 = Some d) by (vm_compute; reflexivity).
  assert (H4 : org_type d = BloodBank.type) by reflexivity.
  split; [exact H1 |]. split; [exact H2 |]. split; [exact H3 |]. split; [exact H4 |].
  exact (deleteBloodBank_removes_bank_only s Scenario.bb001 Scenario.bb001 Scenario.admin
           (Some Scenario.admin) d H1 H2 H3 H4).
Defined.

(** ** Groupings ([$group] with a count) *)

Section Grouping.

Context {A K : Type} `{EqDecision K} (key : A → K).

Lemma bump_sum (k : K) g : sum_counts (Audit.bump k g) = sum_counts g + 1.
Proof.
  induction g as [|[k' n] g IH]; simpl; [done |].
  destruct (decide (k = k')); simpl; lia.
Qed.

Lemma bump_tally (k k' : K) g :
  tally k (Audit.bump k' g) = tally k g + (if decide (k' = k) then 1 else 0).
Proof.
  induction g as [|[k0 n] g IH]; simpl.
  - destruct (decide (k' = k)); lia.
  - destruct (decide (k' = k0)) as [->|Hne]; simpl.
    + destruct (decide (k0 = k)); lia.
    + rewrite IH. destruct (decide (k0 = k)); lia.
Qed.

Lemma bump_keys (k : K) g :
  (Audit.bump k g).*1 = if decide (k ∈ g.*1) then g.*1 else (g.*1 ++ [k])%list.
Proof.
  induction g as [|[k' n] g IH]; csimpl.
  - destruct (decide (k ∈ [])) as [H|H]; [by apply elem_of_nil in H | done].
  - destruct (decide (k = k')) as [->|Hne]; csimpl.
    + rewrite decide_True by left. done.
    + rewrite IH. destruct (decide (k ∈ g.*1)) as [Hin|Hin].
      * rewrite decide_True by (by right). done.
      * rewrite decide_False; [done |]. intros [?|?]%elem_of_cons; done.
Qed.

Lemma bump_NoDup (k : K) g : NoDup g.*1 → NoDup (Audit.bump k g).*1.
Proof.
  intros Hg. rewrite bump_keys. destruct (decide (k ∈ g.*1)); [done |].
  apply NoDup_app. split; [done |]. split; [| apply NoDup_singleton].
  intros x Hx ->%list_elem_of_singleton. done.
Qed.

Lemma bump_positive (k : K) g :
  Forall (λ kc, 0 < kc.2) g → Forall (λ kc, 0 < kc.2) (Audit.bump k g).
Proof.
  induction 1 as [|[k' n] g Hn Hg IH]; simpl; [by repeat constructor |].
  destruct (decide (k = k')); constructor; simpl in *; try done. lia.
Qed.

Lemma tally_elem (k : K) c g : NoDup g.*1 → (k, c) ∈ g → tally k g = c.
Proof.
  induction g as [|[k' n] g IH]; simpl; [by intros _ ?%elem_of_nil |].
  intros [Hk Hg]%NoDup_cons [Heq|Hin]%elem_of_cons.
  - injection Heq as <- <-. rewrite decide_True by done.
    assert (tally k g = 0) as ->; [| lia].
    clear IH Hg. induction g as [|[k0 n0] g IH]; simpl; [done |].
    simpl in Hk. rewrite decide_False by (intros ->; apply Hk; left).
    apply IH. intros ?. apply Hk. by right.
  - rewrite decide_False.
    + by apply IH.
    + intros ->. apply Hk. apply (list_elem_of_fmap_2 fst) in Hin. done.
Qed.

Lemma tally_found (k : K) g :
  Forall (λ kc, 0 < kc.2) g → NoDup g.*1 → 0 < tally k g → (k, tally k g) ∈ g.
Proof.
  intros Hpos Hnd Ht.
  assert (∃ c, (k, c) ∈ g) as [c Hc].
  { clear Hnd Hpos. induction g as [|[k' n] g IH]; simpl in *; [lia |].
    destruct (decide (k' = k)) as [->|Hne].
    - exists n. left.
    - destruct (IH Ht) as [c Hc]. exists c. by right. }
  by rewrite (tally_elem k c g Hnd Hc).
Qed.

Lemma count_key_snoc (k : K) (l : list A) (x : A) :
  count_key key k (l ++ [x]) = count_key key k l + (if decide (key x = k) then 1 else 0).
Proof.
  unfold count_key. rewrite filter_app, length_app, filter_cons, filter_nil.
  destruct (decide (key x = k)); simpl; lia.
Qed.

(** Grouping the records one after the other keeps a tally of them. *)
Lemma grouped_tallies (l : list A) :
  let g := foldl (λ acc x, Audit.bump (key x) acc) [] l in
  NoDup g.*1 ∧ Forall (λ kc, 0 < kc.2) g
  ∧ sum_counts g = Z.of_nat (length l)
  ∧ ∀ k, tally k g = count_key key k l.
Proof.
  induction l as [|x l IH] using rev_ind; simpl.
  - split; [constructor |]. split; [constructor |]. done.
  - rewrite foldl_app. simpl. destruct IH as (Hnd & Hpos & Hsum & Ht).
    split; [by apply bump_NoDup |]. split; [by apply bump_positive |].
    split; [rewrite bump_sum, Hsum, length_app; simpl; lia |].
    intros k. by rewrite bump_tally, Ht, count_key_snoc.
Qed.

Lemma grouped_is_tally (l : list A) :
  tallies key l (foldl (λ acc x, Audit.bump (key x) acc) [] l).
Proof.
  destruct (grouped_tallies l) as (Hnd & Hpos & Hsum & Ht).
  split; [done |]. split; [done |]. intros k. split.
  - intros c Hc. rewrite <- Ht, (tally_elem k c _ Hnd Hc). split; [| done].
    by apply (proj1 (Forall_forall _ _) Hpos (k, c)).
  - intros Hk. rewrite <- Ht in *. by apply tally_found.
Qed.

End Grouping.

(** X8. [getStats] answers, without writing, figures that fit together:
    [totalLogs] is the number of records in the date range, and each of
    [byEntityType], [byAction] and [byStatus] is a tally of exactly those
    records: one entry per value that occurs, each count positive and
    equal to the number of records with that value, the counts adding up
    to [totalLogs]. *)
Theorem audit_stats_are_tallies (dateFrom dateTo : option Z) (s : Store) :
  ∃ st, Audit.getStats dateFrom dateTo s = (Returned st, s)
    ∧ Audit.totalLogs st = Z.of_nat (length (in_range dateFrom dateTo s))
    ∧ tallies al_entityType (in_range dateFrom dateTo s) (Audit.byEntityType st)
    ∧ tallies al_action (in_range dateFrom dateTo s) (Audit.byAction st)
    ∧ tallies al_status (in_range dateFrom dateTo s) (Audit.byStatus st).
Proof.
  eexists. split; [reflexivity |]. simpl. split; [reflexivity |].
  split; [apply (grouped_is_tally al_entityType) |].
  split; [apply (grouped_is_tally al_action) | apply (grouped_is_tally al_status)].
Qed.

(** ** The pages of a reader, put together *)

Lemma concat_chunks {A} (c n : nat) (l : list A) :
  (length l ≤ n * c)%nat →
  concat ((λ i, take c (drop (i * c) l)) <$> seq 0 n) = l.
Proof.
  revert l. induction n as [|n IH]; intros l Hl.
  - destruct l; [done | simpl in Hl; lia].
  - change (seq 0 (S n)) with (0%nat :: seq 1 n).
    rewrite <- fmap_S_seq, fmap_cons, <- list_fmap_compose. simpl.
    rewrite drop_0.
    rewrite (list_fmap_ext _ (λ i, take c (drop (i * c) (drop c l))) (seq 0 n)).
    + rewrite IH; [apply take_drop |]. rewrite length_drop. lia.
    + intros _ i _. simpl. by rewrite drop_drop.
Qed.

Lemma read_totals (r : Audit.Reader) (p : Audit.Pagination) (s : Store) :
  1 ≤ Audit.page_of p → 1 ≤ Audit.limit_of p →
  let matching := filter (λ l, Audit.selects r l = true) (audit_logs s) in
  ∃ pg, Audit.read r p s = (Returned pg, s)
    ∧ Audit.logs pg = page_slice p matching
    ∧ Audit.total pg = Z.of_nat (length matching)
    ∧ Audit.totalPages pg
      = Some (- ((- Z.of_nat (length matching)) `div` Audit.limit_of p)).
Proof.
  intros Hp Hl matching.
  assert (Hpag : ∀ q, ∃ pg, Audit.paginated q p s = (Returned pg, s)
      ∧ Audit.logs pg = page_slice p (filter (λ l, q l = true) (audit_logs s))
      ∧ Audit.total pg = Z.of_nat (length (filter (λ l, q l = true) (audit_logs s)))
      ∧ Audit.totalPages pg
        = Some (- ((- Z.of_nat (length (filter (λ l, q l = true) (audit_logs s))))
                   `div` Audit.limit_of p))).
  { intros q. eexists. unfold Audit.paginated, page_slice, Audit.ceil_div.
    unfold mbind, Js_bind, Audit.countDocuments, Audit.find, Audit.toArray. simpl.
    rewrite bool_decide_eq_false_2 by nia.
    rewrite !bool_decide_eq_false_2 by lia.
    rewrite Z.abs_eq by lia. repeat split; reflexivity. }
  subst matching. destruct r as [f|t|a|i|c]; simpl; try apply Hpag.
  unfold Audit.findByEntityId, try_catch, new_ObjectId.
  destruct (ObjectId i) as [o|] eqn:Ho.
  - destruct (Hpag (λ l, bool_decide (al_entityId l = Some o))) as (pg & Hrun & H).
    exists pg. erewrite bind_returned by reflexivity. rewrite Hrun. done.
  - eexists. split; [reflexivity |]. simpl.
    replace (filter _ (audit_logs s)) with (@nil AuditLog).
    + unfold page_slice. simpl. rewrite drop_nil, take_nil.
      change (- Z.of_nat 0) with 0. by rewrite Z.div_0_l by lia.
    + symmetry. clear Hpag. induction (audit_logs s) as [|x l IH]; [done |].
      rewrite filter_cons. by destruct (decide (false = true)).
Qed.

(** Records of distinct instants have one arrangement newest first. *)
Lemma newest_first_unique (l1 l2 : list AuditLog) :
  NoDup (al_timestamp <$> l1) →
  l1 ≡ₚ l2 →
  StronglySorted newer_first l1 → StronglySorted newer_first l2 →
  l1 = l2.
Proof.
  revert l2. induction l1 as [|x r IH]; intros l2 Hnd Hp H1 H2.
  - by apply Permutation_nil in Hp.
  - destruct l2 as [|y r2]; [by apply Permutation_sym, Permutation_nil in Hp |].
    rewrite fmap_cons in Hnd. apply NoDup_cons in Hnd as [Hx Hnd].
    apply StronglySorted_inv in H1 as [H1 Hr]. apply StronglySorted_inv in H2 as [H2 Hr2].
    assert (Hxy : x = y).
    { assert (Hy : y ∈ x :: r) by (rewrite Hp; left).
      assert (Hx' : x ∈ y :: r2) by (rewrite <- Hp; left).
      apply elem_of_cons in Hy as [-> | Hy]; [done |].
      apply elem_of_cons in Hx' as [-> | Hx']; [done |].
      rewrite Forall_forall in Hr, Hr2.
      specialize (Hr y Hy). specialize (Hr2 x Hx'). unfold newer_first in Hr, Hr2.
      exfalso. apply Hx. replace (al_timestamp x) with (al_timestamp y) by lia.
      by apply list_elem_of_fmap_2. }
    subst y. f_equal. apply IH; try done. by apply Permutation_cons_inv in Hp.
Qed.

(** X9. The pages of a paginated audit reader fit together. For a page
    size of at least 1, every page from 1 on is answered with the same
    [total], the number of matching records, and the same [totalPages],
    the least number of pages that holds them all, and every page after
    [totalPages] is empty. Where no two matching records are of one
    instant, pages 1 to [totalPages] laid end to end are exactly the
    matching records, newest first, each once. *)
Theorem audit_pages_partition (r : Audit.Reader) (size : Z) (s : Store) :
  1 ≤ size →
  let matching := filter (λ l, Audit.selects r l = true) (audit_logs s) in
  ∃ n : nat,
    (∀ i, (1 ≤ i)%nat →
       ∃ pg, Audit.read r {| Audit.pg_page := Some (Z.of_nat i);
                             Audit.pg_limit := Some size |} s = (Returned pg, s)
         ∧ Audit.total pg = Z.of_nat (length matching)
         ∧ Audit.totalPages pg = Some (Z.of_nat n))
    ∧ (Z.of_nat n - 1) * size < Z.of_nat (length matching) ≤ Z.of_nat n * size
    ∧ (∀ i, (n < i)%nat → page_logs r size s i = [])
    ∧ (NoDup (al_timestamp <$> matching) →
       ∀ arranged,
         arranged ≡ₚ matching → StronglySorted newer_first arranged →
         concat (page_logs r size s <$> seq 1 n) = arranged).
Proof.
  intros Hsize matching.
  set (T := Z.of_nat (length matching)).
  set (k := - ((- T) `div` size)).
  assert (Hk : (k - 1) * size < T ≤ k * size).
  { unfold k. pose proof (Z.div_mod (- T) size ltac:(lia)) as Hdm.
    pose proof (Z.mod_pos_bound (- T) size ltac:(lia)) as Hm. nia. }
  assert (Hk0 : 0 ≤ k) by (unfold T in Hk; nia).
  assert (Hpage : ∀ i, (1 ≤ i)%nat →
    ∃ pg, Audit.read r {| Audit.pg_page := Some (Z.of_nat i);
                          Audit.pg_limit := Some size |} s = (Returned pg, s)
      ∧ Audit.logs pg
        = take (Z.to_nat size) (drop ((i - 1) * Z.to_nat size) (Audit.sort_desc matching))
      ∧ Audit.total pg = T ∧ Audit.totalPages pg = Some k).
  { intros i Hi.
    destruct (read_totals r {| Audit.pg_page := Some (Z.of_nat i);
                               Audit.pg_limit := Some size |} s)
      as (pg & Hrun & Hlogs & Htot & Htp);
      [unfold Audit.page_of; simpl; lia | unfold Audit.limit_of; simpl; lia |].
    exists pg. split; [done |]. split; [| done].
    rewrite Hlogs. unfold page_slice, Audit.page_of, Audit.limit_of. simpl.
    do 2 f_equal. nia. }
  exists (Z.to_nat k). rewrite Z2Nat.id by done.
  split; [| split; [done |]; split].
  - intros i Hi. destruct (Hpage i Hi) as (pg & Hrun & _ & Htot & Htp). by exists pg.
  - intros i Hi. unfold page_logs.
    destruct (Hpage i ltac:(lia)) as (pg & Hrun & Hlogs & _).
    rewrite Hrun. cbn [fst]. rewrite Hlogs, drop_ge; [by rewrite take_nil |].
    rewrite (Permutation_length (sort_desc_perm matching)). unfold T in Hk. nia.
  - intros Hnd arranged Hperm Hsorted.
    transitivity (Audit.sort_desc matching).
    + rewrite <- fmap_S_seq, <- list_fmap_compose.
      rewrite (list_fmap_ext _
                 (λ j, take (Z.to_nat size)
                         (drop (j * Z.to_nat size) (Audit.sort_desc matching)))
                 (seq 0 (Z.to_nat k))).
      * apply concat_chunks.
        rewrite (Permutation_length (sort_desc_perm matching)). unfold T in Hk. nia.
      * intros _ j _. unfold compose, page_logs.
        destruct (Hpage (S j) ltac:(lia)) as (pg & Hrun & Hlogs & _).
        rewrite Hrun. cbn [fst]. rewrite Hlogs. do 2 f_equal. lia.
    + apply newest_first_unique.
      * by rewrite (sort_desc_perm matching).
      * by rewrite (sort_desc_perm matching), Hperm.
      * apply sort_desc_sorted.
      * done.
Qed.

Lemma audit_pages_partition_witness :
  let r := Audit.ReadByEntityId Scenario.bb001 in
  let s := Scenario.audited in
  let matching := filter (λ l, Audit.selects r l = true) (audit_logs s) in
  1 ≤ 2
  ∧ NoDup (al_timestamp <$> matching)
  ∧ ∃ n : nat,
      (∀ i, (1 ≤ i)%nat →
         ∃ pg, Audit.read r {| Audit.pg_page := Some (Z.of_nat i);
                               Audit.pg_limit := Some 2 |} s = (Returned pg, s)
           ∧ Audit.total pg = Z.of_nat (length matching)
           ∧ Audit.totalPages pg = Some (Z.of_nat n))
      ∧ (Z.of_nat n - 1) * 2 < Z.of_nat (length matching) ≤ Z.of_nat n * 2
      ∧ (∀ i, (n < i)%nat → page_logs r 2 s i = [])
      ∧ (NoDup (al_timestamp <$> matching) →
         ∀ arranged,
           arranged ≡ₚ matching → StronglySorted newer_first arranged →
           concat (page_logs r 2 s <$> seq 1 n) = arranged).
Proof.
  intros r s matching.
  assert (H : 1 ≤ 2) by lia.
  assert (Hnd : NoDup (al_timestamp <$> matching))
    by (apply (bool_decide_unpack _); vm_compute; exact I).
  split; [exact H |]. split; [exact Hnd |].
  exact (audit_pages_partition r 2 s H).
Defined.

(** ** Writing a log and reading it back *)

(** What a paginated reader answers comes from the matching records. *)
Lemma paginated_subset (q : AuditLog → bool) (p : Audit.Pagination) (s s' : Store) pg :
  Audit.paginated q p s = (Returned pg, s') →
  ∀ l, l ∈ Audit.logs pg → q l = true ∧ l ∈ audit_logs s.
Proof.
  unfold Audit.paginated, mbind, Js_bind, Audit.countDocuments, Audit.find,
    Audit.toArray. simpl.
  case_bool_decide; [discriminate |]. simpl. intros [= <- _] l Hl. simpl in Hl.
  assert (Hin : l ∈ Audit.sort_desc (filter (λ l, q l = true) (audit_logs s))).
  { case_bool_decide.
    - eapply elem_of_sublist; [exact Hl | apply sublist_drop].
    - eapply elem_of_sublist; [exact Hl |].
      etrans; [apply sublist_take | apply sublist_drop]. }
  rewrite sort_desc_perm in Hin. by apply list_elem_of_filter in Hin.
Qed.

(** X10. A log written with a well-formed [entityId] is found again by
    [findByEntityId] under the same identifier: [create] appends one record
    carrying the ObjectId and the time of the call, the reader's [total]
    grows by one, and the first page holds the new record whenever the
    page size exceeds the number of records the entity had. *)
Theorem created_log_is_found (d : Audit.AuditData) (s : Store) (e o : string)
    (p : Audit.Pagination) :
  JS.truthy (Audit.ad_entityId d) = Some e →
  ObjectId e = Some o →
  1 ≤ Audit.page_of p → 1 ≤ Audit.limit_of p →
  ∃ l s' pg pg',
    Audit.create d s = (Returned l, s')
    ∧ audit_logs s' = (audit_logs s ++ [l])%list
    ∧ al_entityId l = Some o
    ∧ al_timestamp l = clock s
    ∧ Audit.findByEntityId e p s = (Returned pg, s)
    ∧ Audit.findByEntityId e p s' = (Returned pg', s')
    ∧ Audit.total pg' = Audit.total pg + 1
    ∧ (Audit.page_of p = 1 → Audit.total pg < Audit.limit_of p → l ∈ Audit.logs pg').
Proof.
  intros He Ho Hp Hl.
  assert (Hc : ∃ l s', Audit.create d s = (Returned l, s')
            ∧ audit_logs s' = (audit_logs s ++ [l])%list
            ∧ al_entityId l = Some o ∧ al_timestamp l = clock s).
  { eexists _, _. split.
    - unfold Audit.create, mbind, Js_bind, new_ObjectId, new_Date, fresh_ObjectId,
        modify.
      rewrite He, Ho. reflexivity.
    - simpl. split; [reflexivity |]. split; reflexivity. }
  destruct Hc as (l & s' & Hc & Happ & Hid & Hts).
  destruct (read_totals (Audit.ReadByEntityId e) p s Hp Hl) as (pg & Hrun & _ & Htot & _).
  destruct (read_totals (Audit.ReadByEntityId e) p s' Hp Hl)
    as (pg' & Hrun' & Hlogs' & Htot' & _).
  simpl in Hrun, Hrun', Htot, Htot', Hlogs'. rewrite Ho in Htot, Htot', Hlogs'.
  rewrite Happ, filter_app, filter_cons, filter_nil in Htot', Hlogs'.
  rewrite decide_True in Htot', Hlogs' by (by apply bool_decide_eq_true_2).
  exists l, s', pg, pg'. repeat (split; [done |]). split.
  - rewrite Htot', Htot, length_app. simpl. lia.
  - intros Hp1 Hfew. rewrite Hlogs'. unfold page_slice. rewrite Hp1. simpl.
    rewrite drop_0, take_ge.
    + rewrite sort_desc_perm. apply elem_of_app. right. left.
    + rewrite (Permutation_length (sort_desc_perm _)), length_app. simpl. lia.
Qed.

Lemma created_log_is_found_witness :
  let d := {| Audit.ad_entityType := Some "BLOOD_STOCK"; Audit.ad_action := Some "UPDATED";
              Audit.ad_performedBy := Some "admin@sebn.org";
              Audit.ad_performedByRole := Some "ADMIN";
              Audit.ad_entityId := Some Scenario.bb001;
              Audit.ad_entityCode := Some "BB-001"; Audit.ad_entityName := None;
              Audit.ad_changes := None; Audit.ad_ipAddress := None;
              Audit.ad_status := None; Audit.ad_description := None;
              Audit.ad_errorMessage := None; Audit.ad_metadata := None |} in
  let s := Scenario.audited in
  let p := {| Audit.pg_page := None; Audit.pg_limit := None |} in
  JS.truthy (Audit.ad_entityId d) = Some Scenario.bb001
  ∧ ObjectId Scenario.bb001 = Some Scenario.bb001
  ∧ 1 ≤ Audit.page_of p ∧ 1 ≤ Audit.limit_of p
  ∧ ∃ l s' pg pg',
      Audit.create d s = (Returned l, s')
      ∧ audit_logs s' = (audit_logs s ++ [l])%list
      ∧ al_entityId l = Some Scenario.bb001
      ∧ al_timestamp l = clock s
      ∧ Audit.findByEntityId Scenario.bb001 p s = (Returned pg, s)
      ∧ Audit.findByEntityId Scenario.bb001 p s' = (Returned pg', s')
      ∧ Audit.total pg' = Audit.total pg + 1
      ∧ (Audit.page_of p = 1 → Audit.total pg < Audit.limit_of p → l ∈ Audit.logs pg').
Proof.
  intros d s p.
  assert (H1 : JS.truthy (Audit.ad_entityId d) = Some Scenario.bb001) by reflexivity.
  assert (H2 : ObjectId Scenario.bb001 = Some Scenario.bb001) by reflexivity.
  assert (H3 : 1 ≤ Audit.page_of p) by (unfold p, Audit.page_of; simpl; lia).
  assert (H4 : 1 ≤ Audit.limit_of p) by (unfold p, Audit.limit_of; simpl; lia).
  split; [exact H1 |]. split; [exact H2 |]. split; [exact H3 |]. split; [exact H4 |].
  exact (created_log_is_found d s Scenario.bb001 Scenario.bb001 p H1 H2 H3 H4).
Defined.

(** X11. An [entityId] that is no well-formed ObjectId makes [create]
    throw before anything is written, while the readers swallow the same
    error: [findByEntityId] answers the empty page with [page] 1 and
    [limit] 50 whatever pagination was asked for, and [findById] answers
    [null]; neither writes. *)
Theorem malformed_entity_id (d : Audit.AuditData) (e : string) (p : Audit.Pagination)
    (s : Store) :
  JS.truthy (Audit.ad_entityId d) = Some e →
  ObjectId e = None →
  (∃ err, Audit.create d s = (Thrown err, s))
  ∧ Audit.findByEntityId e p s
    = (Returned {| Audit.logs := []; Audit.page := 1; Audit.page_limit := 50;
                   Audit.total := 0; Audit.totalPages := Some 0 |}, s)
  ∧ Audit.findById e s = (Returned None, s).
Proof.
  intros He Ho. split; [| split].
  - eexists. unfold Audit.create, mbind, Js_bind, new_ObjectId. rewrite He, Ho. reflexivity.
  - unfold Audit.findByEntityId, try_catch, mbind, Js_bind, new_ObjectId.
    rewrite Ho. reflexivity.
  - unfold Audit.findById, try_catch, mbind, Js_bind, new_ObjectId.
    rewrite Ho. reflexivity.
Qed.

Lemma malformed_entity_id_witness :
  let d := {| Audit.ad_entityType := Some "BLOODBANK"; Audit.ad_action := Some "UPDATED";
              Audit.ad_performedBy := None; Audit.ad_performedByRole := None;
              Audit.ad_entityId := Some "BB-001";
              Audit.ad_entityCode := Some "BB-001"; Audit.ad_entityName := None;
              Audit.ad_changes := None; Audit.ad_ipAddress := None;
              Audit.ad_status := None; Audit.ad_description := None;
              Audit.ad_errorMessage := None; Audit.ad_metadata := None |} in
  let p := {| Audit.pg_page := Some 3; Audit.pg_limit := Some 10 |} in
  let s := Scenario.audited in
  JS.truthy (Audit.ad_entityId d) = Some "BB-001"
  ∧ ObjectId "BB-001" = None
  ∧ (∃ err, Audit.create d s = (Thrown err, s))
  ∧ Audit.findByEntityId "BB-001" p s
    = (Returned {| Audit.logs := []; Audit.page := 1; Audit.page_limit := 50;
                   Audit.total := 0; Audit.totalPages := Some 0 |}, s)
  ∧ Audit.findById "BB-001" s = (Returned None, s).
Proof.
  intros d p s.
  assert (H1 : JS.truthy (Audit.ad_entityId d) = Some "BB-001") by reflexivity.
  assert (H2 : ObjectId "BB-001" = None) by reflexivity.
  split; [exact H1 |]. split; [exact H2 |].
  exact (malformed_entity_id d "BB-001" p s H1 H2).
Defined.

(** X12. [findAll] lower-cases the [performedBy] it filters by, and
    [create] stores [performedBy] as it is given. So, for a filter text of
    ASCII characters, every log [findAll] answers has the lower-cased text
    as its [performedBy], and a log whose [performedBy] is the filter text
    itself is never answered where that text differs from its own
    lower-casing (where it has an upper-case letter). *)
Theorem performedBy_filter_is_lowercased (f : Audit.Filters) (p : Audit.Pagination)
    (s s' : Store) (pg : Audit.Page) (who : string) :
  ascii_only who →
  JS.truthy (Audit.f_performedBy f) = Some who →
  Audit.findAll f p s = (Returned pg, s') →
  (∀ l, l ∈ Audit.logs pg → al_performedBy l = Some (toLowerCase who))
  ∧ (toLowerCase who ≠ who → ∀ l, al_performedBy l = Some who → l ∉ Audit.logs pg)
  ∧ (∀ d s0 l s1, Audit.create d s0 = (Returned l, s1) →
       al_performedBy l = Audit.ad_performedBy d).
Proof.
  intros _ Hwho Hrun.
  assert (Hall : ∀ l, l ∈ Audit.logs pg → al_performedBy l = Some (toLowerCase who)).
  { intros l Hl. destruct (paginated_subset _ _ _ _ _ Hrun l Hl) as [Hq _].
    unfold Audit.query_of in Hq. rewrite Hwho in Hq. simpl in Hq.
    repeat (apply andb_prop in Hq as [Hq ?]).
    match goal with H : Audit.when_set (Some _) _ = true |- _ => rename H into Hw end.
    unfold Audit.when_set, JS.truthy in Hw.
    case_bool_decide as Hlow; [| by apply bool_decide_eq_true in Hw].
    exfalso. unfold JS.truthy in Hwho.
    destruct (Audit.f_performedBy f) as [w|]; [| discriminate].
    case_bool_decide as Hw0; [discriminate |].
    injection Hwho as ->. by destruct who. }
  split; [exact Hall |]. split.
  - intros Hne l Hl Hin. specialize (Hall l Hin). congruence.
  - intros d s0 l s1. unfold Audit.create, mbind, Js_bind, new_ObjectId, new_Date,
      fresh_ObjectId, modify.
    destruct (JS.truthy (Audit.ad_entityId d)) as [e|]; simpl.
    + destruct (ObjectId e); simpl; [| discriminate]. by intros [= <- _].
    + by intros [= <- _].
Qed.

Lemma performedBy_filter_is_lowercased_witness :
  let f := {| Audit.f_entityType := None; Audit.f_action := None;
              Audit.f_performedBy := Some "Admin@SEBN.org";
              Audit.f_performedByRole := None; Audit.f_status := None;
              Audit.f_dateFrom := None; Audit.f_dateTo := None |} in
  let p := {| Audit.pg_page := None; Audit.pg_limit := Some 2 |} in
  let s := Scenario.audited in
  let pg := {| Audit.logs := [ Scenario.log "000000000000000000000001" 30;
                               Scenario.log "000000000000000000000003" 20 ];
               Audit.page := 1; Audit.page_limit := 2; Audit.total := 3;
               Audit.totalPages := Some 2 |} in
  ascii_only "Admin@SEBN.org"
  ∧ toLowerCase "Admin@SEBN.org" = "admin@sebn.org"
  ∧ JS.truthy (Audit.f_performedBy f) = Some "Admin@SEBN.org"
  ∧ Audit.findAll f p s = (Returned pg, s)
  ∧ (∀ l, l ∈ Audit.logs pg → al_performedBy l = Some (toLowerCase "Admin@SEBN.org"))
  ∧ (toLowerCase "Admin@SEBN.org" ≠ "Admin@SEBN.org" →
     ∀ l, al_performedBy l = Some "Admin@SEBN.org" → l ∉ Audit.logs pg)
  ∧ (∀ d s0 l s1, Audit.create d s0 = (Returned l, s1) →
       al_performedBy l = Audit.ad_performedBy d).
Proof.
  intros f p s pg.
  assert (H1 : JS.truthy (Audit.f_performedBy f) = Some "Admin@SEBN.org") by reflexivity.
  assert (H2 : Audit.findAll f p s = (Returned pg, s)) by (vm_compute; reflexivity).
  assert (H0 : ascii_only "Admin@SEBN.org")
    by (apply (bool_decide_unpack _); vm_compute; exact I).
  split; [exact H0 |]. split; [reflexivity |]. split; [exact H1 |]. split; [exact H2 |].
  exact (performedBy_filter_is_lowercased f p s s pg "Admin@SEBN.org" H0 H1 H2).
Defined.

(** ** Alerts: the unread count *)

Lemma count_app (q : AlertDoc → bool) l1 l2 :
  Alerts.count q (l1 ++ l2) = Alerts.count q l1 + Alerts.count q l2.
Proof. unfold Alerts.count. rewrite filter_app, length_app. lia. Qed.

Lemma count_cons (q : AlertDoc → bool) a l :
  Alerts.count q (a :: l) = (if q a then 1 else 0) + Alerts.count q l.
Proof.
  unfold Alerts.count. rewrite filter_cons.
  destruct (q a); simpl; lia.
Qed.

Lemma update_first_found o update l a :
  head (filter (λ x, at_id x = o) l) = Some a →
  ∃ l1 l2, l = (l1 ++ a :: l2)%list
    ∧ Alerts.update_first o update l
      = ((l1 ++ update a :: l2)%list, if bool_decide (update a = a) then 0 else 1)
    ∧ filter (λ x, at_id x = o) l1 = [].
Proof.
  induction l as [|x l IH]; [discriminate |].
  rewrite filter_cons. simpl. destruct (decide (at_id x = o)) as [Hx|Hx].
  - intros [= ->]. exists [], l. rewrite bool_decide_eq_true_2 by done. done.
  - intros Hh. destruct (IH Hh) as (l1 & l2 & -> & Hu & Hf).
    exists (x :: l1), l2. rewrite bool_decide_eq_false_2 by done.
    rewrite Hu. simpl. split; [done |]. split; [done |].
    rewrite filter_cons, decide_False by done. done.
Qed.

Lemma update_first_missing o update l :
  head (filter (λ x, at_id x = o) l) = None → Alerts.update_first o update l = (l, 0).
Proof.
  induction l as [|x l IH]; [done |].
  rewrite filter_cons. simpl. destruct (decide (at_id x = o)) as [Hx|Hx]; [discriminate |].
  intros Hh. rewrite bool_decide_eq_false_2 by done. by rewrite (IH Hh).
Qed.

Lemma findById_alert_run id o s :
  ObjectId id = Some o →
  Alerts.findById id s = (Returned (head (filter (λ a, at_id a = o) (alerts s))), s).
Proof.
  intros Ho. unfold Alerts.findById, try_catch, mbind, Js_bind, new_ObjectId.
  by rewrite Ho.
Qed.

(** X13. The unread count follows the alerts: [create] raises
    [getUnreadCount] by one; [markAsRead] on an alert that is unread and
    ACTIVE answers [true], lowers the count by one and leaves the alert
    read, with [readAt] the time of the call and every other field, and
    every other alert, as it was. *)
Theorem unread_count_follows (s : Store) (d : Alert.AlertData) (id o : string)
    (a : AlertDoc) :
  ObjectId id = Some o →
  Alerts.findById id s = (Returned (Some a), s) →
  at_isRead a = false →
  at_status a = "ACTIVE" →
  Alerts.getUnreadCount s = (Returned (unread s), s)
  ∧ unread (Alert.create d s).2 = unread s + 1
  ∧ ∃ s', Alerts.markAsRead id s = (Returned true, s')
      ∧ unread s' = unread s - 1
      ∧ Alerts.findById id s' = (Returned (Some (Alerts.mark (clock s) a)), s')
      ∧ ∃ l1 l2, alerts s = (l1 ++ a :: l2)%list
          ∧ alerts s' = (l1 ++ Alerts.mark (clock s) a :: l2)%list.
Proof.
  intros Ho Hfind Hun Hact.
  split; [reflexivity |]. split.
  { unfold unread. simpl. rewrite count_app, count_cons. unfold Alerts.count. simpl. lia. }
  rewrite (findById_alert_run id o s Ho) in Hfind. injection Hfind as Hhead.
  destruct (update_first_found o (Alerts.mark (clock s)) (alerts s) a Hhead)
    as (l1 & l2 & Hl & Hu & Hnone).
  assert (Hid : at_id a = o).
  { assert (Hin : a ∈ filter (λ x, at_id x = o) (alerts s)).
    { destruct (filter _ (alerts s)) as [|y r]; [discriminate |].
      injection Hhead as ->. left. }
    by apply list_elem_of_filter in Hin as [? _]. }
  eexists. split.
  { unfold Alerts.markAsRead, try_catch, mbind, Js_bind, new_ObjectId, new_Date,
      Alerts.updateOne.
    rewrite Ho. simpl. rewrite Hu. simpl.
    rewrite (bool_decide_eq_false_2 (Alerts.mark (clock s) a = a)).
    - reflexivity.
    - intros Heq. apply (f_equal at_isRead) in Heq. simpl in Heq. congruence. }
  split; [| split].
  - assert (Ha : unread_active a = true) by (unfold unread_active; by rewrite Hun, Hact).
    assert (Hm : unread_active (Alerts.mark (clock s) a) = false) by done.
    unfold unread. simpl. rewrite Hu. simpl.
    rewrite Hl, !count_app, !count_cons, Ha, Hm. lia.
  - rewrite (findById_alert_run id o _ Ho). simpl. rewrite Hu. simpl.
    rewrite filter_app, Hnone, filter_cons. simpl.
    rewrite decide_True by done. done.
  - exists l1, l2. simpl. by rewrite Hu.
Qed.

(** ** Alerts: the figures of the summary and of the dashboard *)

Lemma count_active (q : AlertDoc → bool) l :
  Alerts.count q (filter (λ a, at_status a = "ACTIVE") l)
  = Alerts.count (λ a, q a && bool_decide (at_status a = "ACTIVE")) l.
Proof.
  induction l as [|a l IH]; [done |].
  rewrite filter_cons, (count_cons _ a l).
  destruct (decide (at_status a = "ACTIVE")) as [Ha|Ha].
  - rewrite count_cons, IH, (bool_decide_eq_true_2 _ Ha), andb_true_r. done.
  - rewrite IH, (bool_decide_eq_false_2 _ Ha), andb_false_r. lia.
Qed.

Lemma count_ext (q q' : AlertDoc → bool) l :
  (∀ a, q a = q' a) → Alerts.count q l = Alerts.count q' l.
Proof.
  intros H. induction l as [|a l IH]; [done |]. by rewrite !count_cons, H, IH.
Qed.

Lemma count_bounds (q : AlertDoc → bool) l : 0 ≤ Alerts.count q l ≤ Z.of_nat (length l).
Proof.
  induction l as [|a l IH]; [done |]. rewrite count_cons. simpl length.
  destruct (q a); lia.
Qed.

Lemma severities_add_up l :
  let n v := Alerts.count (λ a, bool_decide (at_severity a = v)) l in
  n "CRITICAL" + n "HIGH" + n "MEDIUM" + n "LOW" ≤ Z.of_nat (length l)
  ∧ (Forall (λ a, at_severity a ∈ validSeverities) l →
     n "CRITICAL" + n "HIGH" + n "MEDIUM" + n "LOW" = Z.of_nat (length l)).
Proof.
  induction l as [|a l [IH1 IH2]]; [done |]. cbv beta zeta in *.
  rewrite !count_cons. simpl length. split.
  - repeat case_bool_decide; try congruence; lia.
  - intros [Ha Hl]%Forall_cons. specialize (IH2 Hl).
    unfold validSeverities in Ha. rewrite !elem_of_cons, elem_of_nil in Ha.
    repeat case_bool_decide; try congruence; try lia.
    destruct Ha as [?|[?|[?|[?|[]]]]]; congruence.
Qed.

(** X14. The three places that count alerts agree. [getSummary] and the
    dashboard's [getAlertStats] answer, without writing, the same total of
    ACTIVE alerts and the same numbers of CRITICAL and HIGH ones, and their
    unread figure is the number [getUnreadCount] answers. The four
    severity figures of the summary never exceed the total, and they add
    up to it when every ACTIVE alert has one of the four severities. *)
Theorem alert_figures_agree (s : Store) :
  ∃ sm st,
    Alerts.getSummary s = (Returned sm, s)
    ∧ Dashboard.getAlertStats s = (Returned st, s)
    ∧ Alerts.getUnreadCount s = (Returned (unread s), s)
    ∧ Alerts.sm_unread sm = unread s
    ∧ Dashboard.as_unread st = unread s
    ∧ Alerts.sm_total sm = Dashboard.as_total st
    ∧ Alerts.sm_critical sm = Dashboard.as_critical st
    ∧ Alerts.sm_high sm = Dashboard.as_high st
    ∧ 0 ≤ unread s ≤ Alerts.sm_total sm
    ∧ Alerts.sm_critical sm + Alerts.sm_high sm + Alerts.sm_medium sm + Alerts.sm_low sm
      ≤ Alerts.sm_total sm
    ∧ (Forall (λ a, at_status a = "ACTIVE" → at_severity a ∈ validSeverities) (alerts s) →
       Alerts.sm_critical sm + Alerts.sm_high sm + Alerts.sm_medium sm + Alerts.sm_low sm
       = Alerts.sm_total sm).
Proof.
  set (active := filter (λ a, at_status a = "ACTIVE") (alerts s)).
  assert (Hun : Alerts.count (λ a, negb (at_isRead a)) active = unread s).
  { unfold active, unread. rewrite count_active. by apply count_ext. }
  assert (Hun' : Alerts.count (λ a, bool_decide (at_isRead a = false)) active = unread s).
  { rewrite <- Hun. apply count_ext. intros a. by destruct (at_isRead a). }
  pose proof (count_bounds (λ a, negb (at_isRead a)) active) as Hb. rewrite Hun in Hb.
  destruct (severities_add_up active) as [Hle Heq]. cbv beta zeta in Hle, Heq.
  assert (Hvalid : Forall (λ a, at_status a = "ACTIVE" → at_severity a ∈ validSeverities)
                     (alerts s) → Forall (λ a, at_severity a ∈ validSeverities) active).
  { intros H. apply Forall_forall. intros a [Ha Hin]%list_elem_of_filter.
    by apply (proj1 (Forall_forall _ _) H a). }
  eexists _, _. split; [reflexivity |]. split; [reflexivity |]. split; [reflexivity |].
  fold active. simpl. destruct active as [|a0 rest] eqn:Hact; simpl.
  - unfold Alerts.count in *. simpl in *. repeat split; try lia; try done.
  - rewrite <- Hact in *. rewrite Hun, Hun'. repeat (split; [reflexivity |]).
    replace (S (length rest)) with (length active) by (by rewrite Hact).
    split; [lia |]. split; [exact Hle |]. intros H. by apply Heq, Hvalid.
Qed.

(** ** Alerts: what [createAlert] lets in *)

Lemma str_or_truthy (x : option string) (d v : string) :
  JS.truthy x = Some v → JS.str_or x d = v ∧ v ≠ "".
Proof.
  unfold JS.truthy, JS.str_or. destruct x as [y|]; [| discriminate].
  case_bool_decide; [discriminate |]. by intros [= ->].
Qed.

Lemma str_or_falsy (x : option string) (d : string) :
  JS.truthy x = None → JS.str_or x d = d.
Proof.
  unfold JS.truthy, JS.str_or. destruct x as [y|]; [| done].
  by case_bool_decide.
Qed.

Lemma str_or_not_empty (x : option string) (d : string) : d ≠ "" → JS.str_or x d ≠ "".
Proof.
  intros Hd. destruct (JS.truthy x) as [v|] eqn:Hx.
  - by destruct (str_or_truthy x d v Hx) as [-> ?].
  - by rewrite str_or_falsy.
Qed.

Lemma str_or_again (x : option string) (d : string) :
  d ≠ "" → JS.str_or (Some (JS.str_or x d)) d = JS.str_or x d.
Proof.
  intros Hd. unfold JS.str_or at 1.
  by rewrite bool_decide_eq_false_2 by (by apply str_or_not_empty).
Qed.

(** X15. [createAlert] always answers, with 201 or 400. It answers 201
    exactly for a request with a type from the list of alert types, a
    title and a message that are not empty and a severity that is absent,
    empty or one of LOW, MEDIUM, HIGH and CRITICAL; it then appends one
    alert, which it also sends back: unread, ACTIVE, with a severity from
    the four (MEDIUM where none was given) and a creator ("system" where
    none was given). Any other request is answered 400 and nothing is
    written. So a collection of well-formed alerts stays one. *)
Theorem createAlert_stores_valid_alerts (req : CreateAlertRequest) (s : Store) :
  ∃ r s',
    createAlert req s = (Returned r, s')
    ∧ (alert_request_valid req →
       rp_status r = 201
       ∧ ∃ a, rp_data r = Some a
           ∧ alerts s' = (alerts s ++ [a])%list
           ∧ alert_well_formed a
           ∧ at_isRead a = false ∧ at_status a = "ACTIVE"
           ∧ at_severity a = JS.str_or (ca_severity req) "MEDIUM"
           ∧ at_createdBy a = Some (JS.str_or (ca_createdBy req) "system"))
    ∧ (¬ alert_request_valid req → rp_status r = 400 ∧ rp_data r = None ∧ s' = s)
    ∧ (Forall alert_well_formed (alerts s) → Forall alert_well_formed (alerts s')).
Proof.
  assert (Hrefuse : ∀ msg, ¬ alert_request_valid req →
    ∃ r s', (Returned (reply (D := AlertDoc) 400 false msg), s) = (Returned r, s')
      ∧ (alert_request_valid req →
         rp_status r = 201
         ∧ ∃ a, rp_data r = Some a
             ∧ alerts s' = (alerts s ++ [a])%list
             ∧ alert_well_formed a
             ∧ at_isRead a = false ∧ at_status a = "ACTIVE"
             ∧ at_severity a = JS.str_or (ca_severity req) "MEDIUM"
             ∧ at_createdBy a = Some (JS.str_or (ca_createdBy req) "system"))
      ∧ (¬ alert_request_valid req → rp_status r = 400 ∧ rp_data r = None ∧ s' = s)
      ∧ (Forall alert_well_formed (alerts s) → Forall alert_well_formed (alerts s'))).
  { intros msg Hno. eexists _, _. split; [reflexivity |]. split; [done |]. done. }
  unfold createAlert, try_catch.
  destruct (JS.truthy (ca_type req)) as [t|] eqn:Ht;
    [| apply Hrefuse; intros ((? & H & _) & _); by rewrite Ht in H].
  destruct (JS.truthy (ca_title req)) as [title|] eqn:Htitle;
    [| apply Hrefuse; intros (_ & [? H] & _); by rewrite Htitle in H].
  destruct (JS.truthy (ca_message req)) as [msg|] eqn:Hmsg;
    [| apply Hrefuse; intros (_ & _ & [? H] & _); by rewrite Hmsg in H].
  unfold includes. case_bool_decide as Hty; simpl;
    [| apply Hrefuse; intros ((? & H & ?) & _); rewrite Ht in H; by injection H as <-].
  assert (Hsev : (∀ v, JS.truthy (ca_severity req) = Some v → v ∈ validSeverities)
                 ∨ ∃ v, JS.truthy (ca_severity req) = Some v ∧ v ∉ validSeverities).
  { destruct (JS.truthy (ca_severity req)) as [v|]; [| left; discriminate].
    destruct (decide (v ∈ validSeverities)); [left | right; eauto].
    by intros ? [= <-]. }
  destruct Hsev as [Hsev | (v & Hv & Hbad)].
  - assert (Hok : alert_request_valid req).
    { split; [by exists t |]. rewrite Htitle, Hmsg. eauto. }
    assert (Hin : JS.str_or (ca_severity req) "MEDIUM" ∈ validSeverities).
    { destruct (JS.truthy (ca_severity req)) as [v|] eqn:Hv.
      - destruct (str_or_truthy _ "MEDIUM" v Hv) as [-> _]. by apply Hsev.
      - rewrite str_or_falsy by done. right. left. }
    replace (match JS.truthy (ca_severity req) with
             | Some severity => negb (bool_decide (severity ∈ validSeverities))
             | None => false
             end) with false.
    2:{ destruct (JS.truthy (ca_severity req)) as [v|]; [| done].
        by rewrite bool_decide_eq_true_2 by (by apply Hsev). }
    eexists _, _. split.
    { unfold Alert.create, mbind, Js_bind, new_Date, fresh_ObjectId, modify. reflexivity. }
    cbn -[JS.str_or]. rewrite str_or_again by done.
    assert (Hwf : alert_well_formed
              {| at_id := hex_digits 24 (next_oid s) ""; at_type := Some t;
                 at_title := Some title; at_message := Some msg;
                 at_severity := JS.str_or (ca_severity req) "MEDIUM";
                 at_relatedEntity := default "{}" (ca_relatedEntity req);
                 at_relatedEntityType := ca_relatedEntityType req;
                 at_isRead := false; at_createdAt := clock s; at_readAt := None;
                 at_createdBy := Some (JS.str_or (ca_createdBy req) "system");
                 at_status := "ACTIVE" |}).
    { split; [by exists t |]. split; [done |]. simpl.
      split; [exists title; split; [done |]; by apply (str_or_truthy _ "" _ Htitle) |].
      split; [exists msg; split; [done |]; by apply (str_or_truthy _ "" _ Hmsg) |].
      eexists. split; [done |]. by apply str_or_not_empty. }
    split; [| split; [done |]].
    + intros _. split; [done |]. eexists. split; [reflexivity |]. simpl. done.
    + intros Hall. apply Forall_app. split; [done |]. by constructor.
  - rewrite Hv. rewrite bool_decide_eq_false_2 by done. simpl.
    apply Hrefuse. intros (_ & _ & _ & H). by apply Hbad, H.
Qed.

(** ** Alerts: marking several as read *)

Lemma new_ObjectIds_all ids os s :
  Forall2 (λ id o, ObjectId id = Some o) ids os →
  Alerts.new_ObjectIds ids s = (Returned os, s).
Proof.
  induction 1 as [|id o ids os Ho _ IH]; [done |]. simpl.
  unfold mbind, Js_bind, new_ObjectId. rewrite Ho. simpl.
  unfold mbind, Js_bind in IH. by rewrite IH.
Qed.

Lemma new_ObjectIds_throws ids id s :
  id ∈ ids → ObjectId id = None → ∃ e, Alerts.new_ObjectIds ids s = (Thrown e, s).
Proof.
  intros Hin Hbad. induction ids as [|x ids IH]; [by apply elem_of_nil in Hin |].
  simpl. unfold mbind, Js_bind, new_ObjectId.
  destruct (ObjectId x) as [o|] eqn:Hx; simpl; [| by eexists].
  apply elem_of_cons in Hin as [->|Hin]; [congruence |].
  destruct (IH Hin) as [e He]. rewrite He. by eexists.
Qed.

(** X16. [markMultipleAsRead] is all or nothing in its identifiers. When
    every identifier is a well-formed ObjectId, each alert named by one of
    them is read afterwards, every other alert is as it was, the answer
    counts the alerts written, and the unread count is that of the alerts
    not named. When one identifier is malformed the answer is 0 and
    nothing is marked, the alerts named by the well-formed identifiers
    included; the controller [markMultipleAlertsAsRead] still answers 200
    then, reporting 0 alerts marked. *)
Theorem markMultipleAsRead_all_or_nothing (ids : list string) (s : Store) :
  (∀ os, Forall2 (λ id o, ObjectId id = Some o) ids os →
     ∃ n s', Alerts.markMultipleAsRead ids s = (Returned n, s')
       ∧ alerts s' = (λ a, if bool_decide (at_id a ∈ os)
                           then Alerts.mark (clock s) a else a) <$> alerts s
       ∧ (∀ a, a ∈ alerts s' → at_id a ∈ os → at_isRead a = true)
       ∧ 0 ≤ n ≤ Alerts.count (λ a, bool_decide (at_id a ∈ os)) (alerts s)
       ∧ unread s'
         = Alerts.count (λ a, unread_active a && negb (bool_decide (at_id a ∈ os)))
             (alerts s))
  ∧ (∀ id, id ∈ ids → ObjectId id = None →
       Alerts.markMultipleAsRead ids s = (Returned 0, s)
       ∧ markMultipleAlertsAsRead (Some ids) s
         = (Returned {| rp_status := 200; rp_success := true;
                        rp_message := "0 alert(s) marked as read successfully";
                        rp_data := Some 0 |}, s)).
Proof.
  split.
  - intros os Hos. eexists _, _. split.
    { unfold Alerts.markMultipleAsRead, try_catch, mbind, Js_bind.
      rewrite (new_ObjectIds_all ids os s Hos). reflexivity. }
    simpl. split; [done |]. split; [| split].
    + intros a [b [-> Hb]]%list_elem_of_fmap Hid.
      case_bool_decide; [done |]. done.
    + induction (alerts s) as [|a l IH]; [done |].
      rewrite !count_cons. destruct (bool_decide (at_id a ∈ os)); simpl.
      * destruct (negb _); lia.
      * lia.
    + unfold unread. simpl. induction (alerts s) as [|a l IH]; [done |].
      rewrite fmap_cons, !count_cons, IH.
      destruct (bool_decide (at_id a ∈ os)); simpl; [| by rewrite andb_true_r].
      by rewrite andb_false_r.
  - intros id Hin Hbad.
    assert (Hrun : Alerts.markMultipleAsRead ids s = (Returned 0, s)).
    { unfold Alerts.markMultipleAsRead, try_catch, mbind, Js_bind.
      destruct (new_ObjectIds_throws ids id s Hin Hbad) as [e ->]. reflexivity. }
    split; [exact Hrun |].
    destruct ids as [|x ids]; [by apply elem_of_nil in Hin |].
    unfold markMultipleAlertsAsRead, try_catch.
    erewrite bind_returned by exact Hrun. reflexivity.
Qed.

(** ** Alerts: the listing *)

Lemma Forall_alert_insert_desc (P : AlertDoc → Prop) x l :
  P x → Forall P l → Forall P (Alerts.insert_desc x l).
Proof.
  intros Hx Hl. induction Hl as [|y r Hy Hr IH]; simpl.
  - by constructor.
  - case_bool_decide; repeat constructor; done.
Qed.

Lemma alert_sort_desc_sorted l : StronglySorted alert_newer_first (Alerts.sort_desc l).
Proof.
  induction l as [|x r IH]; simpl; [constructor |].
  induction IH as [|y r' Hr IH Hy]; simpl.
  - repeat constructor.
  - case_bool_decide as Hle.
    + constructor; [by constructor |]. constructor; [done |].
      eapply Forall_impl; [exact Hy |]. unfold alert_newer_first. intros; simpl in *; lia.
    + constructor; [done |].
      apply Forall_alert_insert_desc; [unfold alert_newer_first; lia | done].
Qed.

Lemma alert_sort_desc_perm l : Alerts.sort_desc l ≡ₚ l.
Proof.
  induction l as [|x r IH]; simpl; [done |]. rewrite <- IH at 2.
  generalize (Alerts.sort_desc r). clear. intros l.
  induction l as [|y l IH]; simpl; [done |].
  case_bool_decide; [done |]. rewrite IH. apply Permutation_swap.
Qed.

(** X17. What [findAll] lists. It never writes, and every alert it
    answers is in the collection, has the status asked for, ACTIVE when no
    status is given, is unread when [unreadOnly] is set, and has the
    severity, type and related entity type of each of these filters that
    is given and not empty. The alerts come newest first; [total] is the
    number of alerts that match, and with a page and a limit of at least 1
    the page holds at most [limit] alerts. *)
Theorem alert_findAll_sound (f : Alerts.Filters) (p : Audit.Pagination)
    (s s' : Store) (pg : Alerts.Page) :
  Alerts.findAll f p s = (Returned pg, s') →
  s' = s
  ∧ (∀ a, a ∈ Alerts.pa_alerts pg →
       a ∈ alerts s
       ∧ at_status a = default "ACTIVE" (Alerts.fa_status f)
       ∧ (Alerts.fa_unreadOnly f = true → at_isRead a = false)
       ∧ (∀ v, JS.truthy (Alerts.fa_severity f) = Some v → at_severity a = v)
       ∧ (∀ v, JS.truthy (Alerts.fa_type f) = Some v → at_type a = Some v)
       ∧ (∀ v, JS.truthy (Alerts.fa_relatedEntityType f) = Some v →
            at_relatedEntityType a = Some v))
  ∧ StronglySorted alert_newer_first (Alerts.pa_alerts pg)
  ∧ Alerts.pa_total pg = Alerts.count (Alerts.query_of f) (alerts s)
  ∧ (1 ≤ Alerts.limit_of p → Z.of_nat (length (Alerts.pa_alerts pg)) ≤ Alerts.limit_of p).
Proof.
  unfold Alerts.findAll, Alerts.paginated, mbind, Js_bind, Alerts.countDocuments,
    Alerts.find_sorted. simpl.
  case_bool_decide as Hskip; [discriminate |]. simpl. intros [= <- <-]. simpl.
  set (sorted := Alerts.sort_desc (filter _ (alerts s))).
  set (k := Z.to_nat _). set (n := Z.to_nat _).
  assert (Hsub : (if bool_decide (Alerts.limit_of p = 0) then drop k sorted
                  else take n (drop k sorted)) `sublist_of` sorted).
  { case_bool_decide; [apply sublist_drop |].
    etrans; [apply sublist_take | apply sublist_drop]. }
  split; [done |]. split; [| split; [| split; [done |]]].
  - intros a Ha. eapply elem_of_sublist in Ha; [| exact Hsub].
    unfold sorted in Ha. rewrite alert_sort_desc_perm in Ha.
    apply list_elem_of_filter in Ha as [Hq Hin]. split; [done |].
    unfold Alerts.query_of in Hq.
    repeat (apply andb_prop in Hq as [Hq ?]).
    apply bool_decide_eq_true in Hq. split; [done |].
    unfold Audit.when_set in *.
    split; [intros Hu; rewrite Hu in *; by destruct (at_isRead a) |].
    split; [| split]; intros v Hv; rewrite Hv in *;
      match goal with H : bool_decide (_ = Some v) = true |- _ =>
        apply bool_decide_eq_true in H; congruence end.
  - assert (Hd : StronglySorted alert_newer_first (drop k sorted)).
    { pose proof (alert_sort_desc_sorted (filter (λ a, Alerts.query_of f a = true)
                                            (alerts s))) as H.
      fold sorted in H. rewrite <- (take_drop k sorted) in H.
      by apply StronglySorted_app_1_r in H. }
    case_bool_decide; [exact Hd |].
    rewrite <- (take_drop n (drop k sorted)) in Hd.
    by apply StronglySorted_app_1_l in Hd.
  - intros Hl. rewrite bool_decide_eq_false_2 by lia.
    rewrite length_take. unfold n. rewrite Z.abs_eq by lia. lia.
Qed.

Lemma alert_findAll_sound_witness :
  let f := {| Alerts.fa_unreadOnly := true; Alerts.fa_severity := None;
              Alerts.fa_type := None; Alerts.fa_relatedEntityType := Some "BLOOD_BANK";
              Alerts.fa_status := None |} in
  let p := {| Audit.pg_page := None; Audit.pg_limit := None |} in
  let s := Board.db in
  let pg := {| Alerts.pa_alerts :=
                 [ Board.alert Board.suspension "ORGANIZATION_SUSPENDED" "HIGH" false 30;
                   Board.alert Board.shortage "CRITICAL_SHORTAGE" "CRITICAL" false 10 ];
               Alerts.pa_page := 1; Alerts.pa_limit := 20; Alerts.pa_total := 2;
               Alerts.pa_totalPages := Some 1 |} in
  Alerts.findAll f p s = (Returned pg, s)
  ∧ s = s
  ∧ (∀ a, a ∈ Alerts.pa_alerts pg →
       a ∈ alerts s
       ∧ at_status a = default "ACTIVE" (Alerts.fa_status f)
       ∧ (Alerts.fa_unreadOnly f = true → at_isRead a = false)
       ∧ (∀ v, JS.truthy (Alerts.fa_severity f) = Some v → at_severity a = v)
       ∧ (∀ v, JS.truthy (Alerts.fa_type f) = Some v → at_type a = Some v)
       ∧ (∀ v, JS.truthy (Alerts.fa_relatedEntityType f) = Some v →
            at_relatedEntityType a = Some v))
  ∧ StronglySorted alert_newer_first (Alerts.pa_alerts pg)
  ∧ Alerts.pa_total pg = Alerts.count (Alerts.query_of f) (alerts s)
  ∧ (1 ≤ Alerts.limit_of p → Z.of_nat (length (Alerts.pa_alerts pg)) ≤ Alerts.limit_of p).
Proof.
  intros f p s pg.
  assert (H : Alerts.findAll f p s = (Returned pg, s)) by (vm_compute; reflexivity).
  split; [exact H |].
  exact (alert_findAll_sound f p s s pg H).
Defined.

Lemma unread_count_follows_witness :
  let s := Board.db in
  let a := Board.alert Board.shortage "CRITICAL_SHORTAGE" "CRITICAL" false 10 in
  let d := {| Alert.d_type := Some "SYSTEM_ERROR"; Alert.d_title := Some "Backup failed";
              Alert.d_message := Some "Nightly backup did not finish";
              Alert.d_severity := None; Alert.d_relatedEntity := None;
              Alert.d_relatedEntityType := None; Alert.d_createdBy := None |} in
  ObjectId Board.shortage = Some Board.shortage
  ∧ Alerts.findById Board.shortage s = (Returned (Some a), s)
  ∧ at_isRead a = false
  ∧ at_status a = "ACTIVE"
  ∧ Alerts.getUnreadCount s = (Returned (unread s), s)
  ∧ unread (Alert.create d s).2 = unread s + 1
  ∧ ∃ s', Alerts.markAsRead Board.shortage s = (Returned true, s')
      ∧ unread s' = unread s - 1
      ∧ Alerts.findById Board.shortage s'
        = (Returned (Some (Alerts.mark (clock s) a)), s')
      ∧ ∃ l1 l2, alerts s = (l1 ++ a :: l2)%list
          ∧ alerts s' = (l1 ++ Alerts.mark (clock s) a :: l2)%list.
Proof.
  intros s a d.
  assert (H1 : ObjectId Board.shortage = Some Board.shortage) by reflexivity.
  assert (H2 : Alerts.findById Board.shortage s = (Returned (Some a), s))
    by (vm_compute; reflexivity).
  assert (H3 : at_isRead a = false) by reflexivity.
  assert (H4 : at_status a = "ACTIVE") by reflexivity.
  split; [exact H1 |]. split; [exact H2 |]. split; [exact H3 |]. split; [exact H4 |].
  exact (unread_count_follows s d Board.shortage Board.shortage a H1 H2 H3 H4).
Defined.

(** ** Alerts: the answers of [markAlertAsRead] *)

Lemma set_alerts_same (s : Store) : set_alerts (λ _, alerts s) s = s.
Proof. by destruct s. Qed.

(** X18. [markAlertAsRead] always answers. Without an identifier it
    answers 400; for an identifier that is malformed or names no alert,
    404; in both cases nothing is written. For an alert that is found it
    answers 200 and leaves the alert read with [readAt] the time of the
    call, unless the alert is read already with that very [readAt]: then
    the update changes nothing and the answer is 500, with the database as
    it was. *)
Theorem markAlertAsRead_answers (id : string) (s : Store) :
  ∃ r s',
    markAlertAsRead id s = (Returned r, s')
    ∧ (id = "" → rp_status r = 400 ∧ s' = s)
    ∧ (id ≠ "" → Alerts.findById id s = (Returned None, s) → rp_status r = 404 ∧ s' = s)
    ∧ (∀ a, id ≠ "" → Alerts.findById id s = (Returned (Some a), s) →
         (Alerts.mark (clock s) a ≠ a →
          rp_status r = 200
          ∧ Alerts.findById id s' = (Returned (Some (Alerts.mark (clock s) a)), s'))
         ∧ (Alerts.mark (clock s) a = a → rp_status r = 500 ∧ s' = s)).
Proof.
  unfold markAlertAsRead, try_catch.
  case_bool_decide as Hid.
  { eexists _, _. split; [reflexivity |]. simpl. repeat split; done. }
  destruct (ObjectId id) as [o|] eqn:Ho.
  2:{ assert (Hf : Alerts.findById id s = (Returned None, s)).
      { unfold Alerts.findById, try_catch, mbind, Js_bind, new_ObjectId. by rewrite Ho. }
      erewrite bind_returned by exact Hf. eexists _, _. split; [reflexivity |]. simpl.
      split; [done |]. split; [done |]. intros a _ Ha. rewrite Hf in Ha. discriminate. }
  pose proof (findById_alert_run id o s Ho) as Hf.
  erewrite bind_returned by exact Hf.
  destruct (head (filter (λ a, at_id a = o) (alerts s))) as [a|] eqn:Hhead.
  2:{ eexists _, _. split; [reflexivity |]. simpl.
      split; [done |]. split; [done |]. intros a _ Ha. rewrite Hf in Ha. discriminate. }
  destruct (update_first_found o (Alerts.mark (clock s)) (alerts s) a Hhead)
    as (l1 & l2 & Hl & Hu & Hnone).
  assert (Hida : at_id a = o).
  { assert (Hin : a ∈ filter (λ x, at_id x = o) (alerts s)).
    { destruct (filter _ (alerts s)) as [|y r]; [discriminate |].
      injection Hhead as ->. left. }
    by apply list_elem_of_filter in Hin as [? _]. }
  unfold Alerts.markAsRead, try_catch, mbind, Js_bind, new_ObjectId, new_Date,
    Alerts.updateOne.
  rewrite Ho. simpl. rewrite Hu. simpl.
  destruct (decide (Alerts.mark (clock s) a = a)) as [Heq|Hne].
  - rewrite (bool_decide_eq_true_2 _ Heq). simpl.
    eexists _, _. split; [reflexivity |]. simpl.
    assert (Hsame : set_alerts (λ l, (Alerts.update_first o (Alerts.mark (clock s)) l).1) s
                    = s).
    { rewrite <- (set_alerts_same s) at 2. unfold set_alerts. simpl.
      rewrite Hu. simpl. rewrite Heq. by rewrite <- Hl. }
    split; [done |]. split; [intros _ Hn; rewrite Hf in Hn; discriminate |].
    intros a' _ Ha'. rewrite Hf in Ha'. injection Ha' as <-.
    split; [done |]. intros _. split; [done | exact Hsame].
  - rewrite (bool_decide_eq_false_2 _ Hne). simpl.
    eexists _, _. split; [reflexivity |]. simpl.
    split; [done |]. split; [intros _ Hn; rewrite Hf in Hn; discriminate |].
    intros a' _ Ha'. rewrite Hf in Ha'. injection Ha' as <-.
    split; [| done]. intros _. split; [done |].
    rewrite (findById_alert_run id o _ Ho). simpl. rewrite Hu. simpl.
    rewrite filter_app, Hnone, filter_cons. simpl.
    rewrite decide_True by done. done.
Qed.

(** ** Counting the logs of an entity type *)

Lemma in_range_all s : in_range None None s = audit_logs s.
Proof.
  unfold in_range. simpl. induction (audit_logs s) as [|x l IH]; [done |].
  rewrite filter_cons, decide_True by done. by rewrite IH.
Qed.

(** X19. The three ways the audit model counts the logs of an entity type
    agree: what [countByEntityType] answers is the [total] of every page of
    [findByEntityType], and it is the count [getStats] holds for the type
    when no date range is given; [getStats] has an entry for the type
    exactly when there is such a log. *)
Theorem audit_counts_agree (t : string) (p : Audit.Pagination) (s : Store) :
  1 ≤ Audit.page_of p → 1 ≤ Audit.limit_of p →
  ∃ n pg st,
    Audit.countByEntityType t s = (Returned n, s)
    ∧ Audit.findByEntityType t p s = (Returned pg, s)
    ∧ Audit.getStats None None s = (Returned st, s)
    ∧ Audit.total pg = n
    ∧ (∀ c, (Some t, c) ∈ Audit.byEntityType st → c = n)
    ∧ (0 < n ↔ (Some t, n) ∈ Audit.byEntityType st).
Proof.
  intros Hp Hl.
  destruct (read_totals (Audit.ReadByEntityType t) p s Hp Hl) as (pg & Hrun & _ & Htot & _).
  destruct (grouped_is_tally al_entityType (in_range None None s)) as (_ & _ & Ht).
  assert (Hst : ∃ st, Audit.getStats None None s = (Returned st, s)
            ∧ Audit.byEntityType st
              = foldl (λ acc x, Audit.bump (al_entityType x) acc) []
                      (in_range None None s))
    by (eexists; split; reflexivity).
  destruct Hst as (st & Hst & Hby). rewrite <- Hby in Ht. clear Hby.
  simpl in Hrun, Htot.
  rewrite in_range_all in Ht.
  assert (Hn : Z.of_nat (length (filter (λ l, bool_decide (al_entityType l = Some t) = true)
                                   (audit_logs s)))
               = count_key al_entityType (Some t) (audit_logs s)).
  { unfold count_key. do 2 f_equal. apply list_filter_iff. intros x.
    by rewrite bool_decide_eq_true. }
  eexists _, pg, st. split; [reflexivity |]. split; [exact Hrun |]. split; [exact Hst |].
  simpl. rewrite Hn. split; [by rewrite Htot, Hn |].
  destruct (Ht (Some t)) as [Hc Hfound]. split.
  - intros c Hin. by apply Hc.
  - split; [exact Hfound |]. intros Hin. by apply (Hc _ Hin).
Qed.

Lemma audit_counts_agree_witness :
  let p := {| Audit.pg_page := None; Audit.pg_limit := None |} in
  let s := Scenario.audited in
  1 ≤ Audit.page_of p ∧ 1 ≤ Audit.limit_of p
  ∧ ∃ n pg st,
      Audit.countByEntityType "BLOOD_STOCK" s = (Returned n, s)
      ∧ Audit.findByEntityType "BLOOD_STOCK" p s = (Returned pg, s)
      ∧ Audit.getStats None None s = (Returned st, s)
      ∧ Audit.total pg = n
      ∧ (∀ c, (Some "BLOOD_STOCK", c) ∈ Audit.byEntityType st → c = n)
      ∧ (0 < n ↔ (Some "BLOOD_STOCK", n) ∈ Audit.byEntityType st).
Proof.
  intros p s.
  assert (H1 : 1 ≤ Audit.page_of p) by (unfold p, Audit.page_of; simpl; lia).
  assert (H2 : 1 ≤ Audit.limit_of p) by (unfold p, Audit.limit_of; simpl; lia).
  split; [exact H1 |]. split; [exact H2 |].
  exact (audit_counts_agree "BLOOD_STOCK" p s H1 H2).
Defined.

(** ** Requests for an identifier that names no blood bank *)

Lemma findById_no_bank s id :
  names_no_bank s id → BloodBank.findById id s = (Returned None, s).
Proof.
  intros Hno. unfold BloodBank.findById, try_catch, mbind, Js_bind, new_ObjectId, get_store.
  destruct (ObjectId id) as [o|] eqn:Ho; simpl; [| done].
  destruct (organizations s !! o) as [d|] eqn:Hd; [| done].
  by rewrite (bool_decide_eq_false_2 _ (Hno o d Ho Hd)).
Qed.

(** X20. An identifier that is malformed, unknown or that of an
    organization of another type gets nothing out of the stock requests
    and nothing written: [getBloodStock] answers 404; [updateBloodStock]
    answers 400 for a body it rejects and 404 for one it accepts (a blood
    group from the list and a non-negative number of units);
    [touchStockTimestamp] and [incrementStatistics] answer [false]. No
    stock document is created on the way. *)
Theorem stock_requests_need_a_bank (s : Store) (req : StockRequest) (field : string)
    (v : Z) :
  names_no_bank s (sr_id req) →
  getBloodStock (sr_id req) s = (Returned (json 404 false "Blood bank not found"), s)
  ∧ (∃ resp, updateBloodStock req s = (Returned resp, s)
       ∧ success resp = false
       ∧ (http_status resp = 400 ∨ http_status resp = 404)
       ∧ (∀ g n, sr_bloodGroup req = Some g → g ∈ validBloodGroups →
                 sr_units req = Some (JS.Int n) → 0 ≤ n → http_status resp = 404))
  ∧ BloodBank.touchStockTimestamp (sr_id req) s = (Returned false, s)
  ∧ BloodBank.incrementStatistics (sr_id req) field v s = (Returned false, s).
Proof.
  intros Hno. pose proof (findById_no_bank s (sr_id req) Hno) as Hfind.
  split; [| split; [| split]].
  - unfold getBloodStock, try_catch. by erewrite bind_returned by exact Hfind.
  - assert (Hrefuse : ∀ msg,
      (∀ g n, sr_bloodGroup req = Some g → g ∈ validBloodGroups →
              sr_units req = Some (JS.Int n) → 0 ≤ n → False) →
      ∃ resp, (Returned (json 400 false msg), s) = (Returned resp, s)
        ∧ success resp = false
        ∧ (http_status resp = 400 ∨ http_status resp = 404)
        ∧ (∀ g n, sr_bloodGroup req = Some g → g ∈ validBloodGroups →
                  sr_units req = Some (JS.Int n) → 0 ≤ n → http_status resp = 404)).
    { intros msg Hbad. eexists. split; [reflexivity |]. simpl. split; [done |].
      split; [by left |]. intros g n H1 H2 H3 H4. destruct (Hbad g n H1 H2 H3 H4). }
    unfold updateBloodStock, try_catch.
    destruct (sr_bloodGroup req) as [g|] eqn:Hg;
      [| apply Hrefuse; intros; discriminate].
    destruct (sr_units req) as [[|n]|] eqn:Hu;
      [| | apply Hrefuse; intros; discriminate].
    + case_bool_decide; [apply Hrefuse; intros; discriminate |].
      destruct (negb _); apply Hrefuse; intros; discriminate.
    + case_bool_decide as Hempty.
      { apply Hrefuse. intros g' n' [= <-] Hin. by apply valid_group_not_empty in Hin. }
      unfold includes. case_bool_decide as Hin; simpl;
        [| apply Hrefuse; by intros g' n' [= <-] Hin'].
      case_bool_decide as Hneg; [apply Hrefuse; intros g' n' _ _ [= <-] Hn; lia |].
      erewrite bind_returned by exact Hfind.
      eexists. split; [reflexivity |]. simpl. split; [done |]. split; [by right | done].
  - unfold BloodBank.touchStockTimestamp, try_catch, mbind, Js_bind, new_ObjectId, new_Date.
    destruct (ObjectId (sr_id req)) as [o|] eqn:Ho; simpl; [| done].
    rewrite updateOne_run.
    destruct (organizations s !! o) as [d|] eqn:Hd; [| done].
    by rewrite (bool_decide_eq_false_2 _ (Hno o d Ho Hd)).
  - by apply incrementStatistics_no_bank.
Qed.

Lemma stock_requests_need_a_bank_witness :
  let s := Scenario.db 3 in
  let req := {| sr_id := Scenario.request; sr_bloodGroup := Some "O+";
                sr_units := Some (JS.Int 4); sr_userCode := None |} in
  names_no_bank s (sr_id req)
  ∧ getBloodStock (sr_id req) s = (Returned (json 404 false "Blood bank not found"), s)
  ∧ (∃ resp, updateBloodStock req s = (Returned resp, s)
       ∧ success resp = false
       ∧ (http_status resp = 400 ∨ http_status resp = 404)
       ∧ (∀ g n, sr_bloodGroup req = Some g → g ∈ validBloodGroups →
                 sr_units req = Some (JS.Int n) → 0 ≤ n → http_status resp = 404))
  ∧ BloodBank.touchStockTimestamp (sr_id req) s = (Returned false, s)
  ∧ BloodBank.incrementStatistics (sr_id req) "totalUnitsDistributed" 4 s
    = (Returned false, s).
Proof.
  intros s req.
  assert (H : names_no_bank s (sr_id req)).
  { intros o d Ho Hd. vm_compute in Ho. injection Ho as <-.
    vm_compute in Hd. discriminate. }
  split; [exact H |].
  exact (stock_requests_need_a_bank s req "totalUnitsDistributed" 4 H).
Defined.

(** ** Readers that are special cases of [findAll] *)

Lemma alerts_paginated_ext (q q' : AlertDoc → bool) (p : Audit.Pagination) (s : Store) :
  (∀ a, q a = q' a) → Alerts.paginated q p s = Alerts.paginated q' p s.
Proof.
  intros H.
  assert (Hf : filter (λ a, q a = true) (alerts s) = filter (λ a, q' a = true) (alerts s))
    by (apply list_filter_iff; intros a; by rewrite H).
  unfold Alerts.paginated, mbind, Js_bind, Alerts.countDocuments, Alerts.find_sorted,
    Alerts.count.
  by rewrite Hf.
Qed.

(** X21. [findByType] is [findAll] filtered by that type, for every type
    that is not the empty text: the two answer the same page, total and
    number of pages, for every pagination. *)
Theorem findByType_is_filtered_findAll (t : string) (p : Audit.Pagination) (s : Store) :
  t ≠ "" →
  Alerts.findByType t p s
  = Alerts.findAll {| Alerts.fa_unreadOnly := false; Alerts.fa_severity := None;
                      Alerts.fa_type := Some t; Alerts.fa_relatedEntityType := None;
                      Alerts.fa_status := None |} p s.
Proof.
  intros Ht. unfold Alerts.findByType, Alerts.findAll. apply alerts_paginated_ext.
  intros a. unfold Alerts.query_of, Audit.when_set, JS.truthy. simpl.
  rewrite (bool_decide_eq_false_2 (t = "")) by done.
  by rewrite !andb_true_r, andb_comm.
Qed.

Lemma findByType_is_filtered_findAll_witness :
  let p := {| Audit.pg_page := Some 1; Audit.pg_limit := Some 5 |} in
  "LOW_STOCK_WARNING" ≠ ""
  ∧ Alerts.findByType "LOW_STOCK_WARNING" p Board.db
    = Alerts.findAll {| Alerts.fa_unreadOnly := false; Alerts.fa_severity := None;
                        Alerts.fa_type := Some "LOW_STOCK_WARNING";
                        Alerts.fa_relatedEntityType := None;
                        Alerts.fa_status := None |} p Board.db.
Proof.
  intros p.
  assert (H : "LOW_STOCK_WARNING" ≠ "") by (apply (bool_decide_unpack _); vm_compute; exact I).
  split; [exact H |].
  exact (findByType_is_filtered_findAll "LOW_STOCK_WARNING" p Board.db H).
Defined.

(** X22. [getRecentActivity] answers the first page of the unfiltered
    [findAll]: for a limit of at least 1 (20 when none is given) its logs
    are those of [findAll] called without filters for page 1 with that
    limit. *)
Theorem recent_activity_is_first_page (n : option Z) (s : Store) :
  1 ≤ default 20 n →
  ∃ pg, Audit.findAll {| Audit.f_entityType := None; Audit.f_action := None;
                         Audit.f_performedBy := None; Audit.f_performedByRole := None;
                         Audit.f_status := None; Audit.f_dateFrom := None;
                         Audit.f_dateTo := None |}
                      {| Audit.pg_page := None; Audit.pg_limit := Some (default 20 n) |} s
        = (Returned pg, s)
    ∧ Audit.getRecentActivity n s = (Returned (Audit.logs pg), s)
    ∧ Audit.total pg = Z.of_nat (length (audit_logs s)).
Proof.
  intros Hn. unfold Audit.getRecentActivity.
  generalize dependent (default 20 n). intros k Hk.
  assert (Hf : ∀ l : list AuditLog, filter (λ _, true = true) l = l).
  { intros l. induction l as [|x l IH]; [done |].
    rewrite filter_cons, decide_True by done. by rewrite IH. }
  eexists. split.
  { unfold Audit.findAll, Audit.paginated, mbind, Js_bind, Audit.countDocuments,
      Audit.find, Audit.toArray, Audit.limit_of, Audit.page_of, Audit.query_of,
      Audit.when_set. simpl.
    rewrite bool_decide_eq_false_2 by lia. reflexivity. }
  simpl. rewrite Hf. split; [| done].
  unfold mbind, Js_bind, Audit.find, Audit.toArray. simpl.
  rewrite Hf, bool_decide_eq_false_2 by lia. done.
Qed.

Lemma recent_activity_is_first_page_witness :
  1 ≤ default 20 (Some 2)
  ∧ ∃ pg, Audit.findAll {| Audit.f_entityType := None; Audit.f_action := None;
                           Audit.f_performedBy := None; Audit.f_performedByRole := None;
                           Audit.f_status := None; Audit.f_dateFrom := None;
                           Audit.f_dateTo := None |}
                        {| Audit.pg_page := None;
                           Audit.pg_limit := Some (default 20 (Some 2)) |} Scenario.audited
          = (Returned pg, Scenario.audited)
      ∧ Audit.getRecentActivity (Some 2) Scenario.audited
        = (Returned (Audit.logs pg), Scenario.audited)
      ∧ Audit.total pg = Z.of_nat (length (audit_logs Scenario.audited)).
Proof.
  assert (H : 1 ≤ default 20 (Some 2)) by (simpl; lia).
  split; [exact H |].
  exact (recent_activity_is_first_page (Some 2) Scenario.audited H).
Defined.
